(** * Checkpoint mirroring and latest-checkpoint discovery

    A shallow embedding of the code cells of [resuming_training.ipynb]:
    the two [TrainerCallback]s that upload a freshly saved checkpoint
    directory to S3 and to GCS, and [CloudCheckpointLoader], which lists a
    bucket, picks the most recent checkpoint directory and downloads it.

    Python code is embedded in a state-and-exception monad over a [World]
    that holds the module globals of the notebook, the local file system,
    the two object stores and the trace of SDK and file-system calls. *)

From Stdlib Require Import String Ascii List ZArith Lia Bool.
From Stdlib Require Import Permutation Sorted DecimalString.
Import ListNotations.
Open Scope string_scope.
Open Scope Z_scope.

Set Implicit Arguments.

(** ** Python primitives used by the notebook *)

Module Py.

(** [str(n)] for an [int]. *)
Definition str (n : Z) : string := NilZero.string_of_int (Z.to_int n).

(** [sep.join(parts)]. *)
Definition join (sep : string) (parts : list string) : string :=
  String.concat sep parts.

(** [s.split(sep)] for a one-character separator: never empty. *)
Fixpoint split (sep : ascii) (s : string) : list string :=
  match s with
  | EmptyString => [EmptyString]
  | String c r =>
      if Ascii.eqb c sep then EmptyString :: split sep r
      else match split sep r with
           | [] => [String c EmptyString]
           | h :: t => String c h :: t
           end
  end.

(** [needle in hay] on strings: substring test. *)
Fixpoint contains (needle hay : string) : bool :=
  String.prefix needle hay ||
  match hay with
  | EmptyString => false
  | String _ r => contains needle r
  end.

(** [l[-1]]: [None] stands for the [IndexError] of an empty list. *)
Fixpoint last_item {A} (l : list A) : option A :=
  match l with
  | [] => None
  | [x] => Some x
  | _ :: r => last_item r
  end.

(** [sorted(l, key=key)] with integer keys.  Python's sort is stable, and
    a stable sort has one result only, so the insertion sort below returns
    the very list that [sorted] returns. *)
Section Sorted.
Variable A : Type.
Variable key : A -> Z.

Fixpoint insert (x : A) (l : list A) : list A :=
  match l with
  | [] => [x]
  | y :: r => if key x <=? key y then x :: y :: r else y :: insert x r
  end.

Fixpoint sorted (l : list A) : list A :=
  match l with
  | [] => []
  | x :: r => insert x (sorted r)
  end.
End Sorted.

End Py.

(** ** Exceptions and values *)

Inductive exn : Type :=
| KeyError (k : string)
| IndexError
| AssertionError (msg : string)
| ValueError (msg : string)
| FileNotFoundError (path : string)
| NotADirectoryError (path : string)
| IsADirectoryError (path : string)
| FileExistsError (path : string)
| S3Error (what : string)      (* botocore ClientError, S3UploadFailedError *)
| GCSError (what : string).    (* google.api_core exceptions *)

(** What a Python call hands back: a function that falls off its end
    returns [None]. *)
Inductive pyval : Type :=
| PyNone
| PyStr (s : string).

Inductive result (A : Type) : Type :=
| Ok (a : A)
| Raise (e : exn).
Arguments Ok {A} a.
Arguments Raise {A} e.

(** ** The world *)

(** One stored object.  [LastModified] is the integer that the sort key
    [int(obj['LastModified'].strftime('%s'))] (for GCS, [time_created])
    evaluates to: seconds since the epoch. *)
Record RemoteObject : Type := mkObject {
  Key : string;
  LastModified : Z;
  Body : string
}.

(** Object stores: bucket name to objects, in listing order.  The list of a
    bucket is what one listing call returns: for GCS every object, for the
    single [list_objects_v2] call of the loader every object of a bucket
    that holds at most 1000. *)
Definition store := list (string * list RemoteObject).

(** The local file system below the working directory. *)
#[local] Unset Elimination Schemes.
Inductive node : Type :=
| File (content : string)
| Dir (entries : list (string * node)).
#[local] Set Elimination Schemes.

Inductive event : Type :=
| Print (msg : string)
| S3ListObjectsV2 (bucket : string)
| S3UploadFile (filename bucket key : string)
| S3DownloadFile (bucket key filename : string)
| GCSGetBucket (name : string)
| GCSListBlobs (bucket : string)
| GCSUploadFromFilename (bucket blob filename : string)
| GCSDownloadToFilename (bucket blob filename : string)
| MakeDirs (path : string)
| WriteFile (path content : string).

Record World : Type := mkWorld {
  (* module globals of the notebook *)
  training_name : string;
  s3_bucket_name : string;
  gcs_bucket_name : string;
  (* local file system, read by the callbacks *)
  cwd : node;
  (* remote stores *)
  s3 : store;
  gcs : store;
  (* keys whose transfer the backend refuses or loses *)
  s3_faulty : list string;
  gcs_faulty : list string;
  (* time stamp the stores give to a write *)
  clock : Z;
  (* SDK calls issued and local writes performed, oldest first *)
  trace : list event
}.

Definition with_trace (w : World) (t : list event) : World :=
  mkWorld (training_name w) (s3_bucket_name w) (gcs_bucket_name w) (cwd w)
          (s3 w) (gcs w) (s3_faulty w) (gcs_faulty w) (clock w) t.

Definition with_s3 (w : World) (s : store) : World :=
  mkWorld (training_name w) (s3_bucket_name w) (gcs_bucket_name w) (cwd w)
          s (gcs w) (s3_faulty w) (gcs_faulty w) (clock w) (trace w).

Definition with_gcs (w : World) (s : store) : World :=
  mkWorld (training_name w) (s3_bucket_name w) (gcs_bucket_name w) (cwd w)
          (s3 w) s (s3_faulty w) (gcs_faulty w) (clock w) (trace w).

Definition with_s3_bucket_name (w : World) (b : string) : World :=
  mkWorld (training_name w) b (gcs_bucket_name w) (cwd w)
          (s3 w) (gcs w) (s3_faulty w) (gcs_faulty w) (clock w) (trace w).

(** ** The monad: state passing, exceptions keep the state reached *)

Definition M (A : Type) : Type := World -> result A * World.

Definition ret {A} (a : A) : M A := fun w => (Ok a, w).

Definition raise {A} (e : exn) : M A := fun w => (Raise e, w).

Definition bind {A B} (m : M A) (k : A -> M B) : M B :=
  fun w =>
    match m w with
    | (Ok a, w') => k a w'
    | (Raise e, w') => (Raise e, w')
    end.

Notation "x <- m ;; k" := (bind m (fun x => k))
  (at level 61, m at next level, right associativity).
Notation "' p <- m ;; k" := (bind m (fun p => k))
  (at level 61, p pattern, m at next level, right associativity).
Notation "m ;;; k" := (bind m (fun _ => k))
  (at level 61, right associativity).

Definition get {A} (f : World -> A) : M A := fun w => (Ok (f w), w).

Definition emit (e : event) : M unit :=
  fun w => (Ok tt, with_trace w (trace w ++ [e])).

(** [for x in l: body(x)]. *)
Fixpoint for_ {A} (l : list A) (body : A -> M unit) : M unit :=
  match l with
  | [] => ret tt
  | x :: r => body x ;;; for_ r body
  end.

(** [l[i]] and [l[-1]] raise [IndexError] out of range. *)
Definition getitem {A} (l : list A) (i : nat) : M A :=
  match nth_error l i with
  | Some x => ret x
  | None => raise IndexError
  end.

Definition getlast {A} (l : list A) : M A :=
  match Py.last_item l with
  | Some x => ret x
  | None => raise IndexError
  end.

(** ** Local file system *)

Fixpoint lookup {A} (k : string) (l : list (string * A)) : option A :=
  match l with
  | [] => None
  | (k', v) :: r => if String.eqb k k' then Some v else lookup k r
  end.

Fixpoint walk (path : list string) (n : node) : option node :=
  match path with
  | [] => Some n
  | c :: cs =>
      match n with
      | File _ => None
      | Dir es =>
          match lookup c es with
          | Some n' => walk cs n'
          | None => None
          end
      end
  end.

(** A relative path names the node reached component by component. *)
Definition resolve (path : string) (root : node) : option node :=
  walk (Py.split "/"%char path) root.

(** Regular files in a tree, nested ones included. *)
Fixpoint count_files (n : node) : nat :=
  match n with
  | File _ => 1%nat
  | Dir es =>
      (fix go (l : list (string * node)) : nat :=
         match l with
         | [] => 0%nat
         | (_, c) :: r => (count_files c + go r)%nat
         end) es
  end.

(** [os.listdir(path)]: the names of the entries, files and directories. *)
Definition os_listdir (path : string) : M (list string) :=
  root <- get cwd ;;
  match resolve path root with
  | Some (Dir es) => ret (map fst es)
  | Some (File _) => raise (NotADirectoryError path)
  | None => raise (FileNotFoundError path)
  end.

(** *** The tree that local writes leave

    [cwd] is the tree as the callbacks read it.  The loader's local writes
    are kept in the trace; [fs_now] replays them on [cwd] and gives the tree
    that [os.makedirs] and the download calls find. *)

Fixpoint set_entry (c : string) (n : node) (es : list (string * node))
  : list (string * node) :=
  match es with
  | [] => [(c, n)]
  | (c', n') :: r =>
      if String.eqb c c' then (c', n) :: r else (c', n') :: set_entry c n r
  end.

(** The directories missing along [path] are created; a regular file on the
    way stops the descent. *)
Fixpoint mkdirs (path : list string) (n : node) : node :=
  match path with
  | [] => n
  | c :: cs =>
      match n with
      | File _ => n
      | Dir es =>
          match lookup c es with
          | Some child => Dir (set_entry c (mkdirs cs child) es)
          | None => Dir (set_entry c (mkdirs cs (Dir [])) es)
          end
      end
  end.

(** A file is created or replaced at [path] when its parent is a directory
    and [path] itself is not one. *)
Fixpoint write_file (path : list string) (content : string) (n : node) : node :=
  match path, n with
  | [], _ => n
  | _, File _ => n
  | [c], Dir es =>
      match lookup c es with
      | Some (Dir _) => n
      | _ => Dir (set_entry c (File content) es)
      end
  | c :: cs, Dir es =>
      match lookup c es with
      | Some child => Dir (set_entry c (write_file cs content child) es)
      | None => n
      end
  end.

Definition is_dir (path : list string) (n : node) : bool :=
  match walk path n with
  | Some (Dir _) => true
  | _ => false
  end.

(** Walking [path] meets a regular file: the path or one of its ancestors. *)
Fixpoint hits_file (path : list string) (n : node) : bool :=
  match n with
  | File _ => true
  | Dir es =>
      match path with
      | [] => false
      | c :: cs =>
          match lookup c es with
          | Some child => hits_file cs child
          | None => false
          end
      end
  end.

Definition apply_write (e : event) (n : node) : node :=
  match e with
  | MakeDirs path => mkdirs (Py.split "/"%char path) n
  | WriteFile path content => write_file (Py.split "/"%char path) content n
  | _ => n
  end.

Definition fs_now (w : World) : node :=
  fold_left (fun n e => apply_write e n) (trace w) (cwd w).

(** [os.makedirs(path, exist_ok=True)]: an existing directory is accepted,
    a regular file at the path or above it is an error. *)
Definition os_makedirs (path : string) : M unit :=
  fs <- get fs_now ;;
  let components := Py.split "/"%char path in
  if hits_file components fs then
    match walk components fs with
    | Some (File _) => raise (FileExistsError path)
    | _ => raise (NotADirectoryError path)
    end
  else emit (MakeDirs path).

(** Why a file cannot be created in the directory that should hold
    [filename], if it cannot. *)
Definition parent_error (fs : node) (filename : string) : option exn :=
  let parent := removelast (Py.split "/"%char filename) in
  if is_dir parent fs then None
  else if hits_file parent fs then Some (NotADirectoryError filename)
  else Some (FileNotFoundError filename).

(** Opening a local file for reading, as both SDKs do before they send. *)
Definition read_local (filename : string) : M string :=
  root <- get cwd ;;
  match resolve filename root with
  | Some (File body) => ret body
  | Some (Dir _) => raise (IsADirectoryError filename)
  | None => raise (FileNotFoundError filename)
  end.

(** ** Object stores *)

Definition mem (k : string) (l : list string) : bool :=
  existsb (String.eqb k) l.

(** Both stores list a bucket in the order of the keys. *)
Fixpoint insert_by_key (o : RemoteObject) (objs : list RemoteObject)
  : list RemoteObject :=
  match objs with
  | [] => [o]
  | x :: r =>
      if String.leb (Key o) (Key x) then o :: x :: r
      else x :: insert_by_key o r
  end.

(** A write replaces the object of the same key and takes the place of its
    key in the listing. *)
Definition put (o : RemoteObject) (objs : list RemoteObject)
  : list RemoteObject :=
  insert_by_key o (filter (fun o' => negb (String.eqb (Key o') (Key o))) objs).

Fixpoint set_bucket (b : string) (objs : list RemoteObject) (s : store)
  : store :=
  match s with
  | [] => []
  | (b', objs') :: r =>
      if String.eqb b b' then (b', objs) :: r
      else (b', objs') :: set_bucket b objs r
  end.

Fixpoint find_object (k : string) (objs : list RemoteObject)
  : option RemoteObject :=
  match objs with
  | [] => None
  | o :: r => if String.eqb k (Key o) then Some o else find_object k r
  end.

(** [s3_client.upload_file(Filename, Bucket, Key)]. *)
Definition s3_upload_file (filename bucket key : string) : M unit :=
  emit (S3UploadFile filename bucket key) ;;;
  body <- read_local filename ;;
  st <- get s3 ;;
  faulty <- get s3_faulty ;;
  now <- get clock ;;
  match lookup bucket st with
  | None => raise (S3Error "NoSuchBucket")
  | Some objs =>
      if mem key faulty then raise (S3Error "upload failed")
      else fun w =>
             (Ok tt, with_s3 w (set_bucket bucket (put (mkObject key now body) objs) st))
  end.

(** [s3_client.download_file(Bucket, Key, Filename)]: the object is looked
    up, its bytes are received in a temporary file beside [Filename], and
    that file is renamed to [Filename]. *)
Definition s3_download_file (bucket key filename : string) : M unit :=
  emit (S3DownloadFile bucket key filename) ;;;
  st <- get s3 ;;
  faulty <- get s3_faulty ;;
  fs <- get fs_now ;;
  match lookup bucket st with
  | None => raise (S3Error "NoSuchBucket")
  | Some objs =>
      match find_object key objs with
      | None => raise (S3Error "404")
      | Some o =>
          match parent_error fs filename with
          | Some e => raise e
          | None =>
              if mem key faulty then raise (S3Error "download failed")
              else if is_dir (Py.split "/"%char filename) fs
                   then raise (IsADirectoryError filename)
                   else emit (WriteFile filename (Body o))
          end
      end
  end.

(** The response of [list_objects_v2]: a dict that has no ["Contents"] entry
    when the bucket holds nothing. *)
Record ListObjectsV2Response : Type := mkResponse {
  Contents : option (list RemoteObject)
}.

(** [s3_client.list_objects_v2(Bucket=bucket)], called once: the first
    page of the bucket, which is what the store holds for it (see
    [store]). *)
Definition s3_list_objects_v2 (bucket : string) : M ListObjectsV2Response :=
  emit (S3ListObjectsV2 bucket) ;;;
  st <- get s3 ;;
  match lookup bucket st with
  | None => raise (S3Error "NoSuchBucket")
  | Some [] => ret (mkResponse None)
  | Some objs => ret (mkResponse (Some objs))
  end.

(** [response["Contents"]]. *)
Definition response_Contents (r : ListObjectsV2Response)
  : M (list RemoteObject) :=
  match Contents r with
  | Some objs => ret objs
  | None => raise (KeyError "Contents")
  end.

(** A GCS bucket handle holds the bucket's name. *)
Record Bucket : Type := mkBucket { bucket_name : string }.

(** [gcs_client.get_bucket(name)]: asks the service for the bucket. *)
Definition gcs_get_bucket (name : string) : M Bucket :=
  emit (GCSGetBucket name) ;;;
  st <- get gcs ;;
  match lookup name st with
  | None => raise (GCSError "NotFound")
  | Some _ => ret (mkBucket name)
  end.

(** [bucket.blob(name)]: a local handle, no request is sent. *)
Record Blob : Type := mkBlob { blob_bucket : Bucket; blob_name : string }.

Definition bucket_blob (b : Bucket) (name : string) : Blob := mkBlob b name.

(** [blob.upload_from_filename(filename)]. *)
Definition blob_upload_from_filename (blob : Blob) (filename : string)
  : M unit :=
  let b := bucket_name (blob_bucket blob) in
  emit (GCSUploadFromFilename b (blob_name blob) filename) ;;;
  body <- read_local filename ;;
  st <- get gcs ;;
  faulty <- get gcs_faulty ;;
  now <- get clock ;;
  match lookup b st with
  | None => raise (GCSError "NotFound")
  | Some objs =>
      if mem (blob_name blob) faulty then raise (GCSError "upload failed")
      else fun w =>
             (Ok tt,
              with_gcs w (set_bucket b (put (mkObject (blob_name blob) now body) objs) st))
  end.

(** [blob.download_to_filename(filename)]: the local file is opened for
    writing before the object is asked for.  What a transfer that fails
    leaves at [filename], an empty file or none, depends on the version of
    the SDK; the trace records the call and no write. *)
Definition blob_download_to_filename (blob : Blob) (filename : string)
  : M unit :=
  let b := bucket_name (blob_bucket blob) in
  emit (GCSDownloadToFilename b (blob_name blob) filename) ;;;
  st <- get gcs ;;
  faulty <- get gcs_faulty ;;
  fs <- get fs_now ;;
  match parent_error fs filename with
  | Some e => raise e
  | None =>
      if is_dir (Py.split "/"%char filename) fs
      then raise (IsADirectoryError filename)
      else
        match lookup b st with
        | None => raise (GCSError "NotFound")
        | Some objs =>
            match find_object (blob_name blob) objs with
            | None => raise (GCSError "NotFound")
            | Some o =>
                if mem (blob_name blob) faulty
                then raise (GCSError "download failed")
                else emit (WriteFile filename (Body o))
            end
        end
  end.

(** [list(bucket.list_blobs())]. *)
Definition bucket_list_blobs (b : Bucket) : M (list RemoteObject) :=
  emit (GCSListBlobs (bucket_name b)) ;;;
  st <- get gcs ;;
  match lookup (bucket_name b) st with
  | None => raise (GCSError "NotFound")
  | Some objs => ret objs
  end.

(** ** The callbacks *)

(** The part of [TrainerState] that the callbacks read. *)
Record TrainerState : Type := mkTrainerState { global_step : Z }.

(** ["{}/checkpoint-{}".format(training_name, state.global_step)]. *)
Definition checkpoint_folder (name : string) (step : Z) : string :=
  name ++ "/checkpoint-" ++ Py.str step.

Module SaveCheckpointsToS3Callback.

Definition on_save (state : TrainerState) : M unit :=
  training_name <- get training_name ;;
  let model_checkpoint := checkpoint_folder training_name (global_step state) in
  names <- os_listdir model_checkpoint ;;
  for_ names (fun filename =>
    let filename_path := Py.join "/" [model_checkpoint; filename] in
    s3_bucket_name <- get s3_bucket_name ;;
    s3_upload_file filename_path s3_bucket_name filename_path).

End SaveCheckpointsToS3Callback.

Module SaveCheckpointsToGCSCallback.

Definition on_save (state : TrainerState) : M unit :=
  training_name <- get training_name ;;
  let model_checkpoint := checkpoint_folder training_name (global_step state) in
  gcs_bucket_name <- get gcs_bucket_name ;;
  bucket <- gcs_get_bucket gcs_bucket_name ;;
  names <- os_listdir model_checkpoint ;;
  for_ names (fun filename =>
    let filename_path := Py.join "/" [model_checkpoint; filename] in
    let blob := bucket_blob bucket filename_path in
    blob_upload_from_filename blob filename_path).

End SaveCheckpointsToGCSCallback.

(** ** The loader *)

Module CloudCheckpointLoader.

Record t : Type := mkLoader { bucket_type : string }.

Definition invalid_bucket_type : string :=
  "Invalid bucket type. Please choose either s3 or gcs".

Definition __init__ (bucket_type : string) : M t :=
  let self := mkLoader bucket_type in
  if mem (CloudCheckpointLoader.bucket_type self) ["s3"; "gcs"]
  then ret self
  else raise (AssertionError invalid_bucket_type).

Definition __get_last_checkpoint_from_s3 (self : t)
  : M (string * list string) :=
  response <- s3_list_objects_v2 "hf-demo-s3-checkpointing-sagemaker" ;;
  contents <- response_Contents response ;;
  let sorted_content := Py.sorted LastModified contents in
  let sorted_keys := map Key sorted_content in
  last_key <- getlast sorted_keys ;;
  checkpoint_dir <- getitem (Py.split "/"%char last_key) 1 ;;
  let checkpoint_files :=
    filter (fun key => Py.contains checkpoint_dir key) sorted_keys in
  ret (checkpoint_dir, checkpoint_files).

Definition __get_last_checkpoint_from_gcs (self : t) (bucket : Bucket)
  : M (string * list string) :=
  blobs <- bucket_list_blobs bucket ;;
  let sorted_content := Py.sorted LastModified blobs in
  let sorted_keys := map Key sorted_content in
  last_key <- getlast sorted_keys ;;
  checkpoint_dir <- getitem (Py.split "/"%char last_key) 1 ;;
  let checkpoint_files :=
    filter (fun key => Py.contains checkpoint_dir key) sorted_keys in
  ret (checkpoint_dir, checkpoint_files).

(** The body ends without a [return]: the call evaluates to [None]. *)
Definition download_checkpoints (self : t) : M pyval :=
  if String.eqb (bucket_type self) "s3" then
    emit (Print "Downloading checkpoints from S3...") ;;;
    '(checkpoint_dir, checkpoint_files) <- __get_last_checkpoint_from_s3 self ;;
    training_name <- get training_name ;;
    let path_to_checkpoint := Py.join "/" [training_name; checkpoint_dir] in
    os_makedirs path_to_checkpoint ;;;
    for_ checkpoint_files (fun file =>
      s3_bucket_name <- get s3_bucket_name ;;
      s3_download_file s3_bucket_name file file) ;;;
    ret PyNone
  else if String.eqb (bucket_type self) "gcs" then
    gcs_bucket_name <- get gcs_bucket_name ;;
    bucket <- gcs_get_bucket gcs_bucket_name ;;
    emit (Print "Downloading checkpoints from GCS...") ;;;
    '(checkpoint_dir, checkpoint_files) <- __get_last_checkpoint_from_gcs self bucket ;;
    training_name <- get training_name ;;
    let path_to_checkpoint := Py.join "/" [training_name; checkpoint_dir] in
    os_makedirs path_to_checkpoint ;;;
    for_ checkpoint_files (fun file =>
      let blob := bucket_blob bucket file in
      blob_download_to_filename blob file) ;;;
    ret PyNone
  else
    raise (ValueError invalid_bucket_type).

End CloudCheckpointLoader.

(** ** Observations on a trace *)

Definition is_fs_write (e : event) : bool :=
  match e with
  | MakeDirs _ | WriteFile _ _ => true
  | _ => false
  end.

Definition is_network_call (e : event) : bool :=
  match e with
  | S3ListObjectsV2 _ | S3UploadFile _ _ _ | S3DownloadFile _ _ _
  | GCSGetBucket _ | GCSListBlobs _
  | GCSUploadFromFilename _ _ _ | GCSDownloadToFilename _ _ _ => true
  | _ => false
  end.

(** The events of a trace that [f] recognises, in order. *)
Fixpoint collect {B} (f : event -> option B) (t : list event) : list B :=
  match t with
  | [] => []
  | e :: r =>
      match f e with
      | Some b => b :: collect f r
      | None => collect f r
      end
  end.

(** An upload call seen from outside: the local file sent and the remote key
    it is sent to. *)
Definition upload_of (e : event) : option (string * string) :=
  match e with
  | S3UploadFile filename _ key => Some (filename, key)
  | GCSUploadFromFilename _ blob filename => Some (filename, blob)
  | _ => None
  end.

Definition uploads : list event -> list (string * string) := collect upload_of.

(** The remote key that a download call asks for. *)
Definition download_of (e : event) : option string :=
  match e with
  | S3DownloadFile _ key _ => Some key
  | GCSDownloadToFilename _ blob _ => Some blob
  | _ => None
  end.

Definition downloads : list event -> list string := collect download_of.

(** The bucket an S3 listing call reads, and the bucket an S3 download call
    reads. *)
Definition s3_listed_bucket (e : event) : option string :=
  match e with
  | S3ListObjectsV2 b => Some b
  | _ => None
  end.

Definition s3_download_bucket (e : event) : option string :=
  match e with
  | S3DownloadFile b _ _ => Some b
  | _ => None
  end.

Definition fs_write_of (e : event) : option event :=
  if is_fs_write e then Some e else None.

Definition network_call_of (e : event) : option event :=
  if is_network_call e then Some e else None.

(** ** Vocabulary of the statements *)

(** The fields that no operation of the notebook writes. *)
Definition frame (w w' : World) : Prop :=
  training_name w' = training_name w /\
  s3_bucket_name w' = s3_bucket_name w /\
  gcs_bucket_name w' = gcs_bucket_name w /\
  cwd w' = cwd w /\
  s3_faulty w' = s3_faulty w /\
  gcs_faulty w' = gcs_faulty w /\
  clock w' = clock w.

Section Newest.
Variable A : Type.
Variable key : A -> Z.

Definition le_key (a b : A) : Prop := key a <= key b.

(** The newest element: greatest key, the later one among equals. *)
Fixpoint latest (l : list A) : option A :=
  match l with
  | [] => None
  | x :: r =>
      match latest r with
      | None => Some x
      | Some m => if key m <? key x then Some x else Some m
      end
  end.

End Newest.

Module Latest.

Definition listing_bucket : string := "hf-demo-s3-checkpointing-sagemaker".

(** What the two [__get_last_checkpoint_from_*] helpers compute from the
    objects that the listing call returned. *)
Definition select (objs : list RemoteObject) : result (string * list string) :=
  match Py.last_item (Py.sorted LastModified objs) with
  | None => Raise IndexError
  | Some o =>
      match nth_error (Py.split "/"%char (Key o)) 1 with
      | None => Raise IndexError
      | Some d =>
          Ok (d, filter (fun key => Py.contains d key)
                        (map Key (Py.sorted LastModified objs)))
      end
  end.

End Latest.

Module Download.

(** The two download loops of [download_checkpoints]. *)
Definition s3_loop (files : list string) : M unit :=
  for_ files (fun file =>
    s3_bucket_name <- get s3_bucket_name ;;
    s3_download_file s3_bucket_name file file).

Definition gcs_loop (bucket : Bucket) (files : list string) : M unit :=
  for_ files (fun file =>
    let blob := bucket_blob bucket file in
    blob_download_to_filename blob file).

End Download.

Definition is_value_error (e : exn) : bool :=
  match e with
  | ValueError _ => true
  | _ => false
  end.

(** [m] never raises [ValueError]. *)
Definition never_value_error {A} (m : M A) : Prop :=
  forall w e w', m w = (Raise e, w') -> is_value_error e = false.

Module Paths.

(** A directory of regular files whose names hold no slash. *)
Definition flat (es : list (string * node)) : Prop :=
  Forall (fun e => (exists c, snd e = File c) /\ Py.contains "/" (fst e) = false) es.

End Paths.

(** The names a loop reaches when it stops at the first [x] with
    [ok x = false]: every name before it, and that name. *)
Fixpoint attempts {A} (ok : A -> bool) (l : list A) : list A :=
  match l with
  | [] => []
  | x :: r => if ok x then x :: attempts ok r else [x]
  end.

(** The names before the first failure. *)
Fixpoint succeeded {A} (ok : A -> bool) (l : list A) : list A :=
  match l with
  | [] => []
  | x :: r => if ok x then x :: succeeded ok r else []
  end.

Module S3Upload.

(** The upload of local path [p] to the configured bucket goes through:
    [p] is a regular file, the bucket exists, the transfer is not lost. *)
Definition uploadable (w : World) (p : string) : bool :=
  match resolve p (cwd w) with
  | Some (File _) =>
      match lookup (s3_bucket_name w) (s3 w) with
      | Some _ => negb (mem p (s3_faulty w))
      | None => false
      end
  | _ => false
  end.

(** The configured bucket holds, under key [k], the bytes of local file [k]. *)
Definition mirrored (w : World) (k : string) : Prop :=
  exists objs o,
    lookup (s3_bucket_name w) (s3 w) = Some objs /\
    find_object k objs = Some o /\
    resolve k (cwd w) = Some (File (Body o)).

Definition call (w : World) (p : string) : event :=
  S3UploadFile p (s3_bucket_name w) p.

(** The body of the loop of [on_save]. *)
Definition body (model_checkpoint filename : string) : M unit :=
  let filename_path := Py.join "/" [model_checkpoint; filename] in
  s3_bucket_name <- get s3_bucket_name ;;
  s3_upload_file filename_path s3_bucket_name filename_path.

End S3Upload.

Module GCSUpload.

(** The upload of local path [p] to bucket [b] goes through. *)
Definition uploadable (b : string) (w : World) (p : string) : bool :=
  match resolve p (cwd w) with
  | Some (File _) =>
      match lookup b (gcs w) with
      | Some _ => negb (mem p (gcs_faulty w))
      | None => false
      end
  | _ => false
  end.

(** Bucket [b] holds, under name [k], the bytes of local file [k]. *)
Definition mirrored (b : string) (w : World) (k : string) : Prop :=
  exists objs o,
    lookup b (gcs w) = Some objs /\
    find_object k objs = Some o /\
    resolve k (cwd w) = Some (File (Body o)).

Definition call (b p : string) : event := GCSUploadFromFilename b p p.

(** The body of the loop of [on_save]. *)
Definition body (bucket : Bucket) (model_checkpoint filename : string) : M unit :=
  let filename_path := Py.join "/" [model_checkpoint; filename] in
  let blob := bucket_blob bucket filename_path in
  blob_upload_from_filename blob filename_path.

End GCSUpload.

(** What an upload call for entry [n] of [mc] looks like from outside: the
    local path sent and the remote key, both [mc/n]. *)
Definition sent (mc : string) (names : list string) : list (string * string) :=
  map (fun n => (Py.join "/" [mc; n], Py.join "/" [mc; n])) names.

(** ** A world to run the notebook in *)

Module Demo.

Definition objects : list RemoteObject :=
  [ mkObject "trainer-demo-checkpointing/checkpoint-100/config.json" 5 "c100";
    mkObject "trainer-demo-checkpointing/checkpoint-100/model.bin" 5 "m100";
    mkObject "trainer-demo-checkpointing/checkpoint-50/config.json" 2 "c50";
    mkObject "trainer-demo-checkpointing/checkpoint-50/model.bin" 2 "m50" ].

Definition checkpoint_10 : node :=
  Dir [("config.json", File "{}"); ("weights.bin", File "12345")].

(** The globals as the notebook sets them. *)
Definition world : World :=
  mkWorld "trainer-demo-checkpointing"
          "hf-demo-s3-checkpointing-sagemaker"
          "hf-demo-gcs-checkpointing"
          (Dir [("trainer-demo-checkpointing", Dir [("checkpoint-10", checkpoint_10)])])
          [("hf-demo-s3-checkpointing-sagemaker", objects)]
          [("hf-demo-gcs-checkpointing", objects)]
          [] [] 9 [].

(** Both buckets exist and hold nothing. *)
Definition empty_world : World :=
  with_gcs (with_s3 world [("hf-demo-s3-checkpointing-sagemaker", [])])
           [("hf-demo-gcs-checkpointing", [])].

(** The newest object lies at the top of the bucket. *)
Definition flat_world : World :=
  with_gcs (with_s3 world [("hf-demo-s3-checkpointing-sagemaker",
                            [mkObject "model.bin" 1 "m"])])
           [("hf-demo-gcs-checkpointing", [mkObject "model.bin" 1 "m"])].

(** A checkpoint directory that holds a subdirectory of two files. *)
Definition nested_world : World :=
  mkWorld "trainer-demo-checkpointing"
          "hf-demo-s3-checkpointing-sagemaker"
          "hf-demo-gcs-checkpointing"
          (Dir [("trainer-demo-checkpointing",
                 Dir [("checkpoint-10",
                       Dir [("global_step10",
                             Dir [("optim.pt", File "o"); ("model.pt", File "m")])])])])
          [("hf-demo-s3-checkpointing-sagemaker", [])]
          [("hf-demo-gcs-checkpointing", [])]
          [] [] 9 [].

(** Both stores lose the transfer of weights.bin. *)
Definition faulty_world : World :=
  mkWorld "trainer-demo-checkpointing"
          "hf-demo-s3-checkpointing-sagemaker"
          "hf-demo-gcs-checkpointing"
          (Dir [("trainer-demo-checkpointing", Dir [("checkpoint-10", checkpoint_10)])])
          [("hf-demo-s3-checkpointing-sagemaker", objects)]
          [("hf-demo-gcs-checkpointing", objects)]
          ["trainer-demo-checkpointing/checkpoint-10/weights.bin"]
          ["trainer-demo-checkpointing/checkpoint-10/weights.bin"]
          9 [].

End Demo.

(** ** Vocabulary of the further properties *)

(** The name of the checkpoint directory of a step, the second component of
    the path that [checkpoint_folder] builds. *)
Definition checkpoint_name (step : Z) : string := "checkpoint-" ++ Py.str step.

(** The object stored in bucket [b] under key [k]. *)
Definition object_at (st : store) (b k : string) : option RemoteObject :=
  match lookup b st with
  | Some objs => find_object k objs
  | None => None
  end.

(** Every object of the list was written before [now]. *)
Definition older_than (now : Z) (objs : list RemoteObject) : Prop :=
  Forall (fun o => LastModified o < now) objs.

(** However [m] ends, the world it leaves is [R]-related to the one it
    found. *)
Definition relates {A} (R : World -> World -> Prop) (m : M A) : Prop :=
  forall w r w', m w = (r, w') -> R w w'.

(** [w'] differs from [w] by trace entries that are not upload calls. *)
Definition read_only (w w' : World) : Prop :=
  frame w w' /\ s3 w' = s3 w /\ gcs w' = gcs w /\
  uploads (trace w') = uploads (trace w).

(** A key below the folder [mc]. *)
Definition below (mc k : string) : Prop := exists n, k = Py.join "/" [mc; n].

(** From [w] to [w'] the GCS store is untouched and, in the S3 store, only
    objects of the configured bucket whose key lies below [mc] may differ. *)
Definition s3_touches_only (mc : string) (w w' : World) : Prop :=
  frame w w' /\ gcs w' = gcs w /\
  forall b k, b <> s3_bucket_name w \/ ~ below mc k ->
              object_at (s3 w') b k = object_at (s3 w) b k.

Definition gcs_touches_only (mc : string) (w w' : World) : Prop :=
  frame w w' /\ s3 w' = s3 w /\
  forall b k, b <> gcs_bucket_name w \/ ~ below mc k ->
              object_at (gcs w') b k = object_at (gcs w) b k.

(** The local writes of a trace: directories created and files written. *)
Definition fs_writes : list event -> list event := collect fs_write_of.

(** A name that a directory entry can carry: not empty, not "." or "..",
    no slash. *)
Definition is_name (n : string) : bool :=
  negb (Py.contains "/" n) && negb (mem n [""; "."; ".."]).

(** A relative path whose components are all names: the tree is walked
    component by component as the operating system does. *)
Definition plain (path : string) : bool :=
  forallb is_name (Py.split "/"%char path).

Definition is_file (path : list string) (n : node) : bool :=
  match walk path n with
  | Some (File _) => true
  | _ => false
  end.

(** A file can be created or replaced at path [k] of the tree [fs]: the
    directory that should hold it is there, and [k] itself is not a
    directory. *)
Definition writable (fs : node) (k : string) : bool :=
  is_dir (removelast (Py.split "/"%char k)) fs &&
  negb (is_dir (Py.split "/"%char k) fs).

(** The entries of a directory of regular files. *)
Definition regular (es : list (string * node)) : Prop :=
  Forall (fun e => (exists c, snd e = File c) /\ is_name (fst e) = true) es.

(** A key directly below the folder [mc]: the folder, a slash, a name. *)
Definition entry_key (mc k : string) : Prop :=
  exists n, k = Py.join "/" [mc; n] /\ is_name n = true.

Module S3Fetch.

(** The configured bucket hands out key [k]: the bucket exists, holds [k],
    and the transfer is not lost. *)
Definition fetchable (w : World) (k : string) : bool :=
  match object_at (s3 w) (s3_bucket_name w) k with
  | Some _ => negb (mem k (s3_faulty w))
  | None => false
  end.

(** The download of key [k] to the local path [k] goes through in the local
    tree [fs]. *)
Definition downloadable (fs : node) (w : World) (k : string) : bool :=
  fetchable w k && writable fs k.

(** The bytes stored under [k] in the configured bucket. *)
Definition body_at (w : World) (k : string) : string :=
  match object_at (s3 w) (s3_bucket_name w) k with
  | Some o => Body o
  | None => ""
  end.

End S3Fetch.

Module GCSFetch.

Definition fetchable (b : string) (w : World) (k : string) : bool :=
  match object_at (gcs w) b k with
  | Some _ => negb (mem k (gcs_faulty w))
  | None => false
  end.

Definition downloadable (b : string) (fs : node) (w : World) (k : string) : bool :=
  fetchable b w k && writable fs k.

Definition body_at (b : string) (w : World) (k : string) : string :=
  match object_at (gcs w) b k with
  | Some o => Body o
  | None => ""
  end.

End GCSFetch.

Module Fetch.

(** What the helper of the loader's backend returns in world [w]. *)
Definition selection (self : CloudCheckpointLoader.t) (w : World)
  : result (string * list string) :=
  if String.eqb (CloudCheckpointLoader.bucket_type self) "s3"
  then fst (CloudCheckpointLoader.__get_last_checkpoint_from_s3 self w)
  else fst (CloudCheckpointLoader.__get_last_checkpoint_from_gcs self
              (mkBucket (gcs_bucket_name w)) w).

(** The local directory of the selected checkpoint [d]. *)
Definition directory (w : World) (d : string) : string :=
  Py.join "/" [training_name w; d].

(** [os.makedirs] can create the directory of [d], or finds it: its path is
    plain and no regular file lies on it. *)
Definition creatable (w : World) (d : string) : bool :=
  plain (directory w d) &&
  negb (hits_file (Py.split "/"%char (directory w d)) (fs_now w)).

(** The local tree once the directory of [d] is there. *)
Definition tree (w : World) (d : string) : node :=
  mkdirs (Py.split "/"%char (directory w d)) (fs_now w).

(** The store of the loader's backend hands out key [k]. *)
Definition fetchable (self : CloudCheckpointLoader.t) (w : World) (k : string) : bool :=
  if String.eqb (CloudCheckpointLoader.bucket_type self) "s3"
  then S3Fetch.fetchable w k
  else GCSFetch.fetchable (gcs_bucket_name w) w k.

(** The download of key [k] by the loader's backend goes through once the
    directory of [d] is there. *)
Definition downloadable (self : CloudCheckpointLoader.t) (w : World) (d k : string)
  : bool :=
  fetchable self w k && writable (tree w d) k.

(** The same for a key that is a plain path. *)
Definition restorable (self : CloudCheckpointLoader.t) (w : World) (d k : string)
  : bool :=
  plain k && downloadable self w d k.

(** The bytes that the loader's backend stores under [k]. *)
Definition body_at (self : CloudCheckpointLoader.t) (w : World) (k : string) : string :=
  if String.eqb (CloudCheckpointLoader.bucket_type self) "s3"
  then S3Fetch.body_at w k
  else GCSFetch.body_at (gcs_bucket_name w) w k.

(** The objects that the listing call of the loader's backend returns. *)
Definition listing (self : CloudCheckpointLoader.t) (w : World)
  : option (list RemoteObject) :=
  if String.eqb (CloudCheckpointLoader.bucket_type self) "s3"
  then lookup "hf-demo-s3-checkpointing-sagemaker" (s3 w)
  else lookup (gcs_bucket_name w) (gcs w).

(** Two outcomes of the helper that agree: the same directory and the same
    files up to their order, or the same exception. *)
Definition agree (r1 r2 : result (string * list string)) : Prop :=
  match r1, r2 with
  | Ok (d1, files1), Ok (d2, files2) => d1 = d2 /\ Permutation files1 files2
  | Raise e1, Raise e2 => e1 = e2
  | _, _ => False
  end.

(** The local file that a download of [k] writes. *)
Definition written (self : CloudCheckpointLoader.t) (w : World) (k : string) : event :=
  WriteFile k (body_at self w k).

End Fetch.

(** ** The cell that loads the model *)

Module TrainingCell.

(** The cell that builds the model, up to the call of
    [AutoModelForSequenceClassification.from_pretrained], which is library
    code: the embedding returns the first argument that the cell hands to
    it.  The notebook sets [load_from_checkpoint = False]; the flag is a
    parameter here. *)
Definition from_pretrained_argument (load_from_checkpoint : bool) : M pyval :=
  let checkpoint := "bert-base-uncased" in
  if load_from_checkpoint then
    cloud_checkpoint_loader <- CloudCheckpointLoader.__init__ "s3" ;;
    custom_checkpoint <-
      CloudCheckpointLoader.download_checkpoints cloud_checkpoint_loader ;;
    ret custom_checkpoint
  else
    ret (PyStr checkpoint).

End TrainingCell.

Module Scenario.

(** The newest object lies under checkpoint-1, older ones under
    checkpoint-10. *)
Definition prefix_objects : list RemoteObject :=
  [ mkObject "run/checkpoint-1/model.bin" 7 "new";
    mkObject "run/checkpoint-10/model.bin" 3 "old" ].

Definition prefix_world : World :=
  mkWorld "run"
          "hf-demo-s3-checkpointing-sagemaker"
          "hf-demo-gcs-checkpointing"
          (Dir [])
          [("hf-demo-s3-checkpointing-sagemaker", prefix_objects)]
          [("hf-demo-gcs-checkpointing", prefix_objects)]
          [] [] 9 [].


(** The world of the notebook, where both stores lose the transfer of the
    model file of checkpoint-100. *)
Definition lossy_world : World :=
  mkWorld "trainer-demo-checkpointing"
          "hf-demo-s3-checkpointing-sagemaker"
          "hf-demo-gcs-checkpointing"
          (Dir [("trainer-demo-checkpointing", Dir [("checkpoint-10", Demo.checkpoint_10)])])
          [("hf-demo-s3-checkpointing-sagemaker", Demo.objects)]
          [("hf-demo-gcs-checkpointing", Demo.objects)]
          ["trainer-demo-checkpointing/checkpoint-100/model.bin"]
          ["trainer-demo-checkpointing/checkpoint-100/model.bin"]
          9 [].



(** A run at step 10 whose buckets hold checkpoint-50 and an earlier save
    of one file of checkpoint-10. *)
Definition resume_objects : list RemoteObject :=
  [ mkObject "trainer-demo-checkpointing/checkpoint-10/config.json" 1 "old";
    mkObject "trainer-demo-checkpointing/checkpoint-50/config.json" 2 "c50";
    mkObject "trainer-demo-checkpointing/checkpoint-50/model.bin" 2 "m50" ].

Definition resume_world : World :=
  mkWorld "trainer-demo-checkpointing"
          "hf-demo-s3-checkpointing-sagemaker"
          "hf-demo-gcs-checkpointing"
          (Dir [("trainer-demo-checkpointing", Dir [("checkpoint-10", Demo.checkpoint_10)])])
          [("hf-demo-s3-checkpointing-sagemaker", resume_objects)]
          [("hf-demo-gcs-checkpointing", resume_objects)]
          [] [] 9 [].

End Scenario.

(** * Properties *)

(** ** Facts about the Python primitives *)

Module PyFacts.

Lemma split_nonempty (sep : ascii) (s : string) : Py.split sep s <> [].
Proof.
  destruct s as [|c r]; simpl; [discriminate|].
  destruct (Ascii.eqb c sep); [discriminate|].
  destruct (Py.split sep r); discriminate.
Qed.

(** Splitting a path joined with the separator splits both halves. *)
Lemma split_app (sep : ascii) (a b : string) :
  Py.split sep (a ++ String sep b) = (Py.split sep a ++ Py.split sep b)%list.
Proof.
  induction a as [|c a IH]; simpl.
  - now rewrite Ascii.eqb_refl.
  - destruct (Ascii.eqb c sep); [now rewrite IH|].
    rewrite IH.
    destruct (Py.split sep a) eqn:E; [now apply split_nonempty in E|].
    reflexivity.
Qed.

(** A name without the separator is one component. *)
Lemma split_atom (sep : ascii) (s : string) :
  Py.contains (String sep EmptyString) s = false -> Py.split sep s = [s].
Proof.
  induction s as [|c r IH]; simpl; [reflexivity|].
  intros H. apply orb_false_iff in H as [Hp Hc].
  destruct (Ascii.eqb_spec c sep) as [->|Hne].
  - destruct (ascii_dec sep sep) as [_|n]; [|now elim n].
    destruct r; discriminate.
  - now rewrite (IH Hc).
Qed.

Lemma prefix_app (n b : string) : String.prefix n (n ++ b) = true.
Proof.
  induction n as [|c n IH]; simpl; [now destruct b|].
  destruct (ascii_dec c c) as [_|ne]; [exact IH|now elim ne].
Qed.

Lemma prefix_inv (n h : string) :
  String.prefix n h = true -> exists b, h = n ++ b.
Proof.
  revert h; induction n as [|c n IH]; intros h H.
  - now exists h.
  - destruct h as [|d h]; [discriminate|]. simpl in H.
    destruct (ascii_dec c d) as [->|]; [|discriminate].
    destruct (IH _ H) as [b ->]. now exists b.
Qed.

Lemma contains_prefix (n h : string) :
  String.prefix n h = true -> Py.contains n h = true.
Proof. intros H. destruct h; cbn [Py.contains]; now rewrite H. Qed.

(** [contains] is the substring relation. *)
Lemma contains_iff (n h : string) :
  Py.contains n h = true <-> exists a b, h = a ++ n ++ b.
Proof.
  split.
  - induction h as [|c h IH]; cbn [Py.contains]; intros H.
    + destruct n; [now exists EmptyString, EmptyString|discriminate].
    + apply orb_true_iff in H as [H|H].
      * apply prefix_inv in H as [b Hb]. exists EmptyString, b. exact Hb.
      * destruct (IH H) as (a & b & ->). now exists (String c a), b.
  - intros (a & b & ->). induction a as [|c a IH].
    + cbn [append]. apply contains_prefix, prefix_app.
    + simpl. rewrite IH. apply orb_true_r.
Qed.

Section Sorting.
Variable A : Type.
Variable key : A -> Z.

Lemma insert_perm (x : A) (l : list A) :
  Permutation (Py.insert key x l) (x :: l).
Proof.
  induction l as [|y r IH]; simpl; [reflexivity|].
  destruct (key x <=? key y); [reflexivity|].
  rewrite IH. apply perm_swap.
Qed.

Lemma sorted_perm (l : list A) : Permutation (Py.sorted key l) l.
Proof.
  induction l as [|x r IH]; simpl; [reflexivity|].
  rewrite insert_perm. now constructor.
Qed.

Lemma insert_sorted (x : A) (l : list A) :
  StronglySorted (le_key key) l -> StronglySorted (le_key key) (Py.insert key x l).
Proof.
  induction 1 as [|y r Hs IH Hy]; simpl.
  - repeat constructor.
  - destruct (Z.leb_spec (key x) (key y)) as [Hle|Hgt].
    + constructor; [now constructor|].
      constructor; [exact Hle|].
      eapply Forall_impl; [|exact Hy].
      unfold le_key; intros; lia.
    + constructor; [exact IH|].
      apply (Permutation_Forall (Permutation_sym (insert_perm x r))).
      constructor; [unfold le_key; lia|exact Hy].
Qed.

Lemma sorted_sorted (l : list A) : StronglySorted (le_key key) (Py.sorted key l).
Proof.
  induction l as [|x r IH]; simpl; [constructor|].
  now apply insert_sorted.
Qed.

Lemma last_item_In (l : list A) (m : A) :
  Py.last_item l = Some m -> In m l.
Proof.
  induction l as [|x r IH]; [discriminate|].
  destruct r as [|y r].
  - intros [= ->]. now left.
  - intros H. right. now apply IH.
Qed.

Lemma last_item_cons (x : A) (l : list A) :
  Py.last_item (x :: l) =
  match Py.last_item l with Some m => Some m | None => Some x end.
Proof.
  destruct l as [|y r]; [reflexivity|].
  change (Py.last_item (x :: y :: r)) with (Py.last_item (y :: r)).
  destruct (Py.last_item (y :: r)) eqn:E; [reflexivity|].
  exfalso. revert y E. induction r as [|z r IH]; intros y E; [discriminate|].
  now apply (IH z).
Qed.

(** Inserting into a sorted list: the new element ends up last exactly
    when its key is greater than every key present. *)
Lemma last_item_insert (x : A) (l : list A) :
  StronglySorted (le_key key) l ->
  Py.last_item (Py.insert key x l) =
  match Py.last_item l with
  | None => Some x
  | Some m => if key m <? key x then Some x else Some m
  end.
Proof.
  induction 1 as [|y r Hs IH Hy]; [reflexivity|].
  cbn [Py.insert].
  destruct (Z.leb_spec (key x) (key y)) as [Hle|Hgt].
  - rewrite last_item_cons.
    destruct (Py.last_item (y :: r)) as [m|] eqn:E.
    + assert (Hm : key y <= key m).
      { apply last_item_In in E as [<-|Hin]; [lia|].
        rewrite Forall_forall in Hy. now apply Hy. }
      destruct (Z.ltb_spec (key m) (key x)); [lia|reflexivity].
    + rewrite last_item_cons in E. destruct (Py.last_item r); discriminate.
  - rewrite !last_item_cons, IH.
    destruct (Py.last_item r) as [m|].
    + destruct (key m <? key x); reflexivity.
    + destruct (Z.ltb_spec (key y) (key x)); [reflexivity|lia].
Qed.

(** [sorted(l, key)[-1]] is the newest element of [l]. *)
Lemma last_item_sorted (l : list A) :
  Py.last_item (Py.sorted key l) = latest key l.
Proof.
  induction l as [|x r IH]; [reflexivity|].
  cbn [Py.sorted latest].
  rewrite last_item_insert by apply sorted_sorted.
  now rewrite IH.
Qed.

Lemma latest_some (l : list A) : l <> [] -> exists m, latest key l = Some m.
Proof.
  destruct l as [|x r]; [congruence|]. intros _. simpl.
  destruct (latest key r) as [m|]; [|now eexists].
  destruct (key m <? key x); now eexists.
Qed.

Lemma latest_greatest (l : list A) (m : A) :
  latest key l = Some m -> In m l /\ forall o, In o l -> key o <= key m.
Proof.
  revert m; induction l as [|x r IH]; intros m; [discriminate|].
  simpl. destruct (latest key r) as [m'|] eqn:E.
  - destruct (IH m' eq_refl) as [Hin Hmax].
    destruct (Z.ltb_spec (key m') (key x)); intros [= <-].
    + split; [now left|]. intros o [<-|Ho]; [lia|].
      specialize (Hmax o Ho). lia.
    + split; [now right|]. intros o [<-|Ho]; [lia|now apply Hmax].
  - intros [= <-]. split; [now left|].
    destruct r as [|y r]; [intros o [<-|[]]; lia|].
    destruct (latest_some (l := y :: r)) as [? Hs]; congruence.
Qed.
End Sorting.

End PyFacts.

(** ** Running the monad *)

Lemma collect_app {B} (f : event -> option B) (t1 t2 : list event) :
  collect f (t1 ++ t2) = (collect f t1 ++ collect f t2)%list.
Proof.
  induction t1 as [|e t1 IH]; simpl; [reflexivity|].
  destruct (f e); simpl; now rewrite IH.
Qed.

Lemma last_item_map {A B} (f : A -> B) (l : list A) :
  Py.last_item (map f l) = option_map f (Py.last_item l).
Proof.
  induction l as [|x r IH]; [reflexivity|].
  destruct r as [|y r]; [reflexivity|exact IH].
Qed.

Lemma for_app {A} (l1 l2 : list A) (body : A -> M unit) (w : World) :
  for_ (l1 ++ l2) body w = (for_ l1 body ;;; for_ l2 body) w.
Proof.
  revert w; induction l1 as [|x l1 IH]; intros w; simpl.
  - reflexivity.
  - unfold bind in *. destruct (body x w) as [[[]|e] w1]; [|reflexivity].
    now rewrite IH.
Qed.

Lemma frame_refl (w : World) : frame w w.
Proof. repeat split. Qed.

Lemma frame_trans (w1 w2 w3 : World) : frame w1 w2 -> frame w2 w3 -> frame w1 w3.
Proof. unfold frame. intuition congruence. Qed.

Lemma attempts_ext {A} (f g : A -> bool) (l : list A) :
  (forall x, f x = g x) -> attempts f l = attempts g l.
Proof.
  intros H. induction l as [|x r IH]; cbn; [reflexivity|].
  now rewrite H, IH.
Qed.

Lemma succeeded_ext {A} (f g : A -> bool) (l : list A) :
  (forall x, f x = g x) -> succeeded f l = succeeded g l.
Proof.
  intros H. induction l as [|x r IH]; cbn; [reflexivity|].
  now rewrite H, IH.
Qed.

Lemma forallb_ext' {A} (f g : A -> bool) (l : list A) :
  (forall x, f x = g x) -> forallb f l = forallb g l.
Proof.
  intros H. induction l as [|x r IH]; cbn; [reflexivity|].
  now rewrite H, IH.
Qed.

Lemma attempts_all {A} (ok : A -> bool) (l : list A) :
  forallb ok l = true -> attempts ok l = l /\ succeeded ok l = l.
Proof.
  induction l as [|x r IH]; cbn; [auto|].
  intros H. apply andb_true_iff in H as [Hx Hr]. rewrite Hx.
  destruct (IH Hr) as [-> ->]. auto.
Qed.

Lemma attempts_first_failure {A} (ok : A -> bool) (pre post : list A) (f : A) :
  forallb ok pre = true -> ok f = false ->
  attempts ok (pre ++ f :: post) = (pre ++ [f])%list /\
  succeeded ok (pre ++ f :: post) = pre /\
  forallb ok (pre ++ f :: post) = false.
Proof.
  induction pre as [|x r IH]; cbn; intros Hp Hf.
  - now rewrite Hf.
  - apply andb_true_iff in Hp as [Hx Hr]. rewrite Hx.
    destruct (IH Hr Hf) as (-> & -> & ->). auto.
Qed.

Ltac run := unfold bind, get, emit, ret, raise; cbn [fst snd].

Ltac red_world :=
  cbn [cwd s3 gcs s3_faulty gcs_faulty clock s3_bucket_name gcs_bucket_name
       training_name trace with_trace with_s3 with_gcs fst snd].

Ltac break_match :=
  match goal with
  | |- context [match ?x with _ => _ end] => destruct x eqn:?
  end.

(** ** The newest checkpoint *)

Module LatestFacts.
Import CloudCheckpointLoader Latest.

Lemma get_last_s3_eq (self : t) (w : World) :
  __get_last_checkpoint_from_s3 self w =
  let w1 := with_trace w (trace w ++ [S3ListObjectsV2 listing_bucket]) in
  match lookup listing_bucket (s3 w) with
  | None => (Raise (S3Error "NoSuchBucket"), w1)
  | Some [] => (Raise (KeyError "Contents"), w1)
  | Some objs => (select objs, w1)
  end.
Proof.
  unfold __get_last_checkpoint_from_s3, s3_list_objects_v2, select.
  run. cbn [s3 with_trace]. fold listing_bucket.
  destruct (lookup listing_bucket (s3 w)) as [[|o objs]|]; try reflexivity.
  unfold response_Contents, getlast, getitem. cbn [Contents]. run.
  rewrite last_item_map.
  destruct (Py.last_item _) as [m|]; cbn [option_map]; [|reflexivity].
  destruct (nth_error _ 1); reflexivity.
Qed.

Lemma get_last_gcs_eq (self : t) (b : Bucket) (w : World) :
  __get_last_checkpoint_from_gcs self b w =
  let w1 := with_trace w (trace w ++ [GCSListBlobs (bucket_name b)]) in
  match lookup (bucket_name b) (gcs w) with
  | None => (Raise (GCSError "NotFound"), w1)
  | Some objs => (select objs, w1)
  end.
Proof.
  unfold __get_last_checkpoint_from_gcs, bucket_list_blobs, select.
  run. cbn [gcs with_trace].
  destruct (lookup (bucket_name b) (gcs w)) as [objs|]; try reflexivity.
  unfold getlast, getitem. run.
  rewrite last_item_map.
  destruct (Py.last_item _) as [m|]; cbn [option_map]; [|reflexivity].
  destruct (nth_error _ 1); reflexivity.
Qed.

End LatestFacts.

(** ** Downloading *)

Module DownloadFacts.
Import CloudCheckpointLoader Download.

Lemma trace_twice (w : World) (t1 t2 : list event) :
  with_trace (with_trace w (trace w ++ t1))
             (trace (with_trace w (trace w ++ t1)) ++ t2)
  = with_trace w (trace w ++ (t1 ++ t2)).
Proof. unfold with_trace; cbn. now rewrite app_assoc. Qed.

(** One S3 download: the call is recorded with its bucket and key, and a
    local file is written when it succeeds. *)
Lemma s3_download_file_spec (b k f : string) (w : World) :
  exists r t,
    s3_download_file b k f w = (r, with_trace w (trace w ++ t)) /\
    collect download_of t = [k] /\
    collect s3_download_bucket t = [b] /\
    collect s3_listed_bucket t = [].
Proof.
  unfold s3_download_file. run. cbn [s3 s3_faulty with_trace].
  repeat break_match;
    try (eexists _, [_]; split; [reflexivity|now cbn]).
  rewrite trace_twice. eexists _, _. split; [reflexivity|now cbn].
Qed.

Lemma gcs_download_spec (b : Bucket) (k f : string) (w : World) :
  exists r t,
    blob_download_to_filename (bucket_blob b k) f w
    = (r, with_trace w (trace w ++ t)) /\
    collect download_of t = [k].
Proof.
  unfold blob_download_to_filename, bucket_blob. run.
  cbn [gcs gcs_faulty with_trace blob_name blob_bucket].
  repeat break_match;
    try (eexists _, [_]; split; [reflexivity|now cbn]).
  rewrite trace_twice. eexists _, _. split; [reflexivity|now cbn].
Qed.

Lemma s3_loop_spec (files : list string) (w : World) :
  exists r t,
    s3_loop files w = (r, with_trace w (trace w ++ t)) /\
    Forall (eq (s3_bucket_name w)) (collect s3_download_bucket t) /\
    collect s3_listed_bucket t = [] /\
    (r = Ok tt -> collect download_of t = files).
Proof.
  unfold s3_loop. revert w; induction files as [|x files IH]; intros w.
  - exists (Ok tt), []. cbn. rewrite app_nil_r. destruct w; auto.
  - cbn [for_]. unfold bind at 1 2. unfold get at 1.
    destruct (s3_download_file_spec (s3_bucket_name w) x x w)
      as (r1 & t1 & E1 & D1 & B1 & L1).
    rewrite E1. destruct r1 as [[]|e].
    + destruct (IH (with_trace w (trace w ++ t1))) as (r & t & E & B & L & D).
      rewrite E, trace_twice. exists r, (t1 ++ t)%list.
      rewrite !collect_app, B1, L1, D1. cbn in B |- *.
      repeat split; auto. intros Hr. now rewrite (D Hr).
    + exists (Raise e), t1. rewrite B1, L1.
      repeat split; auto. discriminate.
Qed.

Lemma gcs_loop_spec (b : Bucket) (files : list string) (w : World) :
  exists r t,
    gcs_loop b files w = (r, with_trace w (trace w ++ t)) /\
    (r = Ok tt -> collect download_of t = files).
Proof.
  unfold gcs_loop. revert w; induction files as [|x files IH]; intros w.
  - exists (Ok tt), []. cbn. rewrite app_nil_r. destruct w; auto.
  - cbn [for_]. unfold bind at 1.
    destruct (gcs_download_spec b x x w) as (r1 & t1 & E1 & D1).
    cbv zeta. rewrite E1. destruct r1 as [[]|e].
    + destruct (IH (with_trace w (trace w ++ t1))) as (r & t & E & D).
      rewrite E, trace_twice. exists r, (t1 ++ t)%list.
      rewrite !collect_app, D1.
      split; auto. intros Hr. now rewrite (D Hr).
    + exists (Raise e), t1. split; auto. discriminate.
Qed.

(** The S3 branch of [download_checkpoints], step by step. *)
Lemma download_s3_eq (self : t) (w : World) :
  bucket_type self = "s3" ->
  download_checkpoints self w =
  let w0 := with_trace w (trace w ++ [Print "Downloading checkpoints from S3..."]) in
  match __get_last_checkpoint_from_s3 self w0 with
  | (Raise e, w1) => (Raise e, w1)
  | (Ok (checkpoint_dir, checkpoint_files), w1) =>
      match os_makedirs (Py.join "/" [training_name w1; checkpoint_dir]) w1 with
      | (Raise e, w2) => (Raise e, w2)
      | (Ok _, w2) =>
          match s3_loop checkpoint_files w2 with
          | (Raise e, w3) => (Raise e, w3)
          | (Ok _, w3) => (Ok PyNone, w3)
          end
      end
  end.
Proof.
  intros Hb. unfold download_checkpoints. rewrite Hb. cbn [String.eqb Ascii.eqb Bool.eqb].
  cbv zeta. unfold bind at 1. unfold emit at 1. unfold bind at 1.
  destruct (__get_last_checkpoint_from_s3 self _) as [[[d files]|e] w1];
    [|reflexivity].
  unfold bind at 1. unfold get at 1. unfold bind at 1.
  destruct (os_makedirs _ w1) as [[[]|e] w2]; [|reflexivity].
  unfold bind at 1. fold (s3_loop files).
  destruct (s3_loop files w2) as [[[]|e] w3]; reflexivity.
Qed.

(** The GCS branch of [download_checkpoints], step by step. *)
Lemma download_gcs_eq (self : t) (w : World) :
  bucket_type self = "gcs" ->
  download_checkpoints self w =
  match gcs_get_bucket (gcs_bucket_name w) w with
  | (Raise e, w0) => (Raise e, w0)
  | (Ok bucket, w0) =>
      let w0' := with_trace w0 (trace w0 ++ [Print "Downloading checkpoints from GCS..."]) in
      match __get_last_checkpoint_from_gcs self bucket w0' with
      | (Raise e, w1) => (Raise e, w1)
      | (Ok (checkpoint_dir, checkpoint_files), w1) =>
          match os_makedirs (Py.join "/" [training_name w1; checkpoint_dir]) w1 with
          | (Raise e, w2) => (Raise e, w2)
          | (Ok _, w2) =>
              match gcs_loop bucket checkpoint_files w2 with
              | (Raise e, w3) => (Raise e, w3)
              | (Ok _, w3) => (Ok PyNone, w3)
              end
          end
      end
  end.
Proof.
  intros Hb. unfold download_checkpoints. rewrite Hb. cbn [String.eqb Ascii.eqb Bool.eqb].
  cbv zeta. unfold bind at 1. unfold get at 1. unfold bind at 1.
  destruct (gcs_get_bucket _ w) as [[bucket|e] w0]; [|reflexivity].
  unfold bind at 1. unfold emit at 1. unfold bind at 1.
  destruct (__get_last_checkpoint_from_gcs self bucket _) as [[[d files]|e] w1];
    [|reflexivity].
  unfold bind at 1. unfold get at 1. unfold bind at 1.
  destruct (os_makedirs _ w1) as [[[]|e] w2]; [|reflexivity].
  unfold bind at 1. fold (gcs_loop bucket files).
  destruct (gcs_loop bucket files w2) as [[[]|e] w3]; reflexivity.
Qed.

End DownloadFacts.

(** ** The loader: construction *)

Import CloudCheckpointLoader.

(** C6: a bucket type other than "s3" and "gcs" makes the constructor raise
    the assertion error with the message "Invalid bucket type...", and the
    world it returns is the world it was given: no SDK call was issued. *)
Theorem init_rejects_unknown_bucket_type :
  forall (bucket_type : string) (w : World),
    bucket_type <> "s3" -> bucket_type <> "gcs" ->
    __init__ bucket_type w
    = (Raise (AssertionError "Invalid bucket type. Please choose either s3 or gcs"), w)
    /\ collect network_call_of (trace (snd (__init__ bucket_type w)))
       = collect network_call_of (trace w).
Proof.
  intros bt w H1 H2. unfold __init__. cbn [CloudCheckpointLoader.bucket_type mem existsb].
  apply String.eqb_neq in H1, H2. rewrite H1, H2. cbn. split; reflexivity.
Qed.

Lemma init_rejects_unknown_bucket_type_witness :
  __init__ "azure" Demo.world
  = (Raise (AssertionError "Invalid bucket type. Please choose either s3 or gcs"),
     Demo.world)
  /\ collect network_call_of (trace (snd (__init__ "azure" Demo.world)))
     = collect network_call_of (trace Demo.world).
Proof.
  apply (init_rejects_unknown_bucket_type (bucket_type := "azure") Demo.world);
    discriminate.
Defined.

Lemma init_accepts (bucket_type : string) (w : World) (self : t) (w' : World) :
  __init__ bucket_type w = (Ok self, w') ->
  self = mkLoader bucket_type /\ w' = w /\
  (bucket_type = "s3" \/ bucket_type = "gcs").
Proof.
  unfold __init__. cbn [CloudCheckpointLoader.bucket_type mem existsb].
  destruct (String.eqb_spec bucket_type "s3") as [->|].
  - cbn. intros [= <- <-]. auto.
  - destruct (String.eqb_spec bucket_type "gcs") as [->|].
    + cbn. intros [= <- <-]. auto.
    + cbn. discriminate.
Qed.

(** ** The loader: choosing the newest checkpoint *)

Lemma os_makedirs_spec (p : string) (w : World) :
  (exists e, os_makedirs p w = (Raise e, w)) \/
  os_makedirs p w = (Ok tt, with_trace w (trace w ++ [MakeDirs p])).
Proof.
  unfold os_makedirs. run.
  destruct (hits_file _ (fs_now w)); [left|now right].
  destruct (walk _ (fs_now w)) as [[c|es]|]; eexists; reflexivity.
Qed.

Lemma with_trace_nil (w : World) : with_trace w (trace w ++ []) = w.
Proof. rewrite app_nil_r. now destruct w. Qed.

Lemma select_ok (objs : list RemoteObject) (d : string) (files : list string) :
  Latest.select objs = Ok (d, files) ->
  (exists o, latest LastModified objs = Some o /\
             nth_error (Py.split "/"%char (Key o)) 1 = Some d) /\
  files = filter (fun key => Py.contains d key)
                 (map Key (Py.sorted LastModified objs)) /\
  forall k, In k files <-> In k (map Key objs) /\ Py.contains d k = true.
Proof.
  unfold Latest.select. rewrite PyFacts.last_item_sorted.
  destruct (latest LastModified objs) as [o|]; [|discriminate].
  destruct (nth_error _ 1) as [d'|] eqn:E; [|discriminate].
  intros [= <- <-]. split; [now exists o|]. split; [reflexivity|].
  intros k. rewrite filter_In.
  assert (P : Permutation (map Key (Py.sorted LastModified objs)) (map Key objs))
    by apply Permutation_map, PyFacts.sorted_perm.
  split; intros [Hin Hc]; split; auto.
  - eapply Permutation_in; eauto.
  - eapply Permutation_in; [symmetry|]; eauto.
Qed.

(** C3, as the code has it: from a listing that is not empty, both helpers
    take the object that the stable ascending sort by [LastModified] puts
    last, which carries the greatest time stamp; when its key has a second
    component between slashes, that component is the checkpoint directory
    they return, and when the key has none they raise [IndexError]. *)
Theorem latest_checkpoint_is_newest_objects_directory :
  forall (self : t) (w : World) (objs : list RemoteObject),
    objs <> [] ->
    exists o,
      In o objs /\
      (forall o', In o' objs -> LastModified o' <= LastModified o) /\
      Py.last_item (Py.sorted LastModified objs) = Some o /\
      (forall d,
          nth_error (Py.split "/"%char (Key o)) 1 = Some d ->
          (lookup "hf-demo-s3-checkpointing-sagemaker" (s3 w) = Some objs ->
           exists files,
             fst (__get_last_checkpoint_from_s3 self w) = Ok (d, files)) /\
          (forall bucket,
              lookup (bucket_name bucket) (gcs w) = Some objs ->
              exists files,
                fst (__get_last_checkpoint_from_gcs self bucket w) = Ok (d, files))) /\
      (nth_error (Py.split "/"%char (Key o)) 1 = None ->
       (lookup "hf-demo-s3-checkpointing-sagemaker" (s3 w) = Some objs ->
        fst (__get_last_checkpoint_from_s3 self w) = Raise IndexError) /\
       (forall bucket,
           lookup (bucket_name bucket) (gcs w) = Some objs ->
           fst (__get_last_checkpoint_from_gcs self bucket w) = Raise IndexError)).
Proof.
  intros self w objs Hne.
  destruct (PyFacts.latest_some LastModified Hne) as [o Ho].
  destruct (PyFacts.latest_greatest LastModified objs Ho) as [Hin Hmax].
  exists o. repeat split; auto.
  - now rewrite PyFacts.last_item_sorted.
  - intros Hl. rewrite LatestFacts.get_last_s3_eq. fold Latest.listing_bucket in Hl.
    rewrite Hl. destruct objs as [|x r]; [congruence|]. cbn [fst].
    unfold Latest.select. rewrite PyFacts.last_item_sorted, Ho, H. eauto.
  - intros b Hl. rewrite LatestFacts.get_last_gcs_eq, Hl. cbn [fst].
    unfold Latest.select. rewrite PyFacts.last_item_sorted, Ho, H. eauto.
  - intros Hl. rewrite LatestFacts.get_last_s3_eq. fold Latest.listing_bucket in Hl.
    rewrite Hl. destruct objs as [|x r]; [congruence|]. cbn [fst].
    unfold Latest.select. now rewrite PyFacts.last_item_sorted, Ho, H.
  - intros b Hl. rewrite LatestFacts.get_last_gcs_eq, Hl. cbn [fst].
    unfold Latest.select. now rewrite PyFacts.last_item_sorted, Ho, H.
Qed.

Lemma latest_checkpoint_is_newest_objects_directory_witness :
  exists o,
    In o Demo.objects /\
    (forall o', In o' Demo.objects -> LastModified o' <= LastModified o) /\
    Py.last_item (Py.sorted LastModified Demo.objects) = Some o /\
    (forall d,
        nth_error (Py.split "/"%char (Key o)) 1 = Some d ->
        (lookup "hf-demo-s3-checkpointing-sagemaker" (s3 Demo.world) = Some Demo.objects ->
         exists files,
           fst (__get_last_checkpoint_from_s3 (mkLoader "s3") Demo.world) = Ok (d, files)) /\
        (forall bucket,
            lookup (bucket_name bucket) (gcs Demo.world) = Some Demo.objects ->
            exists files,
              fst (__get_last_checkpoint_from_gcs (mkLoader "s3") bucket Demo.world)
              = Ok (d, files))) /\
    (nth_error (Py.split "/"%char (Key o)) 1 = None ->
     (lookup "hf-demo-s3-checkpointing-sagemaker" (s3 Demo.world) = Some Demo.objects ->
      fst (__get_last_checkpoint_from_s3 (mkLoader "s3") Demo.world) = Raise IndexError) /\
     (forall bucket,
         lookup (bucket_name bucket) (gcs Demo.world) = Some Demo.objects ->
         fst (__get_last_checkpoint_from_gcs (mkLoader "s3") bucket Demo.world)
         = Raise IndexError)).
Proof.
  apply (latest_checkpoint_is_newest_objects_directory (mkLoader "s3") Demo.world
           (objs := Demo.objects)).
  discriminate.
Defined.

(** C3 as stated fails: the listing holds one object, whose key
    "model.bin" has no second component, and both helpers raise
    [IndexError] instead of selecting a directory. *)
Lemma latest_checkpoint_flat_key_raises :
  lookup "hf-demo-s3-checkpointing-sagemaker" (s3 Demo.flat_world)
  = Some [mkObject "model.bin" 1 "m"] /\
  fst (__get_last_checkpoint_from_s3 (mkLoader "s3") Demo.flat_world)
  = Raise IndexError /\
  fst (__get_last_checkpoint_from_gcs (mkLoader "gcs")
         (mkBucket "hf-demo-gcs-checkpointing") Demo.flat_world)
  = Raise IndexError /\
  fst (download_checkpoints (mkLoader "s3") Demo.flat_world) = Raise IndexError.
Proof. vm_compute. repeat split; reflexivity. Qed.

(** ** The loader: what is downloaded *)

Lemma get_last_s3_fst_trace (self : t) (w : World) (tr : list event) :
  fst (__get_last_checkpoint_from_s3 self (with_trace w tr))
  = fst (__get_last_checkpoint_from_s3 self w).
Proof.
  rewrite !LatestFacts.get_last_s3_eq. cbn [s3 with_trace].
  destruct (lookup _ (s3 w)) as [[|o r]|]; reflexivity.
Qed.

Lemma get_last_gcs_fst_trace (self : t) (b : Bucket) (w : World) (tr : list event) :
  fst (__get_last_checkpoint_from_gcs self b (with_trace w tr))
  = fst (__get_last_checkpoint_from_gcs self b w).
Proof.
  rewrite !LatestFacts.get_last_gcs_eq. cbn [gcs with_trace].
  destruct (lookup _ (gcs w)); reflexivity.
Qed.

Lemma get_last_s3_snd (self : t) (w : World) :
  snd (__get_last_checkpoint_from_s3 self w)
  = with_trace w (trace w ++ [S3ListObjectsV2 "hf-demo-s3-checkpointing-sagemaker"]).
Proof.
  rewrite LatestFacts.get_last_s3_eq.
  destruct (lookup _ (s3 w)) as [[|o r]|]; reflexivity.
Qed.

Lemma get_last_gcs_snd (self : t) (b : Bucket) (w : World) :
  snd (__get_last_checkpoint_from_gcs self b w)
  = with_trace w (trace w ++ [GCSListBlobs (bucket_name b)]).
Proof.
  rewrite LatestFacts.get_last_gcs_eq.
  destruct (lookup _ (gcs w)); reflexivity.
Qed.

Lemma gcs_get_bucket_spec (name : string) (w : World) :
  gcs_get_bucket name w
  = (match lookup name (gcs w) with
     | Some _ => Ok (mkBucket name)
     | None => Raise (GCSError "NotFound")
     end,
     with_trace w (trace w ++ [GCSGetBucket name])).
Proof.
  unfold gcs_get_bucket. run. cbn [gcs with_trace].
  destruct (lookup name (gcs w)); reflexivity.
Qed.

(** A run of the S3 branch that completes downloaded the files that the
    helper returned, in that order. *)
Lemma download_s3_completes (self : t) (w : World) (v : pyval) (w' : World) :
  bucket_type self = "s3" ->
  download_checkpoints self w = (Ok v, w') ->
  v = PyNone /\
  exists d files,
    fst (__get_last_checkpoint_from_s3 self w) = Ok (d, files) /\
    downloads (trace w') = (downloads (trace w) ++ files)%list /\
    exists tr, trace w' = (trace w ++ tr)%list /\
               In (MakeDirs (Py.join "/" [training_name w; d])) tr.
Proof.
  intros Hb. rewrite (DownloadFacts.download_s3_eq self w Hb). cbv zeta.
  pose proof (get_last_s3_fst_trace self w
                (trace w ++ [Print "Downloading checkpoints from S3..."])) as Hf.
  pose proof (get_last_s3_snd self
                (with_trace w (trace w ++ [Print "Downloading checkpoints from S3..."]))) as Hs.
  destruct (__get_last_checkpoint_from_s3 self _) as [[[d files]|e] w1];
    [|discriminate].
  cbn [fst snd] in Hf, Hs. rewrite DownloadFacts.trace_twice in Hs. subst w1.
  cbn [training_name with_trace].
  destruct (os_makedirs_spec (Py.join "/" [training_name w; d])
              (with_trace w (trace w ++ [Print "Downloading checkpoints from S3..."] ++
                             [S3ListObjectsV2 "hf-demo-s3-checkpointing-sagemaker"])))
    as [[e E]|E]; rewrite E; [discriminate|].
  rewrite DownloadFacts.trace_twice.
  destruct (DownloadFacts.s3_loop_spec files (with_trace w (trace w ++
      ([Print "Downloading checkpoints from S3..."] ++
       [S3ListObjectsV2 "hf-demo-s3-checkpointing-sagemaker"]) ++
      [MakeDirs (Py.join "/" [training_name w; d])])))
    as (r & tl & El & _ & _ & Hd).
  rewrite El, DownloadFacts.trace_twice. destruct r as [[]|e]; [|discriminate].
  intros [= <- <-]. split; [reflexivity|].
  exists d, files. split; [now rewrite <- Hf|].
  cbn [trace with_trace]. unfold downloads. rewrite !collect_app.
  cbn [collect download_of]. rewrite (Hd eq_refl). split; [reflexivity|].
  eexists; split; [reflexivity|]. cbn. auto.
Qed.

(** The same for the GCS branch. *)
Lemma download_gcs_completes (self : t) (w : World) (v : pyval) (w' : World) :
  bucket_type self = "gcs" ->
  download_checkpoints self w = (Ok v, w') ->
  v = PyNone /\
  exists d files,
    fst (__get_last_checkpoint_from_gcs self (mkBucket (gcs_bucket_name w)) w)
    = Ok (d, files) /\
    downloads (trace w') = (downloads (trace w) ++ files)%list /\
    exists tr, trace w' = (trace w ++ tr)%list /\
               In (MakeDirs (Py.join "/" [training_name w; d])) tr.
Proof.
  intros Hb. rewrite (DownloadFacts.download_gcs_eq self w Hb).
  rewrite gcs_get_bucket_spec.
  destruct (lookup (gcs_bucket_name w) (gcs w)) as [objs|] eqn:Hl; [|discriminate].
  cbv zeta. rewrite DownloadFacts.trace_twice.
  set (b := mkBucket (gcs_bucket_name w)).
  pose proof (get_last_gcs_fst_trace self b w
    (trace w ++ [GCSGetBucket (gcs_bucket_name w)] ++
                [Print "Downloading checkpoints from GCS..."])) as Hf.
  pose proof (get_last_gcs_snd self b (with_trace w
    (trace w ++ [GCSGetBucket (gcs_bucket_name w)] ++
                [Print "Downloading checkpoints from GCS..."]))) as Hs.
  destruct (__get_last_checkpoint_from_gcs self b _) as [[[d files]|e] w1];
    [|discriminate].
  cbn [fst snd] in Hf, Hs. rewrite DownloadFacts.trace_twice in Hs. subst w1.
  cbn [training_name with_trace].
  match goal with
  | |- context [os_makedirs ?p ?w0] =>
      destruct (os_makedirs_spec p w0) as [[e E]|E]; rewrite E; [discriminate|]
  end.
  rewrite DownloadFacts.trace_twice.
  match goal with
  | |- context [Download.gcs_loop b files ?w0] =>
      destruct (DownloadFacts.gcs_loop_spec b files w0) as (r & tl & El & Hd)
  end.
  rewrite El, DownloadFacts.trace_twice. destruct r as [[]|e]; [|discriminate].
  intros [= <- <-]. split; [reflexivity|].
  exists d, files. split; [now rewrite <- Hf|].
  cbn [trace with_trace]. unfold downloads. rewrite !collect_app.
  cbn [collect download_of]. rewrite (Hd eq_refl). split; [reflexivity|].
  eexists; split; [reflexivity|]. cbn. auto.
Qed.

(** ** The local tree *)

Module FsFacts.

Lemma lookup_set_entry (c c' : string) (n : node) (es : list (string * node)) :
  lookup c' (set_entry c n es) = if String.eqb c' c then Some n else lookup c' es.
Proof.
  induction es as [|[k v] es IH]; cbn; [reflexivity|].
  destruct (String.eqb_spec c k) as [->|Hck]; cbn.
  - destruct (String.eqb c' k); reflexivity.
  - rewrite IH. destruct (String.eqb_spec c' k) as [->|Hk]; [|reflexivity].
    apply String.eqb_neq in Hck. now rewrite String.eqb_sym, Hck.
Qed.

Lemma set_entry_same (c : string) (n : node) (es : list (string * node)) :
  lookup c es = Some n -> set_entry c n es = es.
Proof.
  induction es as [|[k v] es IH]; cbn; [discriminate|].
  destruct (String.eqb c k); [now intros [= ->]|].
  intros H. now rewrite IH.
Qed.

Lemma is_dir_file (p : list string) (c : string) : is_dir p (File c) = false.
Proof. destruct p; reflexivity. Qed.

Lemma is_dir_cons (a : string) (p : list string) (es : list (string * node)) :
  is_dir (a :: p) (Dir es) =
  match lookup a es with
  | Some child => is_dir p child
  | None => false
  end.
Proof. unfold is_dir. cbn. now destruct (lookup a es). Qed.

Lemma write_file_deeper (c c2 : string) (cs : list string) (content : string)
      (es : list (string * node)) :
  write_file (c :: c2 :: cs) content (Dir es) =
  match lookup c es with
  | Some child => Dir (set_entry c (write_file (c2 :: cs) content child) es)
  | None => Dir es
  end.
Proof. reflexivity. Qed.

(** Writing a file makes no directory and removes none. *)
Lemma is_dir_write (q : list string) (content : string) (p : list string) (n : node) :
  is_dir p (write_file q content n) = is_dir p n.
Proof.
  revert p n. induction q as [|c cs IH]; intros p n; [reflexivity|].
  destruct n as [f|es]; [now destruct cs|].
  destruct cs as [|c2 cs].
  - cbn [write_file].
    destruct (lookup c es) as [[f|es']|] eqn:E; try reflexivity;
      (destruct p as [|a p]; [reflexivity|]);
      rewrite !is_dir_cons, lookup_set_entry;
      (destruct (String.eqb_spec a c) as [->|]; [|reflexivity]);
      rewrite E, ?is_dir_file; reflexivity.
  - rewrite write_file_deeper.
    destruct (lookup c es) as [child|] eqn:E; [|reflexivity].
    destruct p as [|a p]; [reflexivity|].
    rewrite !is_dir_cons, lookup_set_entry.
    destruct (String.eqb_spec a c) as [->|]; [|reflexivity].
    now rewrite E, IH.
Qed.

(** [os.makedirs] keeps the directories that are there. *)
Lemma is_dir_mkdirs (q p : list string) (n : node) :
  is_dir p n = true -> is_dir p (mkdirs q n) = true.
Proof.
  revert p n. induction q as [|c cs IH]; intros p n H; [exact H|].
  destruct n as [f|es]; [exact H|]. cbn [mkdirs].
  destruct p as [|a p]; [now destruct (lookup c es)|].
  rewrite is_dir_cons in H.
  destruct (lookup c es) as [child|] eqn:E;
    rewrite is_dir_cons, lookup_set_entry;
    (destruct (String.eqb_spec a c) as [->|]; [|exact H]);
    rewrite E in H; [now apply IH|discriminate].
Qed.

Lemma hits_file_empty (p : list string) : hits_file p (Dir []) = false.
Proof. destruct p; reflexivity. Qed.

(** [os.makedirs] leaves a directory at its path unless a regular file lies
    on it. *)
Lemma is_dir_created (q : list string) (n : node) :
  hits_file q n = false -> is_dir q (mkdirs q n) = true.
Proof.
  revert n. induction q as [|c cs IH]; intros n H.
  - destruct n; [discriminate|reflexivity].
  - destruct n as [f|es]; [discriminate|]. cbn [hits_file mkdirs] in *.
    destruct (lookup c es) as [child|];
      rewrite is_dir_cons, lookup_set_entry, String.eqb_refl; apply IH;
      [exact H|apply hits_file_empty].
Qed.

(** On a directory that is there, [os.makedirs] changes nothing. *)
Lemma mkdirs_existing (q : list string) (n : node) :
  is_dir q n = true -> mkdirs q n = n.
Proof.
  revert n. induction q as [|c cs IH]; intros n H; [reflexivity|].
  destruct n as [f|es]; [reflexivity|]. cbn [mkdirs].
  rewrite is_dir_cons in H.
  destruct (lookup c es) as [child|] eqn:E; [|discriminate].
  rewrite (IH child H). now rewrite (set_entry_same c es E).
Qed.

Lemma is_dir_not_hits (q : list string) (n : node) :
  is_dir q n = true -> hits_file q n = false.
Proof.
  revert n. induction q as [|c cs IH]; intros n H.
  - destruct n; [discriminate|reflexivity].
  - destruct n as [f|es]; [discriminate|]. cbn [hits_file].
    rewrite is_dir_cons in H.
    destruct (lookup c es) as [child|]; [now apply IH|reflexivity].
Qed.

Lemma writable_write (q : list string) (content : string) (fs : node) (k : string) :
  writable (write_file q content fs) k = writable fs k.
Proof. unfold writable. now rewrite !is_dir_write. Qed.

(** The tree after more events. *)
Lemma fs_now_trace (w : World) (t : list event) :
  fs_now (with_trace w (trace w ++ t))
  = fold_left (fun n e => apply_write e n) t (fs_now w).
Proof. unfold fs_now. cbn [trace cwd with_trace]. apply fold_left_app. Qed.

Lemma replay_no_writes (t : list event) (n : node) :
  collect fs_write_of t = [] -> fold_left (fun n e => apply_write e n) t n = n.
Proof.
  revert n. induction t as [|e t IH]; intros n; [reflexivity|].
  cbn [collect fold_left]. unfold fs_write_of at 1.
  destruct e; cbn [is_fs_write apply_write]; try discriminate; apply IH.
Qed.

Lemma fs_now_no_writes (w : World) :
  collect fs_write_of (trace w) = [] -> fs_now w = cwd w.
Proof. apply replay_no_writes. Qed.

End FsFacts.

(** ** A run of the loader, file by file *)

Module FetchFacts.

Lemma s3_step_ok (k : string) (w : World) :
  S3Fetch.downloadable (fs_now w) w k = true ->
  s3_download_file (s3_bucket_name w) k k w
  = (Ok tt, with_trace w (trace w ++ [S3DownloadFile (s3_bucket_name w) k k;
                                      WriteFile k (S3Fetch.body_at w k)])).
Proof.
  unfold S3Fetch.downloadable, S3Fetch.fetchable, S3Fetch.body_at, object_at,
    writable, s3_download_file, parent_error.
  run. red_world. rewrite FsFacts.fs_now_trace. cbn [fold_left apply_write].
  destruct (lookup _ (s3 w)) as [objs|]; [|discriminate]. red_world.
  destruct (find_object k objs) as [o|]; [|discriminate].
  destruct (mem k (s3_faulty w)); [discriminate|].
  destruct (is_dir (removelast _) (fs_now w)); [|discriminate].
  destruct (is_dir (Py.split _ k) (fs_now w)); [discriminate|]. intros _.
  unfold with_trace; cbn. now rewrite <- app_assoc.
Qed.

Lemma s3_step_fails (k : string) (w : World) :
  S3Fetch.downloadable (fs_now w) w k = false ->
  exists e,
    s3_download_file (s3_bucket_name w) k k w
    = (Raise e, with_trace w (trace w ++ [S3DownloadFile (s3_bucket_name w) k k])).
Proof.
  unfold S3Fetch.downloadable, S3Fetch.fetchable, object_at,
    writable, s3_download_file, parent_error.
  run. red_world. rewrite FsFacts.fs_now_trace. cbn [fold_left apply_write].
  destruct (lookup _ (s3 w)) as [objs|]; [|eexists; reflexivity]. red_world.
  destruct (find_object k objs) as [o|]; [|eexists; reflexivity].
  destruct (is_dir (removelast _) (fs_now w)).
  2:{ destruct (hits_file _ (fs_now w)); eexists; reflexivity. }
  destruct (mem k (s3_faulty w)); [eexists; reflexivity|].
  destruct (is_dir (Py.split _ k) (fs_now w)); [eexists; reflexivity|].
  discriminate.
Qed.

Lemma gcs_step_ok (b k : string) (w : World) :
  GCSFetch.downloadable b (fs_now w) w k = true ->
  blob_download_to_filename (bucket_blob (mkBucket b) k) k w
  = (Ok tt, with_trace w (trace w ++ [GCSDownloadToFilename b k k;
                                      WriteFile k (GCSFetch.body_at b w k)])).
Proof.
  unfold GCSFetch.downloadable, GCSFetch.fetchable, GCSFetch.body_at, object_at,
    writable, blob_download_to_filename, bucket_blob, parent_error.
  run. cbn [blob_name blob_bucket bucket_name]. red_world.
  rewrite FsFacts.fs_now_trace. cbn [fold_left apply_write].
  destruct (lookup _ (gcs w)) as [objs|]; [|discriminate]. red_world.
  destruct (find_object k objs) as [o|]; [|discriminate].
  destruct (mem k (gcs_faulty w)); [discriminate|].
  destruct (is_dir (removelast _) (fs_now w)); [|discriminate].
  destruct (is_dir (Py.split _ k) (fs_now w)); [discriminate|]. intros _.
  unfold with_trace; cbn. now rewrite <- app_assoc.
Qed.

Lemma gcs_step_fails (b k : string) (w : World) :
  GCSFetch.downloadable b (fs_now w) w k = false ->
  exists e,
    blob_download_to_filename (bucket_blob (mkBucket b) k) k w
    = (Raise e, with_trace w (trace w ++ [GCSDownloadToFilename b k k])).
Proof.
  unfold GCSFetch.downloadable, GCSFetch.fetchable, object_at,
    writable, blob_download_to_filename, bucket_blob, parent_error.
  run. cbn [blob_name blob_bucket bucket_name]. red_world.
  rewrite FsFacts.fs_now_trace. cbn [fold_left apply_write].
  destruct (is_dir (removelast _) (fs_now w)).
  2:{ destruct (hits_file _ (fs_now w)); eexists; reflexivity. }
  destruct (is_dir (Py.split _ k) (fs_now w)); [eexists; reflexivity|].
  destruct (lookup _ (gcs w)) as [objs|]; [|eexists; reflexivity]. red_world.
  destruct (find_object k objs) as [o|]; [|eexists; reflexivity].
  destruct (mem k (gcs_faulty w)); [eexists; reflexivity|discriminate].
Qed.

(** A download that went through leaves the other keys as downloadable as
    they were. *)
Lemma s3_downloadable_after (k body : string) (call : event) (w : World) (k' : string) :
  is_fs_write call = false ->
  S3Fetch.downloadable
    (fs_now (with_trace w (trace w ++ [call; WriteFile k body])))
    (with_trace w (trace w ++ [call; WriteFile k body])) k'
  = S3Fetch.downloadable (fs_now w) w k'.
Proof.
  intros Hc. rewrite FsFacts.fs_now_trace. cbn [fold_left].
  replace (apply_write call (fs_now w)) with (fs_now w)
    by (destruct call; try discriminate; reflexivity).
  unfold S3Fetch.downloadable. cbn [apply_write]. now rewrite FsFacts.writable_write.
Qed.

Lemma gcs_downloadable_after (b k body : string) (call : event) (w : World)
      (k' : string) :
  is_fs_write call = false ->
  GCSFetch.downloadable b
    (fs_now (with_trace w (trace w ++ [call; WriteFile k body])))
    (with_trace w (trace w ++ [call; WriteFile k body])) k'
  = GCSFetch.downloadable b (fs_now w) w k'.
Proof.
  intros Hc. rewrite FsFacts.fs_now_trace. cbn [fold_left].
  replace (apply_write call (fs_now w)) with (fs_now w)
    by (destruct call; try discriminate; reflexivity).
  unfold GCSFetch.downloadable. cbn [apply_write]. now rewrite FsFacts.writable_write.
Qed.

(** The S3 download loop: keys are asked for one by one up to the first
    download that fails; each download before it wrote its file. *)
Lemma s3_fetch_loop (files : list string) (w : World) :
  exists r t,
    Download.s3_loop files w = (r, with_trace w (trace w ++ t)) /\
    downloads t = attempts (S3Fetch.downloadable (fs_now w) w) files /\
    fs_writes t = map (fun k => WriteFile k (S3Fetch.body_at w k))
                      (succeeded (S3Fetch.downloadable (fs_now w) w) files) /\
    (r = Ok tt <-> forallb (S3Fetch.downloadable (fs_now w) w) files = true).
Proof.
  unfold Download.s3_loop. revert w. induction files as [|k files IH]; intros w.
  - exists (Ok tt), []. cbn. rewrite app_nil_r.
    destruct w; repeat split; auto.
  - cbn [for_ attempts succeeded forallb]. unfold bind at 1 2. unfold get at 1.
    destruct (S3Fetch.downloadable (fs_now w) w k) eqn:Hk.
    + rewrite (s3_step_ok _ _ Hk).
      set (call := S3DownloadFile (s3_bucket_name w) k k).
      set (w1 := with_trace w (trace w ++ [call; WriteFile k (S3Fetch.body_at w k)])).
      destruct (IH w1) as (r & t & E & Hd & Hw & Hr).
      assert (Hext : forall k', S3Fetch.downloadable (fs_now w1) w1 k'
                                = S3Fetch.downloadable (fs_now w) w k')
        by (intros k'; now apply s3_downloadable_after).
      rewrite (attempts_ext _ _ files Hext) in Hd.
      rewrite (succeeded_ext _ _ files Hext) in Hw.
      rewrite (forallb_ext' _ _ files Hext) in Hr.
      change (S3Fetch.body_at w1) with (S3Fetch.body_at w) in Hw.
      rewrite E. unfold w1. rewrite DownloadFacts.trace_twice.
      eexists r, _. split; [reflexivity|].
      unfold downloads, fs_writes in *.
      cbn [app collect download_of fs_write_of is_fs_write map call].
      rewrite Hd, Hw. repeat split; cbn; apply Hr.
    + destruct (s3_step_fails _ _ Hk) as [e E]. rewrite E.
      eexists (Raise e), _. split; [reflexivity|].
      repeat split; cbn; try discriminate.
Qed.

Lemma gcs_fetch_loop (b : string) (files : list string) (w : World) :
  exists r t,
    Download.gcs_loop (mkBucket b) files w = (r, with_trace w (trace w ++ t)) /\
    downloads t = attempts (GCSFetch.downloadable b (fs_now w) w) files /\
    fs_writes t = map (fun k => WriteFile k (GCSFetch.body_at b w k))
                      (succeeded (GCSFetch.downloadable b (fs_now w) w) files) /\
    (r = Ok tt <-> forallb (GCSFetch.downloadable b (fs_now w) w) files = true).
Proof.
  unfold Download.gcs_loop. revert w. induction files as [|k files IH]; intros w.
  - exists (Ok tt), []. cbn. rewrite app_nil_r.
    destruct w; repeat split; auto.
  - cbn [for_ attempts succeeded forallb]. unfold bind at 1. cbv zeta.
    destruct (GCSFetch.downloadable b (fs_now w) w k) eqn:Hk.
    + rewrite (gcs_step_ok _ _ _ Hk).
      set (call := GCSDownloadToFilename b k k).
      set (w1 := with_trace w (trace w ++ [call; WriteFile k (GCSFetch.body_at b w k)])).
      destruct (IH w1) as (r & t & E & Hd & Hw & Hr).
      assert (Hext : forall k', GCSFetch.downloadable b (fs_now w1) w1 k'
                                = GCSFetch.downloadable b (fs_now w) w k')
        by (intros k'; now apply gcs_downloadable_after).
      rewrite (attempts_ext _ _ files Hext) in Hd.
      rewrite (succeeded_ext _ _ files Hext) in Hw.
      rewrite (forallb_ext' _ _ files Hext) in Hr.
      change (GCSFetch.body_at b w1) with (GCSFetch.body_at b w) in Hw.
      rewrite E. unfold w1. rewrite DownloadFacts.trace_twice.
      eexists r, _. split; [reflexivity|].
      unfold downloads, fs_writes in *.
      cbn [app collect download_of fs_write_of is_fs_write map call].
      rewrite Hd, Hw. repeat split; cbn; apply Hr.
    + destruct (gcs_step_fails _ _ _ Hk) as [e E]. rewrite E.
      eexists (Raise e), _. split; [reflexivity|].
      repeat split; cbn; try discriminate.
Qed.

End FetchFacts.

Module RunFacts.

Lemma os_makedirs_ok (p : string) (w : World) :
  hits_file (Py.split "/"%char p) (fs_now w) = false ->
  os_makedirs p w = (Ok tt, with_trace w (trace w ++ [MakeDirs p])).
Proof. intros H. unfold os_makedirs. run. now rewrite H. Qed.


Lemma s3_view (self : t) (w : World) (d : string) :
  bucket_type self = "s3" ->
  Fetch.selection self w = fst (__get_last_checkpoint_from_s3 self w) /\
  (forall k, Fetch.downloadable self w d k = S3Fetch.downloadable (Fetch.tree w d) w k) /\
  (forall k, Fetch.written self w k = WriteFile k (S3Fetch.body_at w k)).
Proof.
  intros Hb.
  unfold Fetch.selection, Fetch.downloadable, Fetch.fetchable, Fetch.written,
    Fetch.body_at.
  rewrite Hb. repeat split.
Qed.

Lemma gcs_view (self : t) (w : World) (d : string) :
  bucket_type self = "gcs" ->
  Fetch.selection self w
  = fst (__get_last_checkpoint_from_gcs self (mkBucket (gcs_bucket_name w)) w) /\
  (forall k, Fetch.downloadable self w d k
             = GCSFetch.downloadable (gcs_bucket_name w) (Fetch.tree w d) w k) /\
  (forall k, Fetch.written self w k
             = WriteFile k (GCSFetch.body_at (gcs_bucket_name w) w k)).
Proof.
  intros Hb.
  unfold Fetch.selection, Fetch.downloadable, Fetch.fetchable, Fetch.written,
    Fetch.body_at.
  rewrite Hb. repeat split.
Qed.

(** A run of [download_checkpoints] whose helper returned [(d, files)]: the
    directory is made, then the files are fetched in order up to the first
    download that fails. *)
Lemma fetch_run (self : t) (w : World) (d : string) (files : list string) :
  bucket_type self = "s3" \/ bucket_type self = "gcs" ->
  Fetch.selection self w = Ok (d, files) ->
  hits_file (Py.split "/"%char (Fetch.directory w d)) (fs_now w) = false ->
  exists r t,
    download_checkpoints self w = (r, with_trace w (trace w ++ t)) /\
    downloads t = attempts (Fetch.downloadable self w d) files /\
    fs_writes t
    = MakeDirs (Fetch.directory w d)
      :: map (Fetch.written self w) (succeeded (Fetch.downloadable self w d) files) /\
    (forallb (Fetch.downloadable self w d) files = true -> r = Ok PyNone) /\
    (forallb (Fetch.downloadable self w d) files = false -> exists e, r = Raise e).
Proof.
  intros [Hb|Hb] Hsel Hdir.
  - destruct (s3_view self w d Hb) as (Vs & Vd & Vw). rewrite Vs in Hsel.
    rewrite (attempts_ext _ _ files Vd), (succeeded_ext _ _ files Vd),
      (forallb_ext' _ _ files Vd), (map_ext _ _ Vw).
    rewrite (DownloadFacts.download_s3_eq self w Hb). cbv zeta.
    set (w0 := with_trace w (trace w ++ [Print "Downloading checkpoints from S3..."])).
    pose proof (get_last_s3_fst_trace self w (trace w0)) as Hf.
    pose proof (get_last_s3_snd self w0) as Hs.
    fold w0 in Hf.
    change (with_trace w (trace w0)) with w0 in Hf.
    destruct (__get_last_checkpoint_from_s3 self w0) as [res w1].
    cbn [fst snd] in Hf, Hs. rewrite Hsel in Hf. subst res w1.
    unfold w0. rewrite DownloadFacts.trace_twice. red_world.
    fold (Fetch.directory w d).
    rewrite os_makedirs_ok
      by (rewrite FsFacts.fs_now_trace; exact Hdir).
    rewrite DownloadFacts.trace_twice.
    match goal with
    | |- context [Download.s3_loop files ?wl] =>
        destruct (FetchFacts.s3_fetch_loop files wl) as (r & t & E & Hd & Hw & Hr);
        assert (Hext : forall k, S3Fetch.downloadable (fs_now wl) wl k
                                 = S3Fetch.downloadable (Fetch.tree w d) w k)
          by (intros k; rewrite FsFacts.fs_now_trace; reflexivity);
        change (S3Fetch.body_at wl) with (S3Fetch.body_at w) in Hw
    end.
    rewrite (attempts_ext _ _ files Hext) in Hd.
    rewrite (succeeded_ext _ _ files Hext) in Hw.
    rewrite (forallb_ext' _ _ files Hext) in Hr.
    rewrite E, DownloadFacts.trace_twice.
    exists (match r with Ok _ => Ok PyNone | Raise e => Raise e end).
    eexists. split; [destruct r as [[]|e]; reflexivity|].
    unfold downloads, fs_writes in *. rewrite !collect_app, Hd, Hw.
    split; [reflexivity|]. split; [reflexivity|]. split.
    + intros Hall. apply Hr in Hall. now subst r.
    + intros Hall. destruct r as [[]|e]; [|eauto].
      destruct Hr as [Hr _]. rewrite (Hr eq_refl) in Hall. discriminate.
  - destruct (gcs_view self w d Hb) as (Vs & Vd & Vw). rewrite Vs in Hsel.
    rewrite (attempts_ext _ _ files Vd), (succeeded_ext _ _ files Vd),
      (forallb_ext' _ _ files Vd), (map_ext _ _ Vw).
    rewrite (DownloadFacts.download_gcs_eq self w Hb), gcs_get_bucket_spec.
    destruct (lookup (gcs_bucket_name w) (gcs w)) as [objs|] eqn:Hl.
    2:{ rewrite LatestFacts.get_last_gcs_eq in Hsel. cbn [bucket_name] in Hsel.
        rewrite Hl in Hsel. discriminate. }
    cbv zeta. rewrite DownloadFacts.trace_twice.
    set (b := mkBucket (gcs_bucket_name w)) in *.
    match goal with
    | |- context [__get_last_checkpoint_from_gcs self b ?w0] =>
        pose proof (get_last_gcs_snd self b w0) as Hs;
        assert (Hf : fst (__get_last_checkpoint_from_gcs self b w0)
                     = fst (__get_last_checkpoint_from_gcs self b w))
          by apply get_last_gcs_fst_trace;
        destruct (__get_last_checkpoint_from_gcs self b w0) as [res w1]
    end.
    cbn [fst snd] in Hf, Hs. rewrite Hsel in Hf. subst res w1.
    rewrite DownloadFacts.trace_twice. red_world.
    fold (Fetch.directory w d).
    rewrite os_makedirs_ok
      by (rewrite FsFacts.fs_now_trace; exact Hdir).
    rewrite DownloadFacts.trace_twice.
    unfold b at 1.
    match goal with
    | |- context [Download.gcs_loop _ files ?wl] =>
        destruct (FetchFacts.gcs_fetch_loop (gcs_bucket_name w) files wl)
          as (r & t & E & Hd & Hw & Hr);
        assert (Hext : forall k,
                   GCSFetch.downloadable (gcs_bucket_name w) (fs_now wl) wl k
                   = GCSFetch.downloadable (gcs_bucket_name w) (Fetch.tree w d) w k)
          by (intros k; rewrite FsFacts.fs_now_trace; reflexivity);
        change (GCSFetch.body_at (gcs_bucket_name w) wl)
          with (GCSFetch.body_at (gcs_bucket_name w) w) in Hw
    end.
    rewrite (attempts_ext _ _ files Hext) in Hd.
    rewrite (succeeded_ext _ _ files Hext) in Hw.
    rewrite (forallb_ext' _ _ files Hext) in Hr.
    rewrite E, DownloadFacts.trace_twice.
    exists (match r with Ok _ => Ok PyNone | Raise e => Raise e end).
    eexists. split; [destruct r as [[]|e]; reflexivity|].
    unfold downloads, fs_writes in *. rewrite !collect_app, Hd, Hw.
    cbn [bucket_name b].
    split; [reflexivity|]. split; [reflexivity|]. split.
    + intros Hall. apply Hr in Hall. now subst r.
    + intros Hall. destruct r as [[]|e]; [|eauto].
      destruct Hr as [Hr _]. rewrite (Hr eq_refl) in Hall. discriminate.
Qed.


End RunFacts.

(** ** The loader: which keys are selected and asked for *)

Module SplitFacts.

(** The first component of a split is a prefix of the string. *)
Lemma head_prefix (sep : ascii) (s h : string) :
  nth_error (Py.split sep s) 0 = Some h -> String.prefix h s = true.
Proof.
  revert h. induction s as [|c r IH]; intros h; cbn.
  - now intros [= <-].
  - destruct (Ascii.eqb c sep).
    + now intros [= <-].
    + destruct (Py.split sep r) as [|h' t] eqn:E; [now apply PyFacts.split_nonempty in E|].
      intros [= <-]. cbn. destruct (ascii_dec c c) as [_|n]; [|now elim n].
      apply IH. reflexivity.
Qed.

(** Every component of a split occurs in the string. *)
Lemma component_substring (sep : ascii) (s : string) (i : nat) (c : string) :
  nth_error (Py.split sep s) i = Some c -> Py.contains c s = true.
Proof.
  revert i c. induction s as [|ch r IH]; intros i c H.
  - destruct i as [|[|i]]; cbn in H; try discriminate.
    now injection H as <-.
  - destruct i as [|i].
    + apply PyFacts.contains_prefix. now apply (head_prefix sep).
    + cbn [Py.contains]. apply orb_true_iff. right.
      cbn [Py.split] in H. destruct (Ascii.eqb ch sep).
      * apply (IH i). exact H.
      * destruct (Py.split sep r) as [|h' t] eqn:E;
          [now apply PyFacts.split_nonempty in E|].
        apply (IH (S i)). exact H.
Qed.

End SplitFacts.


(** What the helper of the loader's backend returns, from its listing. *)
Lemma selection_of_listing (self : t) (w : World) (objs : list RemoteObject) :
  Fetch.listing self w = Some objs -> objs <> [] ->
  Fetch.selection self w = Latest.select objs.
Proof.
  unfold Fetch.listing, Fetch.selection. intros Hl Hne.
  destruct (String.eqb (bucket_type self) "s3").
  - rewrite LatestFacts.get_last_s3_eq. unfold Latest.listing_bucket. rewrite Hl.
    destruct objs; [congruence|reflexivity].
  - rewrite LatestFacts.get_last_gcs_eq. cbn [bucket_name]. now rewrite Hl.
Qed.





(** ** The loader: empty location *)

(** C5: when the listing returns no object, [download_checkpoints] raises
    (the missing "Contents" entry of the S3 response is a [KeyError],
    the empty GCS list an [IndexError]) and the world it leaves differs from
    the one it found only by the calls it logged, none of which creates a
    directory or writes a file. *)
Theorem empty_location_raises_without_writing :
  forall (self : t) (w : World),
    (bucket_type self = "s3" /\
     lookup "hf-demo-s3-checkpointing-sagemaker" (s3 w) = Some [])
    \/
    (bucket_type self = "gcs" /\ lookup (gcs_bucket_name w) (gcs w) = Some []) ->
    exists e tr,
      download_checkpoints self w = (Raise e, with_trace w (trace w ++ tr)) /\
      e = (if String.eqb (bucket_type self) "s3"
           then KeyError "Contents" else IndexError) /\
      collect fs_write_of tr = [] /\
      collect download_of tr = [].
Proof.
  intros self w [[Hb Hl]|[Hb Hl]].
  - rewrite (DownloadFacts.download_s3_eq self w Hb). cbv zeta.
    rewrite LatestFacts.get_last_s3_eq. cbn [s3 with_trace].
    fold Latest.listing_bucket in Hl. rewrite Hl. cbv zeta.
    rewrite DownloadFacts.trace_twice, Hb.
    eexists _, _. split; [reflexivity|]. now cbn.
  - rewrite (DownloadFacts.download_gcs_eq self w Hb), gcs_get_bucket_spec, Hl.
    cbv zeta. rewrite DownloadFacts.trace_twice, LatestFacts.get_last_gcs_eq.
    cbn [gcs with_trace bucket_name]. rewrite Hl. cbv zeta.
    rewrite DownloadFacts.trace_twice, Hb.
    eexists _, _. split; [reflexivity|]. now cbn.
Qed.

Lemma empty_location_raises_without_writing_witness :
  (exists e tr,
      download_checkpoints (mkLoader "s3") Demo.empty_world
      = (Raise e, with_trace Demo.empty_world (trace Demo.empty_world ++ tr)) /\
      e = KeyError "Contents" /\
      collect fs_write_of tr = [] /\ collect download_of tr = []) /\
  (exists e tr,
      download_checkpoints (mkLoader "gcs") Demo.empty_world
      = (Raise e, with_trace Demo.empty_world (trace Demo.empty_world ++ tr)) /\
      e = IndexError /\
      collect fs_write_of tr = [] /\ collect download_of tr = []).
Proof.
  split.
  - apply (empty_location_raises_without_writing (mkLoader "s3") Demo.empty_world).
    left. split; reflexivity.
  - apply (empty_location_raises_without_writing (mkLoader "gcs") Demo.empty_world).
    right. split; reflexivity.
Defined.

(** ** The loader: what the caller gets back *)

(** Every run of [download_checkpoints] that completes evaluates to [None]. *)
Lemma download_checkpoints_returns_None (self : t) (w : World) (v : pyval) (w' : World) :
  download_checkpoints self w = (Ok v, w') -> v = PyNone.
Proof.
  intros Hrun.
  destruct (String.eqb_spec (bucket_type self) "s3") as [Hs|Hs].
  - now destruct (download_s3_completes self w Hs Hrun).
  - destruct (String.eqb_spec (bucket_type self) "gcs") as [Hg|Hg].
    + now destruct (download_gcs_completes self w Hg Hrun).
    + unfold download_checkpoints in Hrun.
      apply String.eqb_neq in Hs, Hg. rewrite Hs, Hg in Hrun. discriminate.
Qed.

(** C1 fails on the code: in the world of the notebook, where the newest
    objects lie under checkpoint-100, both branches create the directory
    "trainer-demo-checkpointing/checkpoint-100" and download its two files,
    and the call then evaluates to [None], not to that path. *)
Theorem download_checkpoints_drops_the_path :
  (exists w',
      download_checkpoints (mkLoader "s3") Demo.world = (Ok PyNone, w') /\
      collect fs_write_of (trace w')
      = [ MakeDirs "trainer-demo-checkpointing/checkpoint-100";
          WriteFile "trainer-demo-checkpointing/checkpoint-100/config.json" "c100";
          WriteFile "trainer-demo-checkpointing/checkpoint-100/model.bin" "m100" ]) /\
  (exists w',
      download_checkpoints (mkLoader "gcs") Demo.world = (Ok PyNone, w') /\
      collect fs_write_of (trace w')
      = [ MakeDirs "trainer-demo-checkpointing/checkpoint-100";
          WriteFile "trainer-demo-checkpointing/checkpoint-100/config.json" "c100";
          WriteFile "trainer-demo-checkpointing/checkpoint-100/model.bin" "m100" ]) /\
  PyNone <> PyStr "trainer-demo-checkpointing/checkpoint-100".
Proof.
  split; [|split].
  - eexists. split; vm_compute; reflexivity.
  - eexists. split; vm_compute; reflexivity.
  - discriminate.
Qed.

(** ** The loader: the bucket type stays valid *)

Section NeverValueError.

Lemma nve_ret {A} (a : A) : never_value_error (ret a).
Proof. intros w e w'; discriminate. Qed.

Lemma nve_get {A} (f : World -> A) : never_value_error (get f).
Proof. intros w e w'; discriminate. Qed.

Lemma nve_emit (ev : event) : never_value_error (emit ev).
Proof. intros w e w'; discriminate. Qed.

Lemma nve_raise {A} (e : exn) :
  is_value_error e = false -> never_value_error (@raise A e).
Proof. intros H w e' w' [= <- _]. exact H. Qed.

Lemma nve_bind {A B} (m : M A) (k : A -> M B) :
  never_value_error m -> (forall a, never_value_error (k a)) ->
  never_value_error (bind m k).
Proof.
  intros Hm Hk w e w'. unfold bind.
  destruct (m w) as [[a|e1] w1] eqn:E.
  - apply Hk.
  - intros [= <- <-]. eapply Hm, E.
Qed.

Lemma nve_for {A} (l : list A) (body : A -> M unit) :
  (forall x, never_value_error (body x)) -> never_value_error (for_ l body).
Proof.
  intros Hb. induction l as [|x r IH]; cbn [for_].
  - apply nve_ret.
  - apply nve_bind; auto.
Qed.

End NeverValueError.

Lemma parent_error_not_value_error (fs : node) (f : string) (e : exn) :
  parent_error fs f = Some e -> is_value_error e = false.
Proof.
  unfold parent_error. destruct (is_dir _ fs); [discriminate|].
  destruct (hits_file _ fs); intros [= <-]; reflexivity.
Qed.

Ltac nve :=
  repeat first
    [ apply nve_ret | apply nve_get | apply nve_emit
    | apply nve_raise; reflexivity
    | match goal with
      | |- never_value_error (match parent_error ?fs ?f with _ => _ end) =>
          let E := fresh "E" in
          destruct (parent_error fs f) eqn:E;
          [apply nve_raise; exact (parent_error_not_value_error _ _ E)|]
      end
    | apply nve_for; intros
    | apply nve_bind; [|intros]
    | match goal with
      | |- never_value_error (let '(_, _) := ?p in _) => destruct p
      | |- never_value_error (match ?x with _ => _ end) => destruct x
      | |- never_value_error (if ?x then _ else _) => destruct x
      end ].

Lemma nve_download_checkpoints (self : t) :
  bucket_type self = "s3" \/ bucket_type self = "gcs" ->
  never_value_error (download_checkpoints self).
Proof.
  intros [H|H]; unfold download_checkpoints; rewrite H;
    cbn [String.eqb Ascii.eqb Bool.eqb];
    unfold __get_last_checkpoint_from_s3, __get_last_checkpoint_from_gcs,
      s3_list_objects_v2, response_Contents, getlast, getitem, os_makedirs,
      s3_download_file, gcs_get_bucket, bucket_list_blobs,
      blob_download_to_filename;
    nve.
Qed.

(** C9: a loader that the constructor returned has bucket type "s3" or
    "gcs"; the loader is a value that no method rebinds, so in whatever
    world [download_checkpoints] is called on it later, the call does not end
    in the [ValueError] of its last branch. *)
Theorem constructed_loader_never_reaches_else_branch :
  forall (bucket_type : string) (w : World) (self : t) (w' : World),
    __init__ bucket_type w = (Ok self, w') ->
    In (CloudCheckpointLoader.bucket_type self) ["s3"; "gcs"] /\
    forall (w0 : World) (msg : string),
      fst (download_checkpoints self w0) <> Raise (ValueError msg).
Proof.
  intros bt w self w' Hinit.
  destruct (init_accepts bt w Hinit) as (-> & _ & Hbt).
  cbn [CloudCheckpointLoader.bucket_type]. split.
  - destruct Hbt as [->| ->]; cbn; auto.
  - intros w0 msg Hr.
    destruct (download_checkpoints (mkLoader bt) w0) as [r w1] eqn:E.
    cbn [fst] in Hr. subst r.
    now apply (nve_download_checkpoints (mkLoader bt) Hbt) in E.
Qed.

Lemma constructed_loader_never_reaches_else_branch_witness :
  In (CloudCheckpointLoader.bucket_type (mkLoader "gcs")) ["s3"; "gcs"] /\
  forall (w0 : World) (msg : string),
    fst (download_checkpoints (mkLoader "gcs") w0) <> Raise (ValueError msg).
Proof.
  apply (@constructed_loader_never_reaches_else_branch
           "gcs" Demo.world (mkLoader "gcs") Demo.world).
  reflexivity.
Defined.

(** The [else] branch itself: a loader whose bucket type is neither value,
    which the constructor never returns, does end there. *)
Lemma else_branch_raises (w : World) :
  download_checkpoints (mkLoader "azure") w
  = (Raise (ValueError "Invalid bucket type. Please choose either s3 or gcs"), w).
Proof. reflexivity. Qed.

(** ** The loader: which bucket is read *)

(** C10: changing the global [s3_bucket_name] changes neither what the S3
    helper returns nor the bucket it lists, which is the literal
    "hf-demo-s3-checkpointing-sagemaker"; the download calls of
    [download_checkpoints] do name the configured bucket. *)
Theorem s3_listing_ignores_configured_bucket :
  forall (self : t) (w : World) (b : string),
    __get_last_checkpoint_from_s3 self (with_s3_bucket_name w b)
    = (fst (__get_last_checkpoint_from_s3 self w),
       with_s3_bucket_name (snd (__get_last_checkpoint_from_s3 self w)) b)
    /\
    trace (snd (__get_last_checkpoint_from_s3 self w))
    = (trace w ++ [S3ListObjectsV2 "hf-demo-s3-checkpointing-sagemaker"])%list
    /\
    exists r tr,
      download_checkpoints (mkLoader "s3") (with_s3_bucket_name w b)
      = (r, with_trace (with_s3_bucket_name w b) (trace w ++ tr)) /\
      collect s3_listed_bucket tr = ["hf-demo-s3-checkpointing-sagemaker"] /\
      Forall (eq b) (collect s3_download_bucket tr).
Proof.
  intros self w b. split; [|split].
  - rewrite !LatestFacts.get_last_s3_eq. cbn [s3 with_s3_bucket_name trace].
    destruct (lookup _ (s3 w)) as [[|o r]|]; reflexivity.
  - rewrite get_last_s3_snd. reflexivity.
  - set (wb := with_s3_bucket_name w b).
    change (trace w) with (trace wb).
    rewrite (DownloadFacts.download_s3_eq (mkLoader "s3") wb eq_refl). cbv zeta.
    pose proof (get_last_s3_snd (mkLoader "s3")
      (with_trace wb (trace wb ++ [Print "Downloading checkpoints from S3..."]))) as Hs.
    destruct (__get_last_checkpoint_from_s3 _ _) as [[[d files]|e] w1];
      cbn [snd] in Hs; rewrite DownloadFacts.trace_twice in Hs; subst w1.
    + match goal with
      | |- context [os_makedirs ?p ?w0] =>
          destruct (os_makedirs_spec p w0) as [[e E]|E]; rewrite E
      end.
      * eexists _, _. split; [reflexivity|]. cbn. auto.
      * rewrite DownloadFacts.trace_twice.
        match goal with
        | |- context [Download.s3_loop files ?w0] =>
            destruct (DownloadFacts.s3_loop_spec files w0) as (r & tl & El & Hb & Hl & _)
        end.
        rewrite El, DownloadFacts.trace_twice.
        exists (match r with Ok _ => Ok PyNone | Raise e => Raise e end).
        eexists. split; [destruct r as [[]|e]; reflexivity|].
        rewrite !collect_app, Hl. cbn. split; [reflexivity|exact Hb].
    + eexists _, _. split; [reflexivity|]. cbn. auto.
Qed.

(** With the configured bucket renamed, the listing still finds the
    checkpoint and the first download is sent to the renamed bucket. *)
Example renamed_bucket_is_used_for_download_only :
  fst (__get_last_checkpoint_from_s3 (mkLoader "s3")
         (with_s3_bucket_name Demo.world "my-bucket"))
  = fst (__get_last_checkpoint_from_s3 (mkLoader "s3") Demo.world) /\
  trace (snd (download_checkpoints (mkLoader "s3")
                (with_s3_bucket_name Demo.world "my-bucket")))
  = [ Print "Downloading checkpoints from S3...";
      S3ListObjectsV2 "hf-demo-s3-checkpointing-sagemaker";
      MakeDirs "trainer-demo-checkpointing/checkpoint-100";
      S3DownloadFile "my-bucket"
        "trainer-demo-checkpointing/checkpoint-100/config.json"
        "trainer-demo-checkpointing/checkpoint-100/config.json" ].
Proof. split; vm_compute; reflexivity. Qed.

(** ** The callbacks: stores and paths *)

Module StoreFacts.

Lemma lookup_set_bucket (b : string) (objs old : list RemoteObject) (st : store) :
  lookup b st = Some old -> lookup b (set_bucket b objs st) = Some objs.
Proof.
  induction st as [|[b' o'] st IH]; cbn; [discriminate|].
  destruct (String.eqb b b') eqn:E; cbn; rewrite E; auto.
Qed.

Lemma find_object_app (k : string) (l1 l2 : list RemoteObject) :
  find_object k (l1 ++ l2) =
  match find_object k l1 with
  | Some o => Some o
  | None => find_object k l2
  end.
Proof.
  induction l1 as [|o l1 IH]; cbn; [reflexivity|].
  destruct (String.eqb k (Key o)); auto.
Qed.

Lemma find_object_insert_other (k : string) (o : RemoteObject)
      (objs : list RemoteObject) :
  k <> Key o -> find_object k (insert_by_key o objs) = find_object k objs.
Proof.
  intros Hk. apply String.eqb_neq in Hk.
  induction objs as [|x r IH]; cbn; [now rewrite Hk|].
  destruct (String.leb (Key o) (Key x)); cbn; [now rewrite Hk|].
  now rewrite IH.
Qed.

Lemma find_object_insert_same (o : RemoteObject) (objs : list RemoteObject) :
  find_object (Key o) objs = None ->
  find_object (Key o) (insert_by_key o objs) = Some o.
Proof.
  induction objs as [|x r IH]; cbn; [now rewrite String.eqb_refl|].
  destruct (String.eqb (Key o) (Key x)) eqn:E; [discriminate|]. intros H.
  destruct (String.leb (Key o) (Key x)); cbn.
  - now rewrite String.eqb_refl.
  - rewrite E. now apply IH.
Qed.

Lemma find_object_put_same (o : RemoteObject) (objs : list RemoteObject) :
  find_object (Key o) (put o objs) = Some o.
Proof.
  unfold put. apply find_object_insert_same.
  induction objs as [|x r IH]; cbn; [reflexivity|].
  destruct (String.eqb (Key x) (Key o)) eqn:E; cbn; [exact IH|].
  rewrite String.eqb_sym, E. exact IH.
Qed.

Lemma find_object_put_other (k : string) (o : RemoteObject) (objs : list RemoteObject) :
  k <> Key o -> find_object k (put o objs) = find_object k objs.
Proof.
  intros Hk. unfold put. rewrite find_object_insert_other by exact Hk.
  apply String.eqb_neq in Hk.
  induction objs as [|x r IH]; cbn; [reflexivity|].
  destruct (String.eqb (Key x) (Key o)) eqn:E; cbn.
  - apply String.eqb_eq in E. rewrite E, Hk. exact IH.
  - destruct (String.eqb k (Key x)); [reflexivity|exact IH].
Qed.

End StoreFacts.

Module PathsFacts.
Import Paths.

Lemma join2 (a b : string) : Py.join "/" [a; b] = a ++ String "/"%char b.
Proof. reflexivity. Qed.

Lemma walk_app (l1 l2 : list string) (n : node) :
  walk (l1 ++ l2) n =
  match walk l1 n with
  | Some m => walk l2 m
  | None => None
  end.
Proof.
  revert n; induction l1 as [|c l1 IH]; intros n; cbn; [reflexivity|].
  destruct n as [|es]; [reflexivity|].
  destruct (lookup c es); auto.
Qed.

(** The entry [name] of the directory at [dir] is what [dir/name] names. *)
Lemma resolve_child (dir name : string) (root : node) (es : list (string * node)) :
  resolve dir root = Some (Dir es) ->
  Py.contains "/" name = false ->
  resolve (Py.join "/" [dir; name]) root = lookup name es.
Proof.
  unfold resolve. intros Hd Hn.
  rewrite join2, PyFacts.split_app, walk_app, Hd, (PyFacts.split_atom _ _ Hn).
  cbn. now destruct (lookup name es).
Qed.

Lemma flat_lookup (es : list (string * node)) (name : string) :
  flat es -> In name (map fst es) -> exists c, lookup name es = Some (File c).
Proof.
  induction 1 as [|[n nd] es [[c Hc] _] _ IH]; cbn; [tauto|].
  cbn in Hc. subst nd.
  destruct (String.eqb_spec name n) as [->|Hne]; [eauto|].
  intros [->|Hin]; [congruence|auto].
Qed.

Lemma flat_count (es : list (string * node)) :
  flat es -> count_files (Dir es) = length es.
Proof.
  induction 1 as [|[n nd] es [[c Hc] _] _ IH]; [reflexivity|].
  cbn in Hc. subst nd. cbn in IH |- *. now rewrite IH.
Qed.

End PathsFacts.

(** ** The callbacks: the upload loop *)

Module S3UploadFacts.
Import S3Upload.

Lemma s3_body_fails (mc n : string) (w : World) :
  uploadable w (Py.join "/" [mc; n]) = false ->
  exists e,
    body mc n w
    = (Raise e, with_trace w (trace w ++ [call w (Py.join "/" [mc; n])])).
Proof.
  unfold uploadable, body, s3_upload_file, read_local, call. run.
  cbn [cwd s3 s3_faulty clock s3_bucket_name with_trace].
  destruct (resolve _ (cwd w)) as [[c|es]|]; red_world;
    try (intros _; eexists; reflexivity).
  destruct (lookup _ (s3 w)); red_world; [|intros _; eexists; reflexivity].
  destruct (mem _ (s3_faulty w)); [intros _; eexists; reflexivity|discriminate].
Qed.

Lemma s3_body_succeeds (mc n : string) (w : World) :
  uploadable w (Py.join "/" [mc; n]) = true ->
  exists w1,
    body mc n w = (Ok tt, w1) /\
    frame w w1 /\ gcs w1 = gcs w /\
    trace w1 = (trace w ++ [call w (Py.join "/" [mc; n])])%list /\
    (forall q, uploadable w1 q = uploadable w q) /\
    (forall k, mirrored w k -> mirrored w1 k) /\
    mirrored w1 (Py.join "/" [mc; n]).
Proof.
  set (p := Py.join "/" [mc; n]).
  unfold uploadable, body, s3_upload_file, read_local, call. run.
  cbn [cwd s3 s3_faulty clock s3_bucket_name with_trace]. fold p.
  destruct (resolve p (cwd w)) as [[c|es]|] eqn:Hr; try discriminate. red_world.
  destruct (lookup _ (s3 w)) as [objs|] eqn:Hl; [|discriminate]. red_world.
  destruct (mem p (s3_faulty w)) eqn:Hm; [discriminate|]. intros _.
  eexists. split; [reflexivity|].
  assert (Hl' : lookup (s3_bucket_name w)
                  (set_bucket (s3_bucket_name w)
                     (put (mkObject p (clock w) c) objs) (s3 w))
                = Some (put (mkObject p (clock w) c) objs))
    by (eapply StoreFacts.lookup_set_bucket; eauto).
  repeat split; try reflexivity.
  - intros q. unfold uploadable. cbn [cwd s3 s3_faulty s3_bucket_name with_s3 with_trace].
    now rewrite Hl'.
  - intros k (objs0 & o & Hl0 & Hf & Hk). unfold mirrored.
    cbn [cwd s3 s3_bucket_name with_s3 with_trace]. rewrite Hl'.
    rewrite Hl in Hl0. injection Hl0 as <-.
    destruct (String.eqb_spec k p) as [->|Hne].
    + eexists _, _. split; [reflexivity|].
      split; [apply (StoreFacts.find_object_put_same (mkObject p (clock w) c))|].
      exact Hr.
    + eexists _, o. split; [reflexivity|]. split; [|exact Hk].
      now rewrite StoreFacts.find_object_put_other.
  - unfold mirrored. cbn [cwd s3 s3_bucket_name with_s3 with_trace]. rewrite Hl'.
    eexists _, _. split; [reflexivity|].
    split; [apply (StoreFacts.find_object_put_same (mkObject p (clock w) c))|].
    exact Hr.
Qed.

(** [uploadable] says when the call of the loop body returns. *)
Lemma s3_uploadable_iff (mc n : string) (w : World) :
  uploadable w (Py.join "/" [mc; n]) = true <->
  exists w1, body mc n w = (Ok tt, w1).
Proof.
  split.
  - intros H. destruct (s3_body_succeeds mc n w H) as (w1 & E & _). eauto.
  - intros [w1 E]. destruct (uploadable w (Py.join "/" [mc; n])) eqn:H; [reflexivity|].
    destruct (s3_body_fails mc n w H) as [e E']. congruence.
Qed.

(** The loop: calls are issued name by name up to the first upload that
    fails; the files before it stay in the bucket. *)
Lemma s3_upload_loop (mc : string) (names : list string) (w : World) :
  let ok := fun n => uploadable w (Py.join "/" [mc; n]) in
  exists r w',
    for_ names (body mc) w = (r, w') /\
    frame w w' /\ gcs w' = gcs w /\
    trace w' = (trace w ++ map (fun n => call w (Py.join "/" [mc; n]))
                               (attempts ok names))%list /\
    (r = Ok tt <-> forallb ok names = true) /\
    (forall q, uploadable w' q = uploadable w q) /\
    (forall k, mirrored w k -> mirrored w' k) /\
    (forall n, In n (succeeded ok names) -> mirrored w' (Py.join "/" [mc; n])).
Proof.
  cbv zeta. revert w. induction names as [|x names IH]; intros w.
  - exists (Ok tt), w. cbn. rewrite app_nil_r.
    repeat split; auto using frame_refl. tauto.
  - cbn [for_ attempts succeeded forallb]. unfold bind.
    destruct (uploadable w (Py.join "/" [mc; x])) eqn:Hx.
    + destruct (s3_body_succeeds mc x w Hx) as (w1 & E & Hfr & Hg & Ht & Hu & Hm & Hmx).
      rewrite E.
      destruct (IH w1) as (r & w' & E' & Hfr' & Hg' & Ht' & Hr' & Hu' & Hm' & Hs').
      exists r, w'. rewrite E'.
      assert (Hext : forall n, uploadable w1 (Py.join "/" [mc; n])
                               = uploadable w (Py.join "/" [mc; n]))
        by (intros; apply Hu).
      rewrite (attempts_ext _ _ names Hext) in Ht'.
      rewrite (forallb_ext' _ _ names Hext) in Hr'.
      assert (Hb : s3_bucket_name w1 = s3_bucket_name w) by apply Hfr.
      split; [reflexivity|].
      split; [eapply frame_trans; eauto|].
      split; [congruence|].
      split; [rewrite Ht', Ht, <- app_assoc; cbn [map app]; unfold call;
              now rewrite Hb|].
      split; [cbn; exact Hr'|].
      split; [intros q; now rewrite Hu', Hu|].
      split; [auto|].
      intros n [<-|Hn]; [now apply Hm'|].
      apply Hs'. now rewrite (succeeded_ext _ _ names Hext).
    + destruct (s3_body_fails mc x w Hx) as (e & E). rewrite E.
      eexists _, _. split; [reflexivity|]. cbn.
      repeat split; auto using frame_refl; try discriminate; tauto.
Qed.

Import SaveCheckpointsToS3Callback.

Lemma s3_on_save_eq (state : TrainerState) (w : World) :
  let mc := checkpoint_folder (training_name w) (global_step state) in
  on_save state w =
  match resolve mc (cwd w) with
  | Some (Dir es) => for_ (map fst es) (body mc) w
  | Some (File _) => (Raise (NotADirectoryError mc), w)
  | None => (Raise (FileNotFoundError mc), w)
  end.
Proof.
  unfold on_save, os_listdir. run.
  destruct (resolve _ (cwd w)) as [[c|es]|]; reflexivity.
Qed.

End S3UploadFacts.

Module GCSUploadFacts.
Import GCSUpload.

Lemma gcs_body_fails (b mc n : string) (w : World) :
  uploadable b w (Py.join "/" [mc; n]) = false ->
  exists e,
    body (mkBucket b) mc n w
    = (Raise e, with_trace w (trace w ++ [call b (Py.join "/" [mc; n])])).
Proof.
  unfold uploadable, body, blob_upload_from_filename, read_local, call, bucket_blob.
  run. cbn [blob_name blob_bucket bucket_name]. red_world.
  destruct (resolve _ (cwd w)) as [[c|es]|]; red_world;
    try (intros _; eexists; reflexivity).
  destruct (lookup _ (gcs w)); red_world; [|intros _; eexists; reflexivity].
  destruct (mem _ (gcs_faulty w)); [intros _; eexists; reflexivity|discriminate].
Qed.

Lemma gcs_body_succeeds (b mc n : string) (w : World) :
  uploadable b w (Py.join "/" [mc; n]) = true ->
  exists w1,
    body (mkBucket b) mc n w = (Ok tt, w1) /\
    frame w w1 /\ s3 w1 = s3 w /\
    trace w1 = (trace w ++ [call b (Py.join "/" [mc; n])])%list /\
    (forall q, uploadable b w1 q = uploadable b w q) /\
    (forall k, mirrored b w k -> mirrored b w1 k) /\
    mirrored b w1 (Py.join "/" [mc; n]).
Proof.
  set (p := Py.join "/" [mc; n]).
  unfold uploadable, body, blob_upload_from_filename, read_local, call, bucket_blob.
  run. cbn [blob_name blob_bucket bucket_name]. red_world. fold p.
  destruct (resolve p (cwd w)) as [[c|es]|] eqn:Hr; try discriminate. red_world.
  destruct (lookup _ (gcs w)) as [objs|] eqn:Hl; [|discriminate]. red_world.
  destruct (mem p (gcs_faulty w)) eqn:Hm; [discriminate|]. intros _.
  eexists. split; [reflexivity|].
  assert (Hl' : lookup b (set_bucket b (put (mkObject p (clock w) c) objs) (gcs w))
                = Some (put (mkObject p (clock w) c) objs))
    by (eapply StoreFacts.lookup_set_bucket; eauto).
  repeat split; try reflexivity.
  - intros q. unfold uploadable. red_world. now rewrite Hl'.
  - intros k (objs0 & o & Hl0 & Hf & Hk). unfold mirrored. red_world. rewrite Hl'.
    rewrite Hl in Hl0. injection Hl0 as <-.
    destruct (String.eqb_spec k p) as [->|Hne].
    + eexists _, _. split; [reflexivity|].
      split; [apply (StoreFacts.find_object_put_same (mkObject p (clock w) c))|].
      exact Hr.
    + eexists _, o. split; [reflexivity|]. split; [|exact Hk].
      now rewrite StoreFacts.find_object_put_other.
  - unfold mirrored. red_world. rewrite Hl'.
    eexists _, _. split; [reflexivity|].
    split; [apply (StoreFacts.find_object_put_same (mkObject p (clock w) c))|].
    exact Hr.
Qed.

Lemma gcs_uploadable_iff (b mc n : string) (w : World) :
  uploadable b w (Py.join "/" [mc; n]) = true <->
  exists w1, body (mkBucket b) mc n w = (Ok tt, w1).
Proof.
  split.
  - intros H. destruct (gcs_body_succeeds b mc n w H) as (w1 & E & _). eauto.
  - intros [w1 E]. destruct (uploadable b w (Py.join "/" [mc; n])) eqn:H; [reflexivity|].
    destruct (gcs_body_fails b mc n w H) as [e E']. congruence.
Qed.

Lemma gcs_upload_loop (b mc : string) (names : list string) (w : World) :
  let ok := fun n => uploadable b w (Py.join "/" [mc; n]) in
  exists r w',
    for_ names (body (mkBucket b) mc) w = (r, w') /\
    frame w w' /\ s3 w' = s3 w /\
    trace w' = (trace w ++ map (fun n => call b (Py.join "/" [mc; n]))
                               (attempts ok names))%list /\
    (r = Ok tt <-> forallb ok names = true) /\
    (forall q, uploadable b w' q = uploadable b w q) /\
    (forall k, mirrored b w k -> mirrored b w' k) /\
    (forall n, In n (succeeded ok names) -> mirrored b w' (Py.join "/" [mc; n])).
Proof.
  cbv zeta. revert w. induction names as [|x names IH]; intros w.
  - exists (Ok tt), w. cbn. rewrite app_nil_r.
    repeat split; auto using frame_refl. tauto.
  - cbn [for_ attempts succeeded forallb]. unfold bind.
    destruct (uploadable b w (Py.join "/" [mc; x])) eqn:Hx.
    + destruct (gcs_body_succeeds b mc x w Hx) as (w1 & E & Hfr & Hg & Ht & Hu & Hm & Hmx).
      rewrite E.
      destruct (IH w1) as (r & w' & E' & Hfr' & Hg' & Ht' & Hr' & Hu' & Hm' & Hs').
      exists r, w'. rewrite E'.
      assert (Hext : forall n, uploadable b w1 (Py.join "/" [mc; n])
                               = uploadable b w (Py.join "/" [mc; n]))
        by (intros; apply Hu).
      rewrite (attempts_ext _ _ names Hext) in Ht'.
      rewrite (forallb_ext' _ _ names Hext) in Hr'.
      split; [reflexivity|].
      split; [eapply frame_trans; eauto|].
      split; [congruence|].
      split; [rewrite Ht', Ht, <- app_assoc; reflexivity|].
      split; [cbn; exact Hr'|].
      split; [intros q; now rewrite Hu', Hu|].
      split; [auto|].
      intros n [<-|Hn]; [now apply Hm'|].
      apply Hs'. now rewrite (succeeded_ext _ _ names Hext).
    + destruct (gcs_body_fails b mc x w Hx) as (e & E). rewrite E.
      eexists _, _. split; [reflexivity|]. cbn.
      repeat split; auto using frame_refl; try discriminate; tauto.
Qed.

Import SaveCheckpointsToGCSCallback.

Lemma gcs_on_save_eq (state : TrainerState) (w : World) :
  let mc := checkpoint_folder (training_name w) (global_step state) in
  let w0 := with_trace w (trace w ++ [GCSGetBucket (gcs_bucket_name w)]) in
  on_save state w =
  match lookup (gcs_bucket_name w) (gcs w) with
  | None => (Raise (GCSError "NotFound"), w0)
  | Some _ =>
      match resolve mc (cwd w) with
      | Some (Dir es) => for_ (map fst es) (body (mkBucket (gcs_bucket_name w)) mc) w0
      | Some (File _) => (Raise (NotADirectoryError mc), w0)
      | None => (Raise (FileNotFoundError mc), w0)
      end
  end.
Proof.
  unfold on_save, os_listdir, gcs_get_bucket. run. red_world.
  destruct (lookup _ (gcs w)); [|reflexivity]. red_world.
  destruct (resolve _ (cwd w)) as [[c|es]|]; reflexivity.
Qed.

End GCSUploadFacts.

(** ** The callbacks: what one save uploads *)

Lemma uploads_s3_calls (w : World) (mc : string) (names : list string) :
  uploads (map (fun n => S3Upload.call w (Py.join "/" [mc; n])) names) = sent mc names.
Proof. induction names as [|x r IH]; cbn; [reflexivity|]. now f_equal. Qed.

Lemma uploads_gcs_calls (b mc : string) (names : list string) :
  uploads (map (fun n => GCSUpload.call b (Py.join "/" [mc; n])) names) = sent mc names.
Proof. induction names as [|x r IH]; cbn; [reflexivity|]. now f_equal. Qed.

Lemma flat_uploadable (w : World) (mc : string) (es : list (string * node)) (n : string) :
  resolve mc (cwd w) = Some (Dir es) -> Paths.flat es -> In n (map fst es) ->
  exists c, resolve (Py.join "/" [mc; n]) (cwd w) = Some (File c).
Proof.
  intros Hr Hf Hn.
  assert (Hs : Py.contains "/" n = false).
  { unfold Paths.flat in Hf. rewrite Forall_forall in Hf.
    apply in_map_iff in Hn as ([n' nd] & <- & Hin). now apply (Hf _ Hin). }
  rewrite (@PathsFacts.resolve_child mc n (cwd w) es Hr Hs). now apply PathsFacts.flat_lookup.
Qed.

(** C2, as the code has it: [on_save] lists the entries of the checkpoint
    directory itself ([os.listdir], which does not descend) and issues one
    upload call per entry, whose key is
    "<training_name>/checkpoint-<step>/<entry>".  For a directory that holds
    N regular files and no subdirectory, with stores that accept the
    uploads, both callbacks return normally after exactly N such calls. *)
Theorem on_save_uploads_each_entry_of_a_flat_directory :
  forall (state : TrainerState) (w : World) (es : list (string * node)),
    let mc := checkpoint_folder (training_name w) (global_step state) in
    resolve mc (cwd w) = Some (Dir es) ->
    Paths.flat es ->
    lookup (s3_bucket_name w) (s3 w) <> None ->
    lookup (gcs_bucket_name w) (gcs w) <> None ->
    (forall n, In n (map fst es) ->
               mem (Py.join "/" [mc; n]) (s3_faulty w) = false /\
               mem (Py.join "/" [mc; n]) (gcs_faulty w) = false) ->
    length (sent mc (map fst es)) = count_files (Dir es) /\
    (exists w',
        SaveCheckpointsToS3Callback.on_save state w = (Ok tt, w') /\
        uploads (trace w') = (uploads (trace w) ++ sent mc (map fst es))%list) /\
    (exists w',
        SaveCheckpointsToGCSCallback.on_save state w = (Ok tt, w') /\
        uploads (trace w') = (uploads (trace w) ++ sent mc (map fst es))%list).
Proof.
  intros state w es mc Hr Hf Hs3 Hgcs Hok. split; [|split].
  - unfold sent. rewrite !length_map. symmetry. now apply PathsFacts.flat_count.
  - pose proof (S3UploadFacts.s3_on_save_eq state w) as E. cbv zeta in E. fold mc in E.
    rewrite Hr in E. rewrite E.
    destruct (S3UploadFacts.s3_upload_loop mc (map fst es) w)
      as (r & w' & El & _ & _ & Ht & Hres & _).
    assert (Hall : forallb (fun n => S3Upload.uploadable w (Py.join "/" [mc; n]))
                     (map fst es) = true).
    { apply forallb_forall. intros n Hn. unfold S3Upload.uploadable.
      destruct (@flat_uploadable w mc es n Hr Hf Hn) as [c ->].
      destruct (lookup _ (s3 w)); [|congruence].
      now rewrite (proj1 (Hok n Hn)). }
    exists w'. rewrite El. split; [f_equal; now apply Hres|].
    rewrite Ht. unfold uploads at 1. rewrite collect_app.
    rewrite (proj1 (attempts_all _ _ Hall)). fold uploads.
    now rewrite uploads_s3_calls.
  - pose proof (GCSUploadFacts.gcs_on_save_eq state w) as E. cbv zeta in E. fold mc in E.
    rewrite Hr in E. rewrite E.
    destruct (lookup (gcs_bucket_name w) (gcs w)) as [objs|] eqn:Hl; [|congruence].
    destruct (GCSUploadFacts.gcs_upload_loop (gcs_bucket_name w) mc (map fst es)
                (with_trace w (trace w ++ [GCSGetBucket (gcs_bucket_name w)])))
      as (r & w' & El & _ & _ & Ht & Hres & _).
    assert (Hall : forallb (fun n => GCSUpload.uploadable (gcs_bucket_name w)
                                 (with_trace w (trace w ++ [GCSGetBucket (gcs_bucket_name w)]))
                                 (Py.join "/" [mc; n]))
                     (map fst es) = true).
    { apply forallb_forall. intros n Hn. unfold GCSUpload.uploadable. red_world.
      destruct (@flat_uploadable w mc es n Hr Hf Hn) as [c ->].
      rewrite Hl. now rewrite (proj2 (Hok n Hn)). }
    exists w'. rewrite El. split; [f_equal; now apply Hres|].
    rewrite Ht. red_world. unfold uploads at 1. rewrite !collect_app.
    rewrite (proj1 (attempts_all _ _ Hall)). fold uploads.
    rewrite uploads_gcs_calls. cbn [collect upload_of]. now rewrite app_nil_r.
Qed.

Lemma on_save_uploads_each_entry_of_a_flat_directory_witness :
  length (sent "trainer-demo-checkpointing/checkpoint-10" ["config.json"; "weights.bin"])
  = count_files Demo.checkpoint_10 /\
  (exists w',
      SaveCheckpointsToS3Callback.on_save (mkTrainerState 10) Demo.world = (Ok tt, w') /\
      uploads (trace w')
      = (uploads (trace Demo.world)
           ++ sent "trainer-demo-checkpointing/checkpoint-10"
                   ["config.json"; "weights.bin"])%list) /\
  (exists w',
      SaveCheckpointsToGCSCallback.on_save (mkTrainerState 10) Demo.world = (Ok tt, w') /\
      uploads (trace w')
      = (uploads (trace Demo.world)
           ++ sent "trainer-demo-checkpointing/checkpoint-10"
                   ["config.json"; "weights.bin"])%list).
Proof.
  apply (@on_save_uploads_each_entry_of_a_flat_directory
           (mkTrainerState 10) Demo.world
           [("config.json", File "{}"); ("weights.bin", File "12345")]).
  - reflexivity.
  - repeat constructor; eexists; reflexivity.
  - discriminate.
  - discriminate.
  - intros n _. split; reflexivity.
Defined.

(** C2 as stated fails: the checkpoint directory holds two regular files,
    both inside the subdirectory global_step10; each callback issues one
    upload call, for the subdirectory itself, and no call for either file. *)
Lemma on_save_does_not_descend :
  resolve "trainer-demo-checkpointing/checkpoint-10" (cwd Demo.nested_world)
  = Some (Dir [("global_step10",
                Dir [("optim.pt", File "o"); ("model.pt", File "m")])]) /\
  count_files (Dir [("global_step10",
                     Dir [("optim.pt", File "o"); ("model.pt", File "m")])]) = 2%nat /\
  uploads (trace (snd (SaveCheckpointsToS3Callback.on_save
                         (mkTrainerState 10) Demo.nested_world)))
  = [("trainer-demo-checkpointing/checkpoint-10/global_step10",
      "trainer-demo-checkpointing/checkpoint-10/global_step10")] /\
  uploads (trace (snd (SaveCheckpointsToGCSCallback.on_save
                         (mkTrainerState 10) Demo.nested_world)))
  = [("trainer-demo-checkpointing/checkpoint-10/global_step10",
      "trainer-demo-checkpointing/checkpoint-10/global_step10")].
Proof. vm_compute. repeat split; reflexivity. Qed.

(** ** The callbacks: a failing upload *)

(** C7: when the entries before [f] upload and the upload of [f] fails,
    [on_save] raises instead of returning, the call for [f] is the last one
    issued (none for the entries after [f]), and every entry before [f] is in
    the bucket with the bytes of the local file.  For GCS the bucket handle is assumed obtained,
    so that the failure is one of a file transfer. *)
Theorem on_save_failure_surfaces_and_keeps_earlier_uploads :
  forall (state : TrainerState) (w : World) (es : list (string * node))
         (pre post : list string) (f : string),
    let mc := checkpoint_folder (training_name w) (global_step state) in
    resolve mc (cwd w) = Some (Dir es) ->
    map fst es = (pre ++ f :: post)%list ->
    (forallb (fun n => S3Upload.uploadable w (Py.join "/" [mc; n])) pre = true ->
     S3Upload.uploadable w (Py.join "/" [mc; f]) = false ->
     exists e w',
       SaveCheckpointsToS3Callback.on_save state w = (Raise e, w') /\
       uploads (trace w') = (uploads (trace w) ++ sent mc (pre ++ [f]))%list /\
       forall n, In n pre -> S3Upload.mirrored w' (Py.join "/" [mc; n]))
    /\
    (lookup (gcs_bucket_name w) (gcs w) <> None ->
     forallb (fun n => GCSUpload.uploadable (gcs_bucket_name w) w (Py.join "/" [mc; n])) pre
     = true ->
     GCSUpload.uploadable (gcs_bucket_name w) w (Py.join "/" [mc; f]) = false ->
     exists e w',
       SaveCheckpointsToGCSCallback.on_save state w = (Raise e, w') /\
       uploads (trace w') = (uploads (trace w) ++ sent mc (pre ++ [f]))%list /\
       forall n, In n pre ->
                 GCSUpload.mirrored (gcs_bucket_name w) w' (Py.join "/" [mc; n])).
Proof.
  intros state w es pre post f mc Hr Hnames. split.
  - intros Hpre Hf.
    pose proof (S3UploadFacts.s3_on_save_eq state w) as E. cbv zeta in E. fold mc in E.
    rewrite Hr, Hnames in E. rewrite E.
    destruct (S3UploadFacts.s3_upload_loop mc (pre ++ f :: post) w)
      as (r & w' & El & _ & _ & Ht & Hres & _ & _ & Hm).
    destruct (attempts_first_failure
                (fun n => S3Upload.uploadable w (Py.join "/" [mc; n])) pre post f Hpre Hf)
      as (Ha & Hs & Hall).
    rewrite Ha in Ht. rewrite Hs in Hm. rewrite Hall in Hres.
    destruct r as [[]|e]; [destruct Hres as [Hres _]; now specialize (Hres eq_refl)|].
    exists e, w'. rewrite El. split; [reflexivity|]. split; [|exact Hm].
    rewrite Ht. unfold uploads at 1. rewrite collect_app. fold uploads.
    now rewrite uploads_s3_calls.
  - intros Hb Hpre Hf.
    pose proof (GCSUploadFacts.gcs_on_save_eq state w) as E. cbv zeta in E. fold mc in E.
    rewrite Hr, Hnames in E. rewrite E.
    destruct (lookup (gcs_bucket_name w) (gcs w)) as [objs|] eqn:Hl; [|congruence].
    set (w0 := with_trace w (trace w ++ [GCSGetBucket (gcs_bucket_name w)])).
    destruct (GCSUploadFacts.gcs_upload_loop (gcs_bucket_name w) mc (pre ++ f :: post) w0)
      as (r & w' & El & _ & _ & Ht & Hres & _ & _ & Hm).
    change (fun n => GCSUpload.uploadable (gcs_bucket_name w) w0 (Py.join "/" [mc; n]))
      with (fun n => GCSUpload.uploadable (gcs_bucket_name w) w (Py.join "/" [mc; n]))
      in Ht, Hres, Hm.
    destruct (attempts_first_failure
                (fun n => GCSUpload.uploadable (gcs_bucket_name w) w (Py.join "/" [mc; n]))
                pre post f Hpre Hf)
      as (Ha & Hs & Hall).
    rewrite Ha in Ht. rewrite Hs in Hm. rewrite Hall in Hres.
    destruct r as [[]|e]; [destruct Hres as [Hres _]; now specialize (Hres eq_refl)|].
    exists e, w'. rewrite El. split; [reflexivity|]. split; [|exact Hm].
    rewrite Ht. unfold w0. red_world. unfold uploads at 1. rewrite !collect_app.
    fold uploads. rewrite uploads_gcs_calls. cbn [collect upload_of].
    now rewrite app_nil_r.
Qed.

Lemma on_save_failure_surfaces_and_keeps_earlier_uploads_witness :
  (exists e w',
      SaveCheckpointsToS3Callback.on_save (mkTrainerState 10) Demo.faulty_world
      = (Raise e, w') /\
      uploads (trace w')
      = (uploads (trace Demo.faulty_world)
           ++ sent "trainer-demo-checkpointing/checkpoint-10"
                   (["config.json"] ++ ["weights.bin"]))%list /\
      forall n, In n ["config.json"] ->
                S3Upload.mirrored w'
                  (Py.join "/" ["trainer-demo-checkpointing/checkpoint-10"; n])) /\
  (exists e w',
      SaveCheckpointsToGCSCallback.on_save (mkTrainerState 10) Demo.faulty_world
      = (Raise e, w') /\
      uploads (trace w')
      = (uploads (trace Demo.faulty_world)
           ++ sent "trainer-demo-checkpointing/checkpoint-10"
                   (["config.json"] ++ ["weights.bin"]))%list /\
      forall n, In n ["config.json"] ->
                GCSUpload.mirrored "hf-demo-gcs-checkpointing" w'
                  (Py.join "/" ["trainer-demo-checkpointing/checkpoint-10"; n])).
Proof.
  destruct (@on_save_failure_surfaces_and_keeps_earlier_uploads
              (mkTrainerState 10) Demo.faulty_world
              [("config.json", File "{}"); ("weights.bin", File "12345")]
              ["config.json"] [] "weights.bin" eq_refl eq_refl) as [Hs3 Hgcs].
  split.
  - apply Hs3; reflexivity.
  - apply Hgcs; [discriminate|reflexivity|reflexivity].
Defined.

(** ** The callbacks: the two backends agree *)

(** C8: for any training name, step and local directory, when both buckets
    exist and the two stores refuse the same keys, the S3 callback and the
    GCS callback issue upload calls for the same local files under the same
    remote keys, in the same order, and both return normally or both raise;
    when they return, each store holds every file sent under its key. *)
Theorem s3_and_gcs_callbacks_upload_the_same_files :
  forall (state : TrainerState) (w : World),
    lookup (s3_bucket_name w) (s3 w) <> None ->
    lookup (gcs_bucket_name w) (gcs w) <> None ->
    (forall k, mem k (s3_faulty w) = mem k (gcs_faulty w)) ->
    exists r1 w1 r2 w2 files,
      SaveCheckpointsToS3Callback.on_save state w = (r1, w1) /\
      SaveCheckpointsToGCSCallback.on_save state w = (r2, w2) /\
      uploads (trace w1) = (uploads (trace w) ++ files)%list /\
      uploads (trace w2) = (uploads (trace w) ++ files)%list /\
      (r1 = Ok tt <-> r2 = Ok tt) /\
      (r1 = Ok tt ->
       forall p k, In (p, k) files ->
                   p = k /\
                   S3Upload.mirrored w1 k /\
                   GCSUpload.mirrored (gcs_bucket_name w) w2 k).
Proof.
  intros state w Hs3 Hgcs Hfaults.
  pose proof (S3UploadFacts.s3_on_save_eq state w) as E1.
  pose proof (GCSUploadFacts.gcs_on_save_eq state w) as E2.
  cbv zeta in E1, E2. rewrite E1, E2. clear E1 E2.
  set (mc := checkpoint_folder (training_name w) (global_step state)).
  set (w0 := with_trace w (trace w ++ [GCSGetBucket (gcs_bucket_name w)])).
  destruct (lookup (gcs_bucket_name w) (gcs w)) as [gobjs|] eqn:Hlg; [|congruence].
  destruct (lookup (s3_bucket_name w) (s3 w)) as [sobjs|] eqn:Hls; [|congruence].
  assert (Hsame : forall n, GCSUpload.uploadable (gcs_bucket_name w) w0 (Py.join "/" [mc; n])
                            = S3Upload.uploadable w (Py.join "/" [mc; n])).
  { intros n. unfold GCSUpload.uploadable, S3Upload.uploadable, w0. red_world.
    rewrite Hlg, Hls, Hfaults. reflexivity. }
  destruct (resolve mc (cwd w)) as [[c|es]|].
  - exists (Raise (NotADirectoryError mc)), w, (Raise (NotADirectoryError mc)), w0, [].
    unfold w0, uploads. red_world. rewrite collect_app, !app_nil_r. cbn.
    repeat split; try discriminate; tauto.
  - destruct (S3UploadFacts.s3_upload_loop mc (map fst es) w)
      as (r1 & w1 & El1 & _ & _ & Ht1 & Hres1 & _ & _ & Hm1).
    destruct (GCSUploadFacts.gcs_upload_loop (gcs_bucket_name w) mc (map fst es) w0)
      as (r2 & w2 & El2 & _ & _ & Ht2 & Hres2 & _ & _ & Hm2).
    rewrite (attempts_ext _ _ (map fst es) Hsame) in Ht2.
    rewrite (forallb_ext' _ _ (map fst es) Hsame) in Hres2.
    rewrite El1, El2.
    exists r1, w1, r2, w2,
      (sent mc (attempts (fun n => S3Upload.uploadable w (Py.join "/" [mc; n]))
                         (map fst es))).
    split; [reflexivity|]. split; [reflexivity|].
    split; [rewrite Ht1; unfold uploads at 1; rewrite collect_app; fold uploads;
            now rewrite uploads_s3_calls|].
    split; [rewrite Ht2; unfold w0; red_world; unfold uploads at 1;
            rewrite !collect_app; fold uploads; rewrite uploads_gcs_calls;
            cbn [collect upload_of]; now rewrite app_nil_r|].
    split; [rewrite Hres1, Hres2; tauto|].
    intros Hok p k Hin. apply Hres1 in Hok.
    destruct (attempts_all _ _ Hok) as [Ha Hs]. rewrite Ha in Hin.
    unfold sent in Hin. apply in_map_iff in Hin as (n & [= <- <-] & Hn).
    split; [reflexivity|]. split.
    + apply Hm1. now rewrite Hs.
    + apply Hm2. rewrite (succeeded_ext _ _ (map fst es) Hsame). now rewrite Hs.
  - exists (Raise (FileNotFoundError mc)), w, (Raise (FileNotFoundError mc)), w0, [].
    unfold w0, uploads. red_world. rewrite collect_app, !app_nil_r. cbn.
    repeat split; try discriminate; tauto.
Qed.

Lemma s3_and_gcs_callbacks_upload_the_same_files_witness :
  exists r1 w1 r2 w2 files,
    SaveCheckpointsToS3Callback.on_save (mkTrainerState 10) Demo.world = (r1, w1) /\
    SaveCheckpointsToGCSCallback.on_save (mkTrainerState 10) Demo.world = (r2, w2) /\
    uploads (trace w1) = (uploads (trace Demo.world) ++ files)%list /\
    uploads (trace w2) = (uploads (trace Demo.world) ++ files)%list /\
    (r1 = Ok tt <-> r2 = Ok tt) /\
    (r1 = Ok tt ->
     forall p k, In (p, k) files ->
                 p = k /\
                 S3Upload.mirrored w1 k /\
                 GCSUpload.mirrored (gcs_bucket_name Demo.world) w2 k).
Proof.
  apply (@s3_and_gcs_callbacks_upload_the_same_files (mkTrainerState 10) Demo.world).
  - discriminate.
  - discriminate.
  - reflexivity.
Defined.

(** The two callbacks run on the world of the notebook at step 10. *)
Example callbacks_on_the_demo_world :
  uploads (trace (snd (SaveCheckpointsToS3Callback.on_save (mkTrainerState 10) Demo.world)))
  = [ ("trainer-demo-checkpointing/checkpoint-10/config.json",
       "trainer-demo-checkpointing/checkpoint-10/config.json");
      ("trainer-demo-checkpointing/checkpoint-10/weights.bin",
       "trainer-demo-checkpointing/checkpoint-10/weights.bin") ] /\
  uploads (trace (snd (SaveCheckpointsToGCSCallback.on_save (mkTrainerState 10) Demo.world)))
  = uploads (trace (snd (SaveCheckpointsToS3Callback.on_save (mkTrainerState 10) Demo.world))).
Proof. split; vm_compute; reflexivity. Qed.

(** * Further properties *)

(** ** Keys written by the callbacks *)

Module KeyFacts.

Lemma append_assoc (a b c : string) : (a ++ b) ++ c = a ++ (b ++ c).
Proof. induction a as [|x a IH]; cbn; [reflexivity|now rewrite IH]. Qed.

(** Membership of one character distributes over concatenation. *)
Lemma contains_char_app (c : ascii) (a b : string) :
  Py.contains (String c EmptyString) (a ++ b)
  = Py.contains (String c EmptyString) a || Py.contains (String c EmptyString) b.
Proof.
  induction a as [|x a IH].
  - cbn [append]. destruct b; reflexivity.
  - cbn [append Py.contains]. rewrite IH.
    cbn [String.prefix]. destruct (ascii_dec c x); [|reflexivity].
    destruct (a ++ b), a; reflexivity.
Qed.

Lemma uint_no_slash (d : Decimal.uint) :
  Py.contains "/" (NilEmpty.string_of_uint d) = false.
Proof. induction d; cbn; auto. Qed.

(** The decimal form of an integer holds no slash. *)
Lemma str_no_slash (n : Z) : Py.contains "/" (Py.str n) = false.
Proof.
  unfold Py.str, NilZero.string_of_int, NilZero.string_of_uint.
  destruct (Z.to_int n) as [d|d]; destruct d; cbn; auto using uint_no_slash.
Qed.

Lemma checkpoint_name_no_slash (step : Z) :
  Py.contains "/" (checkpoint_name step) = false.
Proof.
  unfold checkpoint_name.
  rewrite (contains_char_app "/"%char "checkpoint-" (Py.str step)), str_no_slash.
  reflexivity.
Qed.

Lemma checkpoint_folder_eq (tn : string) (step : Z) :
  checkpoint_folder tn step = tn ++ String "/"%char (checkpoint_name step).
Proof. reflexivity. Qed.

(** The components of the path of a checkpoint folder of a run whose name
    holds no slash. *)
Lemma split_checkpoint_folder (tn : string) (step : Z) :
  Py.contains "/" tn = false ->
  Py.split "/"%char (checkpoint_folder tn step) = [tn; checkpoint_name step].
Proof.
  intros Htn. rewrite checkpoint_folder_eq, PyFacts.split_app.
  rewrite (PyFacts.split_atom _ _ Htn).
  now rewrite (PyFacts.split_atom _ _ (checkpoint_name_no_slash step)).
Qed.

(** The second component of the key of any entry of the folder is the
    checkpoint name, whatever the entry is called. *)
Lemma second_component (tn : string) (step : Z) (n : string) :
  Py.contains "/" tn = false ->
  nth_error (Py.split "/"%char (Py.join "/" [checkpoint_folder tn step; n])) 1
  = Some (checkpoint_name step).
Proof.
  intros Htn.
  rewrite PathsFacts.join2, PyFacts.split_app, (@split_checkpoint_folder tn step Htn).
  reflexivity.
Qed.

(** The key of an entry of the folder contains the checkpoint name. *)
Lemma key_contains_checkpoint_name (tn : string) (step : Z) (n : string) :
  Py.contains (checkpoint_name step)
    (Py.join "/" [checkpoint_folder tn step; n]) = true.
Proof.
  apply PyFacts.contains_iff.
  exists (tn ++ "/"), (String "/"%char n).
  rewrite PathsFacts.join2, checkpoint_folder_eq.
  rewrite !append_assoc. reflexivity.
Qed.

End KeyFacts.

(** ** Relating the worlds before and after a run *)

Section Relates.
Variable R : World -> World -> Prop.
Hypothesis R_refl : forall w, R w w.
Hypothesis R_trans : forall a b c, R a b -> R b c -> R a c.

Lemma rel_ret {A} (a : A) : relates R (ret a).
Proof. intros w r w' [= _ <-]. apply R_refl. Qed.

Lemma rel_get {A} (f : World -> A) : relates R (get f).
Proof. intros w r w' [= _ <-]. apply R_refl. Qed.

Lemma rel_raise {A} (e : exn) : relates R (@raise A e).
Proof. intros w r w' [= _ <-]. apply R_refl. Qed.

Lemma rel_bind {A B} (m : M A) (k : A -> M B) :
  relates R m -> (forall a, relates R (k a)) -> relates R (bind m k).
Proof.
  intros Hm Hk w r w'. unfold bind.
  destruct (m w) as [[a|e] w1] eqn:E.
  - intros E'. eapply R_trans; [eapply Hm, E|eapply Hk, E'].
  - intros [= _ <-]. eapply Hm, E.
Qed.

Lemma rel_for {A} (l : list A) (body : A -> M unit) :
  (forall x, In x l -> relates R (body x)) -> relates R (for_ l body).
Proof.
  induction l as [|x l IH]; intros Hb; cbn [for_].
  - apply rel_ret.
  - apply rel_bind; [apply Hb; now left|].
    intros _. apply IH. intros y Hy. apply Hb. now right.
Qed.

End Relates.

Lemma read_only_refl (w : World) : read_only w w.
Proof. repeat split. Qed.

Lemma read_only_trans (a b c : World) :
  read_only a b -> read_only b c -> read_only a c.
Proof.
  intros (F1 & S1 & G1 & U1) (F2 & S2 & G2 & U2).
  split; [eapply frame_trans; eauto|]. repeat split; congruence.
Qed.

Lemma read_only_emit (e : event) :
  upload_of e = None -> relates read_only (emit e).
Proof.
  intros He w r w' [= _ <-]. repeat split.
  cbn [trace with_trace]. unfold uploads. rewrite collect_app. cbn [collect].
  rewrite He. apply app_nil_r.
Qed.

Ltac read_only_steps :=
  repeat first
    [ apply rel_ret; [exact read_only_refl]
    | apply rel_get; [exact read_only_refl]
    | apply rel_raise; [exact read_only_refl]
    | apply read_only_emit; reflexivity
    | apply rel_for; [exact read_only_refl|exact read_only_trans|intros]
    | apply rel_bind; [exact read_only_trans| |intros]
    | match goal with
      | |- relates _ (let '(_, _) := ?p in _) => destruct p
      | |- relates _ (match ?x with _ => _ end) => destruct x
      | |- relates _ (if ?x then _ else _) => destruct x
      end ].

(** X5: [download_checkpoints] only reads the stores.  However the call ends,
    for whatever loader, both object stores are what they were and the trace
    has gained no upload call. *)
Theorem download_checkpoints_only_reads_the_stores :
  forall (self : t) (w : World),
    s3 (snd (download_checkpoints self w)) = s3 w /\
    gcs (snd (download_checkpoints self w)) = gcs w /\
    uploads (trace (snd (download_checkpoints self w))) = uploads (trace w).
Proof.
  intros self w.
  assert (H : relates read_only (download_checkpoints self)).
  { unfold download_checkpoints, __get_last_checkpoint_from_s3,
      __get_last_checkpoint_from_gcs, s3_list_objects_v2, response_Contents,
      getlast, getitem, os_makedirs, s3_download_file, gcs_get_bucket,
      bucket_list_blobs, blob_download_to_filename.
    read_only_steps. }
  destruct (download_checkpoints self w) as [r w'] eqn:E.
  destruct (H _ _ _ E) as (_ & Hs & Hg & Hu). auto.
Qed.

(** ** What a save leaves alone *)

Module TouchFacts.

Lemma lookup_set_bucket_other (b b' : string) (objs : list RemoteObject) (st : store) :
  b' <> b -> lookup b' (set_bucket b objs st) = lookup b' st.
Proof.
  intros Hne. induction st as [|[c o] st IH]; cbn; [reflexivity|].
  destruct (String.eqb_spec b c) as [->|Hbc]; cbn.
  - apply String.eqb_neq in Hne. now rewrite Hne.
  - destruct (String.eqb b' c); [reflexivity|exact IH].
Qed.

(** Putting an object under key [p] of bucket [b] changes the store at
    [(b, p)] only. *)
Lemma object_at_put (st : store) (b p : string) (o : RemoteObject)
      (objs : list RemoteObject) (b' k : string) :
  lookup b st = Some objs -> Key o = p ->
  b' <> b \/ k <> p ->
  object_at (set_bucket b (put o objs) st) b' k = object_at st b' k.
Proof.
  intros Hl Hk Hor. unfold object_at.
  destruct (String.eqb_spec b' b) as [->|Hne].
  - rewrite (@StoreFacts.lookup_set_bucket b (put o objs) objs st Hl), Hl.
    destruct Hor as [Hb|Hkp]; [congruence|].
    apply StoreFacts.find_object_put_other. congruence.
  - now rewrite lookup_set_bucket_other.
Qed.

Lemma s3_upload_file_touches (p b : string) (w : World) (r : result unit) (w' : World) :
  s3_upload_file p b p w = (r, w') ->
  frame w w' /\ gcs w' = gcs w /\
  forall b' k, b' <> b \/ k <> p -> object_at (s3 w') b' k = object_at (s3 w) b' k.
Proof.
  unfold s3_upload_file, read_local. run. red_world.
  destruct (resolve p (cwd w)) as [[c|es]|]; red_world;
    try (intros [= _ <-]; repeat split).
  destruct (lookup b (s3 w)) as [objs|] eqn:Hl; red_world;
    [|intros [= _ <-]; repeat split].
  destruct (mem p (s3_faulty w)); intros [= _ <-]; repeat split.
  red_world. intros b' k Hor.
  exact (@object_at_put (s3 w) b p (mkObject p (clock w) c) objs b' k Hl eq_refl Hor).
Qed.

Lemma gcs_upload_touches (p b : string) (w : World) (r : result unit) (w' : World) :
  blob_upload_from_filename (bucket_blob (mkBucket b) p) p w = (r, w') ->
  frame w w' /\ s3 w' = s3 w /\
  forall b' k, b' <> b \/ k <> p -> object_at (gcs w') b' k = object_at (gcs w) b' k.
Proof.
  unfold blob_upload_from_filename, read_local, bucket_blob. run.
  cbn [blob_name blob_bucket bucket_name]. red_world.
  destruct (resolve p (cwd w)) as [[c|es]|]; red_world;
    try (intros [= _ <-]; repeat split).
  destruct (lookup b (gcs w)) as [objs|] eqn:Hl; red_world;
    [|intros [= _ <-]; repeat split].
  destruct (mem p (gcs_faulty w)); intros [= _ <-]; repeat split.
  red_world. intros b' k Hor.
  exact (@object_at_put (gcs w) b p (mkObject p (clock w) c) objs b' k Hl eq_refl Hor).
Qed.

Lemma s3_touches_only_refl (mc : string) (w : World) : s3_touches_only mc w w.
Proof. repeat split. Qed.

Lemma s3_touches_only_trans (mc : string) (a b c : World) :
  s3_touches_only mc a b -> s3_touches_only mc b c -> s3_touches_only mc a c.
Proof.
  intros (F1 & G1 & O1) (F2 & G2 & O2).
  split; [eapply frame_trans; eauto|]. split; [congruence|].
  intros b' k Hor. rewrite O2, O1; auto.
  destruct F1 as (_ & -> & _). exact Hor.
Qed.

Lemma gcs_touches_only_refl (mc : string) (w : World) : gcs_touches_only mc w w.
Proof. repeat split. Qed.

Lemma gcs_touches_only_trans (mc : string) (a b c : World) :
  gcs_touches_only mc a b -> gcs_touches_only mc b c -> gcs_touches_only mc a c.
Proof.
  intros (F1 & G1 & O1) (F2 & G2 & O2).
  split; [eapply frame_trans; eauto|]. split; [congruence|].
  intros b' k Hor. rewrite O2, O1; auto.
  destruct F1 as (_ & _ & -> & _). exact Hor.
Qed.

Lemma s3_body_touches (mc n : string) :
  relates (s3_touches_only mc) (S3Upload.body mc n).
Proof.
  intros w r w' E.
  change (S3Upload.body mc n w)
    with (s3_upload_file (Py.join "/" [mc; n]) (s3_bucket_name w)
            (Py.join "/" [mc; n]) w) in E.
  destruct (s3_upload_file_touches _ _ _ E) as (F & G & O).
  split; [exact F|]. split; [exact G|].
  intros b k [Hb|Hk]; apply O; [now left|right].
  intros ->. apply Hk. now exists n.
Qed.

Lemma gcs_body_touches (b mc n : string) (w : World) (r : result unit) (w' : World) :
  gcs_bucket_name w = b ->
  GCSUpload.body (mkBucket b) mc n w = (r, w') ->
  gcs_touches_only mc w w'.
Proof.
  intros Hb E. unfold GCSUpload.body in E. cbv zeta in E.
  destruct (gcs_upload_touches _ _ _ E) as (F & G & O).
  split; [exact F|]. split; [exact G|].
  intros b' k [Hb'|Hk]; apply O; [left; congruence|right].
  intros ->. apply Hk. now exists n.
Qed.

(** The GCS loop, whose bucket handle was made before it starts. *)
Lemma gcs_loop_touches (b mc : string) (names : list string)
      (w : World) (r : result unit) (w' : World) :
  gcs_bucket_name w = b ->
  for_ names (GCSUpload.body (mkBucket b) mc) w = (r, w') ->
  gcs_touches_only mc w w'.
Proof.
  revert w. induction names as [|x names IH]; intros w Hb; cbn [for_].
  - intros [= _ <-]. apply gcs_touches_only_refl.
  - unfold bind.
    destruct (GCSUpload.body (mkBucket b) mc x w) as [[[]|e] w1] eqn:E.
    + intros E'. pose proof (@gcs_body_touches b mc x w _ w1 Hb E) as T1.
      eapply gcs_touches_only_trans; [exact T1|].
      apply IH; [|exact E']. destruct T1 as ((_ & _ & -> & _) & _). exact Hb.
    + intros [= _ <-]. eapply gcs_body_touches; eauto.
Qed.

End TouchFacts.

(** X6: a save changes nothing but the checkpoint's own objects.  However
    [on_save] ends, the S3 callback leaves the GCS store as it was and, in
    the S3 store, every object that is in another bucket or whose key does
    not lie below "<training_name>/checkpoint-<step>/" is what it was:
    nothing else is overwritten and nothing is deleted.  The GCS callback
    does the same with the stores exchanged. *)
Theorem on_save_touches_only_its_checkpoint :
  forall (state : TrainerState) (w : World),
    let mc := checkpoint_folder (training_name w) (global_step state) in
    (let w' := snd (SaveCheckpointsToS3Callback.on_save state w) in
     gcs w' = gcs w /\
     forall b k, b <> s3_bucket_name w \/ ~ below mc k ->
                 object_at (s3 w') b k = object_at (s3 w) b k)
    /\
    (let w' := snd (SaveCheckpointsToGCSCallback.on_save state w) in
     s3 w' = s3 w /\
     forall b k, b <> gcs_bucket_name w \/ ~ below mc k ->
                 object_at (gcs w') b k = object_at (gcs w) b k).
Proof.
  intros state w mc. split; cbv zeta.
  - pose proof (S3UploadFacts.s3_on_save_eq state w) as E. cbv zeta in E.
    fold mc in E. rewrite E.
    destruct (resolve mc (cwd w)) as [[c|es]|]; try (split; reflexivity).
    destruct (for_ (map fst es) (S3Upload.body mc) w) as [r w'] eqn:El.
    assert (T : s3_touches_only mc w w').
    { eapply (rel_for (TouchFacts.s3_touches_only_refl mc)
                      (@TouchFacts.s3_touches_only_trans mc)); [|exact El].
      intros x _. apply TouchFacts.s3_body_touches. }
    destruct T as (_ & G & O). cbn [snd]. auto.
  - pose proof (GCSUploadFacts.gcs_on_save_eq state w) as E. cbv zeta in E.
    fold mc in E. rewrite E.
    destruct (lookup (gcs_bucket_name w) (gcs w)); [|split; reflexivity].
    destruct (resolve mc (cwd w)) as [[c|es]|]; try (split; reflexivity).
    destruct (for_ _ _ _) as [r w'] eqn:El.
    apply TouchFacts.gcs_loop_touches in El; [|reflexivity].
    destruct El as (_ & G & O). cbn [snd]. split; [exact G|].
    intros b k Hor. now rewrite O.
Qed.

(** ** The loader: complete and interrupted downloads *)

(** X3: a download that goes through for every selected key completes.  When
    the helper returned [(d, files)], the directory "<training_name>/<d>"
    can be created (its path is plain and no regular file lies on it), and
    every key of [files] is a plain path that the store hands out and whose
    local directory is there once "<training_name>/<d>" is, the call returns
    (with [None]) after creating that directory and writing, for each key in
    order, the stored bytes of the object to the local path equal to the
    key. *)
Theorem completed_download_writes_every_selected_object :
  forall (self : t) (w : World) (d : string) (files : list string),
    bucket_type self = "s3" \/ bucket_type self = "gcs" ->
    Fetch.selection self w = Ok (d, files) ->
    Fetch.creatable w d = true ->
    forallb (Fetch.restorable self w d) files = true ->
    exists tr,
      download_checkpoints self w = (Ok PyNone, with_trace w (trace w ++ tr)) /\
      downloads tr = files /\
      fs_writes tr
      = MakeDirs (Py.join "/" [training_name w; d]) :: map (Fetch.written self w) files.
Proof.
  intros self w d files Hb Hsel Hdir Hall.
  unfold Fetch.creatable in Hdir. apply andb_true_iff in Hdir as [_ Hdir].
  apply negb_true_iff in Hdir.
  assert (Hall' : forallb (Fetch.downloadable self w d) files = true).
  { rewrite forallb_forall in *. intros k Hk. specialize (Hall k Hk).
    unfold Fetch.restorable in Hall. now apply andb_true_iff in Hall. }
  destruct (RunFacts.fetch_run self w Hb Hsel Hdir) as (r & tr & E & Hd & Hw & Hok & _).
  destruct (attempts_all _ _ Hall') as [Ha Hs]. rewrite Ha in Hd. rewrite Hs in Hw.
  exists tr. rewrite E, (Hok Hall'). auto.
Qed.

Lemma completed_download_writes_every_selected_object_witness :
  exists tr,
    download_checkpoints (mkLoader "gcs") Demo.world
    = (Ok PyNone, with_trace Demo.world (trace Demo.world ++ tr)) /\
    downloads tr = [ "trainer-demo-checkpointing/checkpoint-100/config.json";
                     "trainer-demo-checkpointing/checkpoint-100/model.bin" ] /\
    fs_writes tr
    = MakeDirs (Py.join "/" [training_name Demo.world; "checkpoint-100"])
      :: map (Fetch.written (mkLoader "gcs") Demo.world)
             [ "trainer-demo-checkpointing/checkpoint-100/config.json";
               "trainer-demo-checkpointing/checkpoint-100/model.bin" ].
Proof.
  apply (@completed_download_writes_every_selected_object
           (mkLoader "gcs") Demo.world "checkpoint-100").
  - right. reflexivity.
  - reflexivity.
  - reflexivity.
  - reflexivity.
Defined.

(** X4: a failing download ends the run and nothing is rolled back.  When
    the directory can be created, the keys before [f] can be restored and
    the store does not hand out [f] (the bucket or the object is missing, or
    the transfer is lost), the call raises, the download call for [f] is the
    last one issued, and the local writes of the run begin with the
    directory created and the files written for the keys before [f]; with
    S3, whose download writes beside the target and renames, these are all
    the local writes. *)
Theorem interrupted_download_keeps_what_was_written :
  forall (self : t) (w : World) (d : string) (pre post : list string) (f : string),
    bucket_type self = "s3" \/ bucket_type self = "gcs" ->
    Fetch.selection self w = Ok (d, (pre ++ f :: post)%list) ->
    Fetch.creatable w d = true ->
    forallb (Fetch.restorable self w d) pre = true ->
    Fetch.fetchable self w f = false ->
    exists e tr rest,
      download_checkpoints self w = (Raise e, with_trace w (trace w ++ tr)) /\
      downloads tr = (pre ++ [f])%list /\
      fs_writes tr
      = (MakeDirs (Py.join "/" [training_name w; d])
           :: map (Fetch.written self w) pre ++ rest)%list /\
      (bucket_type self = "s3" -> rest = []).
Proof.
  intros self w d pre post f Hb Hsel Hdir Hpre Hf.
  unfold Fetch.creatable in Hdir. apply andb_true_iff in Hdir as [_ Hdir].
  apply negb_true_iff in Hdir.
  assert (Hpre' : forallb (Fetch.downloadable self w d) pre = true).
  { rewrite forallb_forall in *. intros k Hk. specialize (Hpre k Hk).
    unfold Fetch.restorable in Hpre. now apply andb_true_iff in Hpre. }
  assert (Hf' : Fetch.downloadable self w d f = false)
    by (unfold Fetch.downloadable; now rewrite Hf).
  destruct (RunFacts.fetch_run self w Hb Hsel Hdir) as (r & tr & E & Hd & Hw & _ & Hfail).
  destruct (attempts_first_failure (Fetch.downloadable self w d) pre post f Hpre' Hf')
    as (Ha & Hs & Hall).
  rewrite Ha in Hd. rewrite Hs in Hw. destruct (Hfail Hall) as [e ->].
  exists e, tr, []. rewrite app_nil_r. auto.
Qed.

Lemma interrupted_download_keeps_what_was_written_witness :
  exists e tr rest,
    download_checkpoints (mkLoader "s3") Scenario.lossy_world
    = (Raise e, with_trace Scenario.lossy_world (trace Scenario.lossy_world ++ tr)) /\
    downloads tr
    = ([ "trainer-demo-checkpointing/checkpoint-100/config.json" ]
         ++ [ "trainer-demo-checkpointing/checkpoint-100/model.bin" ])%list /\
    fs_writes tr
    = (MakeDirs (Py.join "/" [training_name Scenario.lossy_world; "checkpoint-100"])
         :: map (Fetch.written (mkLoader "s3") Scenario.lossy_world)
                [ "trainer-demo-checkpointing/checkpoint-100/config.json" ] ++ rest)%list /\
    (bucket_type (mkLoader "s3") = "s3" -> rest = []).
Proof.
  apply (@interrupted_download_keeps_what_was_written
           (mkLoader "s3") Scenario.lossy_world "checkpoint-100"
           [ "trainer-demo-checkpointing/checkpoint-100/config.json" ] []
           "trainer-demo-checkpointing/checkpoint-100/model.bin").
  - left. reflexivity.
  - reflexivity.
  - reflexivity.
  - reflexivity.
  - reflexivity.
Defined.

(** ** The bucket after a save *)

Module AfterSave.

Lemma In_insert (x o : RemoteObject) (objs : list RemoteObject) :
  In x (insert_by_key o objs) <-> x = o \/ In x objs.
Proof.
  induction objs as [|y objs IH]; cbn.
  - intuition congruence.
  - destruct (String.leb (Key o) (Key y)); cbn; [intuition congruence|].
    rewrite IH. intuition congruence.
Qed.

Lemma In_put (x o : RemoteObject) (objs : list RemoteObject) :
  In x (put o objs) -> x = o \/ In x objs.
Proof.
  unfold put. rewrite In_insert, filter_In. tauto.
Qed.

Lemma In_put_self (o : RemoteObject) (objs : list RemoteObject) : In o (put o objs).
Proof. unfold put. apply In_insert. now left. Qed.

Lemma length_insert (o : RemoteObject) (objs : list RemoteObject) :
  length (insert_by_key o objs) = S (length objs).
Proof.
  induction objs as [|y objs IH]; cbn; [reflexivity|].
  destruct (String.leb (Key o) (Key y)); cbn; [reflexivity|now rewrite IH].
Qed.

Lemma length_put (o : RemoteObject) (objs : list RemoteObject) :
  (length (put o objs) <= S (length objs))%nat.
Proof.
  unfold put. rewrite length_insert. apply le_n_S.
  induction objs as [|y objs IH]; cbn; [lia|].
  destruct (negb _); cbn; lia.
Qed.

Lemma find_object_In (k : string) (objs : list RemoteObject) (o : RemoteObject) :
  find_object k objs = Some o -> In o objs /\ Key o = k.
Proof.
  induction objs as [|x objs IH]; cbn; [discriminate|].
  destruct (String.eqb_spec k (Key x)) as [->|Hne].
  - intros [= <-]. auto.
  - intros H. destruct (IH H). auto.
Qed.

Lemma find_object_of_key (k : string) (objs : list RemoteObject) :
  In k (map Key objs) -> exists o, find_object k objs = Some o.
Proof.
  induction objs as [|x objs IH]; cbn; [tauto|].
  destruct (String.eqb_spec k (Key x)) as [->|Hne]; [eauto|].
  intros [Hx|Hin]; [congruence|auto].
Qed.

(** The world after one upload that goes through. *)
Lemma s3_body_explicit (mc n : string) (w : World) :
  S3Upload.uploadable w (Py.join "/" [mc; n]) = true ->
  exists c objs,
    resolve (Py.join "/" [mc; n]) (cwd w) = Some (File c) /\
    lookup (s3_bucket_name w) (s3 w) = Some objs /\
    S3Upload.body mc n w
    = (Ok tt,
       with_s3 (with_trace w (trace w ++ [S3Upload.call w (Py.join "/" [mc; n])]))
               (set_bucket (s3_bucket_name w)
                  (put (mkObject (Py.join "/" [mc; n]) (clock w) c) objs) (s3 w))).
Proof.
  set (p := Py.join "/" [mc; n]).
  unfold S3Upload.uploadable, S3Upload.body, s3_upload_file, read_local, S3Upload.call.
  run. red_world. fold p.
  destruct (resolve p (cwd w)) as [[c|es]|]; try discriminate. red_world.
  destruct (lookup _ (s3 w)) as [objs|]; [|discriminate]. red_world.
  destruct (mem p (s3_faulty w)); [discriminate|]. intros _.
  exists c, objs. repeat split.
Qed.

Lemma gcs_body_explicit (b mc n : string) (w : World) :
  GCSUpload.uploadable b w (Py.join "/" [mc; n]) = true ->
  exists c objs,
    resolve (Py.join "/" [mc; n]) (cwd w) = Some (File c) /\
    lookup b (gcs w) = Some objs /\
    GCSUpload.body (mkBucket b) mc n w
    = (Ok tt,
       with_gcs (with_trace w (trace w ++ [GCSUpload.call b (Py.join "/" [mc; n])]))
                (set_bucket b
                   (put (mkObject (Py.join "/" [mc; n]) (clock w) c) objs) (gcs w))).
Proof.
  set (p := Py.join "/" [mc; n]).
  unfold GCSUpload.uploadable, GCSUpload.body, blob_upload_from_filename, read_local,
    GCSUpload.call, bucket_blob.
  run. cbn [blob_name blob_bucket bucket_name]. red_world. fold p.
  destruct (resolve p (cwd w)) as [[c|es]|]; try discriminate. red_world.
  destruct (lookup _ (gcs w)) as [objs|]; [|discriminate]. red_world.
  destruct (mem p (gcs_faulty w)); [discriminate|]. intros _.
  exists c, objs. repeat split.
Qed.

(** After a loop in which every upload went through, each object of the
    bucket was there before or is one of the uploads, stamped with the
    clock; when something was uploaded, such an object is in the bucket; the
    bucket grew by no more than the number of uploads. *)
Lemma s3_loop_bucket (mc : string) (names : list string) (w : World)
      (objs : list RemoteObject) :
  lookup (s3_bucket_name w) (s3 w) = Some objs ->
  forallb (fun n => S3Upload.uploadable w (Py.join "/" [mc; n])) names = true ->
  exists w' objs',
    for_ names (S3Upload.body mc) w = (Ok tt, w') /\
    frame w w' /\
    (forall q, S3Upload.uploadable w' q = S3Upload.uploadable w q) /\
    lookup (s3_bucket_name w) (s3 w') = Some objs' /\
    (forall o, In o objs' ->
               In o objs \/
               (LastModified o = clock w /\
                exists n, In n names /\ Key o = Py.join "/" [mc; n])) /\
    (names <> [] -> exists o, In o objs' /\ LastModified o = clock w) /\
    (length objs' <= length objs + length names)%nat.
Proof.
  intros Hl. induction names as [|x names IH] using rev_ind; intros Hall.
  - exists w, objs. split; [reflexivity|]. split; [apply frame_refl|].
    split; [reflexivity|]. split; [exact Hl|]. split; [auto|].
    split; [congruence|]. cbn. lia.
  - rewrite forallb_app in Hall. apply andb_true_iff in Hall as [Hnames Hx].
    cbn [forallb] in Hx. rewrite andb_true_r in Hx.
    destruct (IH Hnames) as (w1 & objs1 & E1 & Hfr & Hu & Hl1 & HA & _ & HD).
    rewrite <- Hu in Hx.
    destruct (s3_body_explicit mc x w1 Hx) as (c & objs0 & _ & Hl0 & E).
    destruct (S3UploadFacts.s3_body_succeeds mc x w1 Hx) as (w2 & E2 & Hfr2 & _ & _ & Hu2 & _).
    rewrite E in E2. injection E2 as <-.
    destruct Hfr as (Ftn & Fbk & Fg & Fcwd & Ff & Fgf & Fclock).
    rewrite Fbk, Hl1 in Hl0. injection Hl0 as <-.
    rewrite Fclock, Fbk in E.
    set (o := mkObject (Py.join "/" [mc; x]) (clock w) c) in *.
    eexists _, (put o objs1).
    split; [rewrite for_app; unfold bind; rewrite E1; cbn [for_]; unfold bind;
            rewrite E; reflexivity|].
    split; [apply frame_trans with (w2 := w1); [repeat split; assumption|];
            rewrite Fclock, Fbk in Hfr2; exact Hfr2|].
    split; [intros q; rewrite <- Hu, <- Hu2; now rewrite Fclock, Fbk|].
    split; [red_world; eapply StoreFacts.lookup_set_bucket; exact Hl1|].
    split; [|split].
    + intros o' Ho'. apply In_put in Ho' as [->|Ho'].
      * right. split; [reflexivity|]. exists x. split; [|reflexivity].
        apply in_or_app. right. now left.
      * destruct (HA o' Ho') as [Hin|(Hs & n & Hn & Hk)]; [now left|].
        right. split; [exact Hs|]. exists n. split; [|exact Hk].
        apply in_or_app. now left.
    + intros _. exists o. split; [apply In_put_self|reflexivity].
    + pose proof (length_put o objs1). rewrite length_app. cbn [length]. lia.
Qed.

Lemma gcs_loop_bucket (b mc : string) (names : list string) (w : World)
      (objs : list RemoteObject) :
  lookup b (gcs w) = Some objs ->
  forallb (fun n => GCSUpload.uploadable b w (Py.join "/" [mc; n])) names = true ->
  exists w' objs',
    for_ names (GCSUpload.body (mkBucket b) mc) w = (Ok tt, w') /\
    frame w w' /\
    (forall q, GCSUpload.uploadable b w' q = GCSUpload.uploadable b w q) /\
    lookup b (gcs w') = Some objs' /\
    (forall o, In o objs' ->
               In o objs \/
               (LastModified o = clock w /\
                exists n, In n names /\ Key o = Py.join "/" [mc; n])) /\
    (names <> [] -> exists o, In o objs' /\ LastModified o = clock w) /\
    (length objs' <= length objs + length names)%nat.
Proof.
  intros Hl. induction names as [|x names IH] using rev_ind; intros Hall.
  - exists w, objs. split; [reflexivity|]. split; [apply frame_refl|].
    split; [reflexivity|]. split; [exact Hl|]. split; [auto|].
    split; [congruence|]. cbn. lia.
  - rewrite forallb_app in Hall. apply andb_true_iff in Hall as [Hnames Hx].
    cbn [forallb] in Hx. rewrite andb_true_r in Hx.
    destruct (IH Hnames) as (w1 & objs1 & E1 & Hfr & Hu & Hl1 & HA & _ & HD).
    rewrite <- Hu in Hx.
    destruct (gcs_body_explicit b mc x w1 Hx) as (c & objs0 & _ & Hl0 & E).
    destruct (GCSUploadFacts.gcs_body_succeeds b mc x w1 Hx)
      as (w2 & E2 & Hfr2 & _ & _ & Hu2 & _).
    rewrite E in E2. injection E2 as <-.
    destruct Hfr as (Ftn & Fbk & Fg & Fcwd & Ff & Fgf & Fclock).
    rewrite Hl1 in Hl0. injection Hl0 as <-.
    rewrite Fclock in E.
    set (o := mkObject (Py.join "/" [mc; x]) (clock w) c) in *.
    eexists _, (put o objs1).
    split; [rewrite for_app; unfold bind; rewrite E1; cbn [for_]; unfold bind;
            rewrite E; reflexivity|].
    split; [apply frame_trans with (w2 := w1); [repeat split; assumption|];
            rewrite Fclock in Hfr2; exact Hfr2|].
    split; [intros q; rewrite <- Hu, <- Hu2; now rewrite Fclock|].
    split; [red_world; eapply StoreFacts.lookup_set_bucket; exact Hl1|].
    split; [|split].
    + intros o' Ho'. apply In_put in Ho' as [->|Ho'].
      * right. split; [reflexivity|]. exists x. split; [|reflexivity].
        apply in_or_app. right. now left.
      * destruct (HA o' Ho') as [Hin|(Hs & n & Hn & Hk)]; [now left|].
        right. split; [exact Hs|]. exists n. split; [|exact Hk].
        apply in_or_app. now left.
    + intros _. exists o. split; [apply In_put_self|reflexivity].
    + pose proof (length_put o objs1). rewrite length_app. cbn [length]. lia.
Qed.

End AfterSave.

(** ** Saving, then resuming *)

Module RoundTripFacts.

Lemma is_name_no_slash (n : string) : is_name n = true -> Py.contains "/" n = false.
Proof.
  unfold is_name. intros H. apply andb_true_iff in H as [H _].
  now apply negb_true_iff in H.
Qed.

Lemma regular_flat (es : list (string * node)) : regular es -> Paths.flat es.
Proof.
  unfold regular, Paths.flat. intros H. eapply Forall_impl; [|exact H].
  intros e [Hc Hn]. split; [exact Hc|now apply is_name_no_slash].
Qed.

Lemma regular_names (es : list (string * node)) (n : string) :
  regular es -> In n (map fst es) -> is_name n = true.
Proof.
  unfold regular. rewrite Forall_forall. intros H Hn.
  apply in_map_iff in Hn as (e & <- & Hin). now apply (H e Hin).
Qed.

Lemma regular_lookup (es : list (string * node)) (n : string) (v : node) :
  regular es -> lookup n es = Some v -> exists c, v = File c.
Proof.
  induction 1 as [|[k nd] es [[c Hc] _] _ IH]; cbn; [discriminate|].
  cbn in Hc. subst nd.
  destruct (String.eqb n k); [intros [= <-]; eauto|exact IH].
Qed.

(** A key directly below a directory of regular files can be written: its
    directory is there and no directory lies at the key. *)
Lemma writable_entry (fs : node) (mc : string) (es : list (string * node)) (k : string) :
  resolve mc fs = Some (Dir es) -> regular es -> entry_key mc k ->
  writable fs k = true.
Proof.
  unfold resolve. intros Hr Hreg (n & -> & Hn).
  unfold writable.
  rewrite PathsFacts.join2, PyFacts.split_app,
    (PyFacts.split_atom _ _ (is_name_no_slash n Hn)).
  rewrite removelast_last. unfold is_dir at 1. rewrite Hr. cbn [andb].
  unfold is_dir. rewrite PathsFacts.walk_app, Hr. cbn [walk].
  destruct (lookup n es) as [v|] eqn:E; [|reflexivity].
  destruct (regular_lookup n Hreg E) as [c ->]. reflexivity.
Qed.

(** The upload calls of a save write nothing locally. *)
Lemma no_writes_s3_calls (w : World) (mc : string) (names : list string) :
  fs_writes (map (fun n => S3Upload.call w (Py.join "/" [mc; n])) names) = [].
Proof. induction names as [|x r IH]; [reflexivity|exact IH]. Qed.

Lemma no_writes_gcs_calls (b mc : string) (names : list string) :
  fs_writes (map (fun n => GCSUpload.call b (Py.join "/" [mc; n])) names) = [].
Proof. induction names as [|x r IH]; [reflexivity|exact IH]. Qed.

(** What the helpers select from a bucket after a save at [step]: every
    object is older than the clock or is an upload of the save, stamped with
    the clock, and there is such an upload. *)
Lemma select_after_save (tn : string) (step : Z) (names : list string)
      (objs objs' : list RemoteObject) (now : Z) :
  Py.contains "/" tn = false ->
  older_than now objs ->
  (forall o, In o objs' ->
             In o objs \/
             (LastModified o = now /\
              exists n, In n names /\ Key o = Py.join "/" [checkpoint_folder tn step; n])) ->
  (exists o, In o objs' /\ LastModified o = now) ->
  Latest.select objs'
  = Ok (checkpoint_name step,
        filter (fun key => Py.contains (checkpoint_name step) key)
               (map Key (Py.sorted LastModified objs'))).
Proof.
  intros Htn Hold HA (o & Ho & Hstamp).
  unfold Latest.select. rewrite PyFacts.last_item_sorted.
  destruct (@PyFacts.latest_some _ LastModified objs') as [m Hm];
    [intros ->; destruct Ho|].
  destruct (PyFacts.latest_greatest LastModified objs' Hm) as [Hin Hmax].
  rewrite Hm. specialize (Hmax o Ho).
  destruct (HA m Hin) as [Hm_old|(_ & n & _ & Hkey)].
  - unfold older_than in Hold. rewrite Forall_forall in Hold.
    specialize (Hold m Hm_old). lia.
  - rewrite Hkey, (@KeyFacts.second_component tn step n Htn). reflexivity.
Qed.

(** The selected files are keys of the bucket that contain the name. *)
Lemma selected (d k : string) (objs : list RemoteObject) :
  In k (map Key objs) -> Py.contains d k = true ->
  In k (filter (fun key => Py.contains d key) (map Key (Py.sorted LastModified objs))).
Proof.
  intros Hin Hc. apply filter_In. split; [|exact Hc].
  eapply Permutation_in; [|exact Hin].
  symmetry. apply Permutation_map, PyFacts.sorted_perm.
Qed.

Lemma selected_inv (d k : string) (objs : list RemoteObject) :
  In k (filter (fun key => Py.contains d key) (map Key (Py.sorted LastModified objs))) ->
  In k (map Key objs) /\ Py.contains d k = true.
Proof.
  intros Hin. apply filter_In in Hin as [Hin Hc]. split; [|exact Hc].
  eapply Permutation_in; [|exact Hin].
  apply Permutation_map, PyFacts.sorted_perm.
Qed.

(** After a save into a directory of regular files, every selected key lies
    directly below the checkpoint folder. *)
Lemma selected_entry (mc ck : string) (es : list (string * node))
      (objs objs' : list RemoteObject) (now : Z) (k : string) :
  regular es ->
  (forall o, In o objs -> Py.contains ck (Key o) = true -> entry_key mc (Key o)) ->
  (forall o, In o objs' ->
             In o objs \/
             (LastModified o = now /\
              exists n, In n (map fst es) /\ Key o = Py.join "/" [mc; n])) ->
  In k (map Key objs') -> Py.contains ck k = true ->
  entry_key mc k.
Proof.
  intros Hreg Hkeys HA Hin Hc. apply in_map_iff in Hin as (o & <- & Hin).
  destruct (HA o Hin) as [Hold|(_ & n & Hn & Hk)].
  - now apply Hkeys.
  - exists n. split; [exact Hk|]. now apply (regular_names n Hreg).
Qed.

End RoundTripFacts.

(** X1: saving to S3 and then resuming from S3 brings every file back.  The
    run name is a name, the configured bucket is the one the loader lists,
    the checkpoint directory holds regular files (at least one) and no local
    write is pending; every object of the bucket is older than the clock, the
    only keys of the bucket that contain the text "checkpoint-<step>" lie
    directly below the checkpoint folder, the objects of the bucket and
    the entries of the directory are at most 1000 together, and the store
    loses nothing.  Then [on_save] returns and leaves at most 1000 objects
    in the bucket, which the one listing call of the loader returns; the
    [download_checkpoints] that follows returns, its first local write creates
    "<training_name>/checkpoint-<step>" and for every entry of the directory
    a file is written at the entry's own path with the entry's own bytes. *)
Theorem s3_save_then_resume_restores_the_checkpoint :
  forall (state : TrainerState) (w : World) (es : list (string * node))
         (objs : list RemoteObject),
    let mc := checkpoint_folder (training_name w) (global_step state) in
    resolve mc (cwd w) = Some (Dir es) ->
    regular es ->
    es <> [] ->
    is_name (training_name w) = true ->
    fs_writes (trace w) = [] ->
    s3_bucket_name w = "hf-demo-s3-checkpointing-sagemaker" ->
    lookup (s3_bucket_name w) (s3 w) = Some objs ->
    (length objs + length es <= 1000)%nat ->
    older_than (clock w) objs ->
    (forall o, In o objs ->
               Py.contains (checkpoint_name (global_step state)) (Key o) = true ->
               entry_key mc (Key o)) ->
    s3_faulty w = [] ->
    exists w1 objs1 tr rest,
      SaveCheckpointsToS3Callback.on_save state w = (Ok tt, w1) /\
      lookup "hf-demo-s3-checkpointing-sagemaker" (s3 w1) = Some objs1 /\
      (length objs1 <= 1000)%nat /\
      download_checkpoints (mkLoader "s3") w1
      = (Ok PyNone, with_trace w1 (trace w1 ++ tr)) /\
      fs_writes tr = MakeDirs mc :: rest /\
      forall n, In n (map fst es) ->
                exists c, lookup n es = Some (File c) /\
                          In (WriteFile (Py.join "/" [mc; n]) c) rest.
Proof.
  intros state w es objs mc Hr Hreg Hne Htn Hfs Hbk Hl Hsize Hold Hkeys Hfaulty.
  pose proof (RoundTripFacts.regular_flat Hreg) as Hflat.
  pose proof (RoundTripFacts.is_name_no_slash _ Htn) as Hslash.
  set (names := map fst es).
  assert (Hall : forallb (fun n => S3Upload.uploadable w (Py.join "/" [mc; n])) names
                 = true).
  { apply forallb_forall. intros n Hn. unfold S3Upload.uploadable.
    destruct (@flat_uploadable w mc es n Hr Hflat Hn) as [c ->].
    now rewrite Hl, Hfaulty. }
  pose proof (S3UploadFacts.s3_on_save_eq state w) as Eq. cbv zeta in Eq.
  fold mc in Eq. rewrite Hr in Eq. fold names in Eq.
  destruct (@AfterSave.s3_loop_bucket mc names w objs Hl Hall)
    as (w1 & objs1 & E1 & Hfr & _ & Hl1 & HA & HE & Hlen).
  destruct (S3UploadFacts.s3_upload_loop mc names w)
    as (r & w1' & El & _ & _ & Ht & _ & _ & _ & Hm).
  rewrite E1 in El. injection El as <- <-.
  rewrite (proj2 (attempts_all _ _ Hall)) in Hm.
  destruct Hfr as (Ftn & Fbk & _ & Fcwd & Ffaulty & _ & _).
  assert (Hfresh : exists o, In o objs1 /\ LastModified o = clock w).
  { apply HE. unfold names. destruct es; [congruence|discriminate]. }
  set (ck := checkpoint_name (global_step state)).
  set (files := filter (fun key => Py.contains ck key)
                       (map Key (Py.sorted LastModified objs1))).
  assert (Hl1' : lookup (s3_bucket_name w1) (s3 w1) = Some objs1) by now rewrite Fbk.
  assert (Hsel : Fetch.selection (mkLoader "s3") w1 = Ok (ck, files)).
  { rewrite (@selection_of_listing (mkLoader "s3") w1 objs1).
    - exact (@RoundTripFacts.select_after_save (training_name w) (global_step state)
               names objs objs1 (clock w) Hslash Hold HA Hfresh).
    - unfold Fetch.listing. cbn [bucket_type String.eqb Ascii.eqb Bool.eqb].
      now rewrite <- Hbk.
    - intros ->. now destruct Hfresh as (o & [] & _). }
  assert (Hnow : fs_now w1 = cwd w).
  { rewrite <- Fcwd. apply FsFacts.fs_now_no_writes. rewrite Ht, collect_app.
    fold fs_writes. now rewrite Hfs, RoundTripFacts.no_writes_s3_calls. }
  assert (Hmc : is_dir (Py.split "/"%char mc) (cwd w) = true).
  { unfold is_dir. unfold resolve in Hr. now rewrite Hr. }
  assert (Hdirectory : Fetch.directory w1 ck = mc).
  { unfold Fetch.directory. now rewrite Ftn. }
  assert (Hdir : hits_file (Py.split "/"%char (Fetch.directory w1 ck)) (fs_now w1)
                 = false).
  { rewrite Hdirectory, Hnow. now apply FsFacts.is_dir_not_hits. }
  assert (Htree : Fetch.tree w1 ck = cwd w).
  { unfold Fetch.tree. rewrite Hdirectory, Hnow. now apply FsFacts.mkdirs_existing. }
  assert (Hdl : forallb (Fetch.downloadable (mkLoader "s3") w1 ck) files = true).
  { apply forallb_forall. intros k Hk.
    apply RoundTripFacts.selected_inv in Hk as [Hk Hc].
    destruct (@AfterSave.find_object_of_key k objs1 Hk) as [ok Hok].
    unfold Fetch.downloadable, Fetch.fetchable, S3Fetch.fetchable, object_at.
    cbn [bucket_type String.eqb Ascii.eqb Bool.eqb].
    rewrite Hl1', Hok, Ffaulty, Hfaulty, Htree. cbn [mem existsb negb andb].
    apply (@RoundTripFacts.writable_entry (cwd w) mc es k Hr Hreg).
    exact (@RoundTripFacts.selected_entry mc ck es objs objs1 (clock w) k
             Hreg Hkeys HA Hk Hc). }
  destruct (@RunFacts.fetch_run (mkLoader "s3") w1 ck files (or_introl eq_refl) Hsel Hdir)
    as (r & tr & E & _ & Hw & Hok & _).
  rewrite (proj2 (attempts_all _ _ Hdl)) in Hw.
  exists w1, objs1, tr, (map (Fetch.written (mkLoader "s3") w1) files).
  split; [now rewrite Eq|].
  split; [now rewrite <- Hbk|].
  split; [unfold names in Hlen; rewrite length_map in Hlen; lia|].
  split; [now rewrite E, (Hok Hdl)|].
  split.
  { now rewrite Hw, Hdirectory. }
  intros n Hn.
  destruct (Hm n Hn) as (objs' & on & Hlo' & Hfo & Hres).
  rewrite Hl1' in Hlo'. injection Hlo' as <-.
  pose proof (RoundTripFacts.is_name_no_slash _
                (RoundTripFacts.regular_names n Hreg Hn)) as Hs.
  rewrite Fcwd, (@PathsFacts.resolve_child mc n (cwd w) es Hr Hs) in Hres.
  exists (Body on). split; [exact Hres|].
  apply in_map_iff. exists (Py.join "/" [mc; n]). split.
  - unfold Fetch.written, Fetch.body_at, S3Fetch.body_at, object_at.
    cbn [bucket_type String.eqb Ascii.eqb Bool.eqb]. now rewrite Hl1', Hfo.
  - apply RoundTripFacts.selected.
    + destruct (@AfterSave.find_object_In _ objs1 on Hfo) as [Hin <-]. now apply in_map.
    + apply KeyFacts.key_contains_checkpoint_name.
Qed.

Lemma s3_save_then_resume_restores_the_checkpoint_witness :
  exists w1 objs1 tr rest,
    SaveCheckpointsToS3Callback.on_save (mkTrainerState 10) Scenario.resume_world
    = (Ok tt, w1) /\
    lookup "hf-demo-s3-checkpointing-sagemaker" (s3 w1) = Some objs1 /\
    (length objs1 <= 1000)%nat /\
    download_checkpoints (mkLoader "s3") w1
    = (Ok PyNone, with_trace w1 (trace w1 ++ tr)) /\
    fs_writes tr
    = MakeDirs (checkpoint_folder (training_name Scenario.resume_world) 10) :: rest /\
    forall n, In n (map fst [("config.json", File "{}"); ("weights.bin", File "12345")]) ->
              exists c,
                lookup n [("config.json", File "{}"); ("weights.bin", File "12345")]
                = Some (File c) /\
                In (WriteFile
                      (Py.join "/"
                         [checkpoint_folder (training_name Scenario.resume_world) 10; n]) c)
                   rest.
Proof.
  apply (@s3_save_then_resume_restores_the_checkpoint
           (mkTrainerState 10) Scenario.resume_world
           [("config.json", File "{}"); ("weights.bin", File "12345")]
           Scenario.resume_objects).
  - reflexivity.
  - repeat constructor; eexists; reflexivity.
  - discriminate.
  - reflexivity.
  - reflexivity.
  - reflexivity.
  - reflexivity.
  - cbn. lia.
  - repeat constructor; cbn; lia.
  - intros o [<-|[<-|[<-|[]]]] Hc; try discriminate Hc.
    exists "config.json". split; reflexivity.
  - reflexivity.
Defined.

(** X2: saving to GCS and then resuming from GCS brings every file back,
    under the same conditions as for S3 except that any configured bucket of
    any size will do: the GCS branch lists the bucket it downloads from, and
    [list_blobs] returns every object. *)
Theorem gcs_save_then_resume_restores_the_checkpoint :
  forall (state : TrainerState) (w : World) (es : list (string * node))
         (objs : list RemoteObject),
    let mc := checkpoint_folder (training_name w) (global_step state) in
    resolve mc (cwd w) = Some (Dir es) ->
    regular es ->
    es <> [] ->
    is_name (training_name w) = true ->
    fs_writes (trace w) = [] ->
    lookup (gcs_bucket_name w) (gcs w) = Some objs ->
    older_than (clock w) objs ->
    (forall o, In o objs ->
               Py.contains (checkpoint_name (global_step state)) (Key o) = true ->
               entry_key mc (Key o)) ->
    gcs_faulty w = [] ->
    exists w1 tr rest,
      SaveCheckpointsToGCSCallback.on_save state w = (Ok tt, w1) /\
      download_checkpoints (mkLoader "gcs") w1
      = (Ok PyNone, with_trace w1 (trace w1 ++ tr)) /\
      fs_writes tr = MakeDirs mc :: rest /\
      forall n, In n (map fst es) ->
                exists c, lookup n es = Some (File c) /\
                          In (WriteFile (Py.join "/" [mc; n]) c) rest.
Proof.
  intros state w es objs mc Hr Hreg Hne Htn Hfs Hl Hold Hkeys Hfaulty.
  pose proof (RoundTripFacts.regular_flat Hreg) as Hflat.
  pose proof (RoundTripFacts.is_name_no_slash _ Htn) as Hslash.
  set (names := map fst es).
  set (b := gcs_bucket_name w).
  set (w0 := with_trace w (trace w ++ [GCSGetBucket b])).
  assert (Hall : forallb (fun n => GCSUpload.uploadable b w0 (Py.join "/" [mc; n])) names
                 = true).
  { apply forallb_forall. intros n Hn. unfold GCSUpload.uploadable, w0. red_world.
    destruct (@flat_uploadable w mc es n Hr Hflat Hn) as [c ->].
    fold b in Hl. now rewrite Hl, Hfaulty. }
  pose proof (GCSUploadFacts.gcs_on_save_eq state w) as Eq. cbv zeta in Eq.
  fold mc b in Eq. fold b in Hl. rewrite Hl, Hr in Eq. fold names w0 in Eq.
  assert (Hl0 : lookup b (gcs w0) = Some objs) by exact Hl.
  destruct (@AfterSave.gcs_loop_bucket b mc names w0 objs Hl0 Hall)
    as (w1 & objs1 & E1 & Hfr & _ & Hl1 & HA & HE & _).
  destruct (GCSUploadFacts.gcs_upload_loop b mc names w0)
    as (r & w1' & El & _ & _ & Ht & _ & _ & _ & Hm).
  rewrite E1 in El. injection El as <- <-.
  rewrite (proj2 (attempts_all _ _ Hall)) in Hm.
  destruct Hfr as (Ftn & _ & Fbk & Fcwd & _ & Ffaulty & _).
  change (training_name w0) with (training_name w) in Ftn.
  change (gcs_bucket_name w0) with b in Fbk.
  change (cwd w0) with (cwd w) in Fcwd.
  change (gcs_faulty w0) with (gcs_faulty w) in Ffaulty.
  change (clock w0) with (clock w) in HA, HE.
  assert (Hfresh : exists o, In o objs1 /\ LastModified o = clock w).
  { apply HE. unfold names. destruct es; [congruence|discriminate]. }
  set (ck := checkpoint_name (global_step state)).
  set (files := filter (fun key => Py.contains ck key)
                       (map Key (Py.sorted LastModified objs1))).
  assert (Hl1' : lookup (gcs_bucket_name w1) (gcs w1) = Some objs1) by now rewrite Fbk.
  assert (Hsel : Fetch.selection (mkLoader "gcs") w1 = Ok (ck, files)).
  { rewrite (@selection_of_listing (mkLoader "gcs") w1 objs1).
    - exact (@RoundTripFacts.select_after_save (training_name w) (global_step state)
               names objs objs1 (clock w) Hslash Hold HA Hfresh).
    - exact Hl1'.
    - intros ->. now destruct Hfresh as (o & [] & _). }
  assert (Hnow : fs_now w1 = cwd w).
  { rewrite <- Fcwd. apply FsFacts.fs_now_no_writes. rewrite Ht. unfold w0. red_world.
    rewrite !collect_app. fold fs_writes.
    now rewrite Hfs, RoundTripFacts.no_writes_gcs_calls. }
  assert (Hmc : is_dir (Py.split "/"%char mc) (cwd w) = true).
  { unfold is_dir. unfold resolve in Hr. now rewrite Hr. }
  assert (Hdirectory : Fetch.directory w1 ck = mc).
  { unfold Fetch.directory. now rewrite Ftn. }
  assert (Hdir : hits_file (Py.split "/"%char (Fetch.directory w1 ck)) (fs_now w1)
                 = false).
  { rewrite Hdirectory, Hnow. now apply FsFacts.is_dir_not_hits. }
  assert (Htree : Fetch.tree w1 ck = cwd w).
  { unfold Fetch.tree. rewrite Hdirectory, Hnow. now apply FsFacts.mkdirs_existing. }
  assert (Hdl : forallb (Fetch.downloadable (mkLoader "gcs") w1 ck) files = true).
  { apply forallb_forall. intros k Hk.
    apply RoundTripFacts.selected_inv in Hk as [Hk Hc].
    destruct (@AfterSave.find_object_of_key k objs1 Hk) as [ok Hok].
    unfold Fetch.downloadable, Fetch.fetchable, GCSFetch.fetchable, object_at.
    cbn [bucket_type String.eqb Ascii.eqb Bool.eqb].
    rewrite Hl1', Hok, Ffaulty, Hfaulty, Htree. cbn [mem existsb negb andb].
    apply (@RoundTripFacts.writable_entry (cwd w) mc es k Hr Hreg).
    exact (@RoundTripFacts.selected_entry mc ck es objs objs1 (clock w) k
             Hreg Hkeys HA Hk Hc). }
  destruct (@RunFacts.fetch_run (mkLoader "gcs") w1 ck files (or_intror eq_refl) Hsel Hdir)
    as (r & tr & E & _ & Hw & Hok & _).
  rewrite (proj2 (attempts_all _ _ Hdl)) in Hw.
  exists w1, tr, (map (Fetch.written (mkLoader "gcs") w1) files).
  split; [now rewrite Eq|]. split; [now rewrite E, (Hok Hdl)|].
  split.
  { now rewrite Hw, Hdirectory. }
  intros n Hn.
  destruct (Hm n Hn) as (objs' & on & Hlo' & Hfo & Hres).
  rewrite Hl1 in Hlo'. injection Hlo' as <-.
  pose proof (RoundTripFacts.is_name_no_slash _
                (RoundTripFacts.regular_names n Hreg Hn)) as Hs.
  rewrite Fcwd, (@PathsFacts.resolve_child mc n (cwd w) es Hr Hs) in Hres.
  exists (Body on). split; [exact Hres|].
  apply in_map_iff. exists (Py.join "/" [mc; n]). split.
  - unfold Fetch.written, Fetch.body_at, GCSFetch.body_at, object_at.
    cbn [bucket_type String.eqb Ascii.eqb Bool.eqb]. now rewrite Hl1', Hfo.
  - apply RoundTripFacts.selected.
    + destruct (@AfterSave.find_object_In _ objs1 on Hfo) as [Hin <-]. now apply in_map.
    + apply KeyFacts.key_contains_checkpoint_name.
Qed.

Lemma gcs_save_then_resume_restores_the_checkpoint_witness :
  exists w1 tr rest,
    SaveCheckpointsToGCSCallback.on_save (mkTrainerState 10) Scenario.resume_world
    = (Ok tt, w1) /\
    download_checkpoints (mkLoader "gcs") w1
    = (Ok PyNone, with_trace w1 (trace w1 ++ tr)) /\
    fs_writes tr
    = MakeDirs (checkpoint_folder (training_name Scenario.resume_world) 10) :: rest /\
    forall n, In n (map fst [("config.json", File "{}"); ("weights.bin", File "12345")]) ->
              exists c,
                lookup n [("config.json", File "{}"); ("weights.bin", File "12345")]
                = Some (File c) /\
                In (WriteFile
                      (Py.join "/"
                         [checkpoint_folder (training_name Scenario.resume_world) 10; n]) c)
                   rest.
Proof.
  apply (@gcs_save_then_resume_restores_the_checkpoint
           (mkTrainerState 10) Scenario.resume_world
           [("config.json", File "{}"); ("weights.bin", File "12345")]
           Scenario.resume_objects).
  - reflexivity.
  - repeat constructor; eexists; reflexivity.
  - discriminate.
  - reflexivity.
  - reflexivity.
  - reflexivity.
  - repeat constructor; cbn; lia.
  - intros o [<-|[<-|[<-|[]]]] Hc; try discriminate Hc.
    exists "config.json". split; reflexivity.
  - reflexivity.
Defined.

(** ** The shape of the keys a save writes *)

Lemma first_component (tn : string) (step : Z) (n : string) :
  Py.contains "/" tn = false ->
  nth_error (Py.split "/"%char (Py.join "/" [checkpoint_folder tn step; n])) 0
  = Some tn.
Proof.
  intros Htn.
  rewrite PathsFacts.join2, PyFacts.split_app,
    (@KeyFacts.split_checkpoint_folder tn step Htn).
  reflexivity.
Qed.

Lemma in_sent (mc : string) (names : list string) (p k : string) :
  In (p, k) (sent mc names) -> exists n, p = Py.join "/" [mc; n] /\ k = p.
Proof.
  unfold sent. intros H. apply in_map_iff in H as (n & [= <- <-] & _).
  exists n. split; reflexivity.
Qed.

(** X7: the keys a save writes have the shape the loader reads.  For a run
    whose name holds no slash, every upload call that [on_save] issues, in
    either callback and however the call ends, sends a local path to the key
    equal to that path, whose first component is the run name and whose
    second component is "checkpoint-<step>": on such a key the loader's
    [split("/")[1]] does not raise. *)
Theorem uploaded_keys_name_run_and_checkpoint :
  forall (state : TrainerState) (w : World),
    Py.contains "/" (training_name w) = false ->
    let shaped (new : list (string * string)) :=
      forall p k, In (p, k) new ->
                  p = k /\
                  nth_error (Py.split "/"%char k) 0 = Some (training_name w) /\
                  nth_error (Py.split "/"%char k) 1
                  = Some (checkpoint_name (global_step state)) in
    (exists new,
        uploads (trace (snd (SaveCheckpointsToS3Callback.on_save state w)))
        = (uploads (trace w) ++ new)%list /\ shaped new) /\
    (exists new,
        uploads (trace (snd (SaveCheckpointsToGCSCallback.on_save state w)))
        = (uploads (trace w) ++ new)%list /\ shaped new).
Proof.
  intros state w Htn shaped.
  set (mc := checkpoint_folder (training_name w) (global_step state)).
  assert (Hshape : forall l, shaped (sent mc l)).
  { intros l p k Hin. apply in_sent in Hin as (n & -> & ->).
    split; [reflexivity|]. split.
    - now apply first_component.
    - now apply KeyFacts.second_component. }
  assert (Hnil : shaped []) by (intros p k []).
  split.
  - pose proof (S3UploadFacts.s3_on_save_eq state w) as E. cbv zeta in E.
    fold mc in E. rewrite E.
    destruct (resolve mc (cwd w)) as [[c|es]|];
      try (exists []; split; [now rewrite app_nil_r|exact Hnil]).
    destruct (S3UploadFacts.s3_upload_loop mc (map fst es) w)
      as (r & w' & El & _ & _ & Ht & _).
    rewrite El. cbn [snd]. eexists. split; [|apply Hshape].
    rewrite Ht. unfold uploads at 1. rewrite collect_app. fold uploads.
    now rewrite uploads_s3_calls.
  - pose proof (GCSUploadFacts.gcs_on_save_eq state w) as E. cbv zeta in E.
    fold mc in E. rewrite E.
    assert (Hget : forall r,
               uploads (trace (snd (r : result unit,
                  with_trace w (trace w ++ [GCSGetBucket (gcs_bucket_name w)]))))
               = (uploads (trace w) ++ [])%list).
    { intros r. cbn [snd trace with_trace]. unfold uploads.
      rewrite collect_app. reflexivity. }
    destruct (lookup (gcs_bucket_name w) (gcs w));
      [|exists []; split; [apply Hget|exact Hnil]].
    destruct (resolve mc (cwd w)) as [[c|es]|];
      try (exists []; split; [apply Hget|exact Hnil]).
    destruct (GCSUploadFacts.gcs_upload_loop (gcs_bucket_name w) mc (map fst es)
                (with_trace w (trace w ++ [GCSGetBucket (gcs_bucket_name w)])))
      as (r & w' & El & _ & _ & Ht & _).
    rewrite El. cbn [snd]. eexists. split; [|apply Hshape].
    rewrite Ht. red_world. unfold uploads at 1. rewrite !collect_app. fold uploads.
    rewrite uploads_gcs_calls. cbn [collect upload_of]. now rewrite app_nil_r.
Qed.

Lemma uploaded_keys_name_run_and_checkpoint_witness :
  let shaped (new : list (string * string)) :=
    forall p k, In (p, k) new ->
                p = k /\
                nth_error (Py.split "/"%char k) 0 = Some (training_name Demo.world) /\
                nth_error (Py.split "/"%char k) 1 = Some (checkpoint_name 10) in
  (exists new,
      uploads (trace (snd (SaveCheckpointsToS3Callback.on_save
                             (mkTrainerState 10) Demo.world)))
      = (uploads (trace Demo.world) ++ new)%list /\ shaped new) /\
  (exists new,
      uploads (trace (snd (SaveCheckpointsToGCSCallback.on_save
                             (mkTrainerState 10) Demo.world)))
      = (uploads (trace Demo.world) ++ new)%list /\ shaped new).
Proof.
  apply (@uploaded_keys_name_run_and_checkpoint (mkTrainerState 10) Demo.world).
  reflexivity.
Defined.

(** ** What the substring test selects *)

Module SelectFacts.

Lemma contains_trans (a b c : string) :
  Py.contains a b = true -> Py.contains b c = true -> Py.contains a c = true.
Proof.
  intros Hab Hbc.
  apply PyFacts.contains_iff in Hab as (x & y & ->).
  apply PyFacts.contains_iff in Hbc as (u & v & ->).
  apply PyFacts.contains_iff. exists (u ++ x), (y ++ v).
  now rewrite !KeyFacts.append_assoc.
Qed.

Lemma permutation_filter {A} (f : A -> bool) (l1 l2 : list A) :
  Permutation l1 l2 -> Permutation (filter f l1) (filter f l2).
Proof.
  induction 1 as [|x l1 l2 _ IH|x y l|l1 l2 l3 _ IH1 _ IH2]; cbn.
  - constructor.
  - destruct (f x); [now constructor|exact IH].
  - destruct (f x), (f y); try reflexivity. apply perm_swap.
  - now transitivity (filter f l2).
Qed.

(** In a list with one element strictly newer than the others, that element
    is the newest. *)
Lemma latest_of_strict_max {A} (key : A -> Z) (l : list A) (o : A) :
  In o l ->
  (forall x, In x l -> key x < key o \/ x = o) ->
  latest key l = Some o.
Proof.
  intros Hin Hmax.
  destruct (@PyFacts.latest_some A key l) as [m Hm]; [now intros ->|].
  destruct (PyFacts.latest_greatest key l Hm) as [Hmin Hge].
  destruct (Hmax m Hmin) as [Hlt| ->]; [|exact Hm].
  specialize (Hge o Hin). lia.
Qed.

End SelectFacts.

(** X8: the substring test also takes the files of directories whose name
    contains the selected name.  Whenever the helper returns [(d, files)],
    every listed object whose own directory name (the second component of
    its key) contains [d] has its key in [files]: with checkpoint-1 newest,
    the files of checkpoint-10 are downloaded as well. *)
Theorem selection_takes_directories_that_contain_the_name :
  forall (self : t) (w : World) (objs : list RemoteObject)
         (d : string) (files : list string) (o : RemoteObject) (d' : string),
    Fetch.listing self w = Some objs ->
    Fetch.selection self w = Ok (d, files) ->
    In o objs ->
    nth_error (Py.split "/"%char (Key o)) 1 = Some d' ->
    Py.contains d d' = true ->
    In (Key o) files.
Proof.
  intros self w objs d files o d' Hl Hsel Hin Hd' Hc.
  rewrite (selection_of_listing self w Hl) in Hsel
    by (intros ->; destruct Hin).
  apply select_ok in Hsel as (_ & _ & Hfiles).
  apply Hfiles. split; [now apply in_map|].
  eapply SelectFacts.contains_trans; [exact Hc|].
  eapply SplitFacts.component_substring; exact Hd'.
Qed.

Lemma selection_takes_directories_that_contain_the_name_witness :
  In (Key (mkObject "run/checkpoint-10/model.bin" 3 "old"))
     ["run/checkpoint-10/model.bin"; "run/checkpoint-1/model.bin"].
Proof.
  apply (@selection_takes_directories_that_contain_the_name
           (mkLoader "s3") Scenario.prefix_world Scenario.prefix_objects
           "checkpoint-1" _ _ "checkpoint-10").
  - reflexivity.
  - reflexivity.
  - right. left. reflexivity.
  - reflexivity.
  - reflexivity.
Defined.

(** X9: when one object is strictly newer than all others, the order of the
    listing does not matter.  For two listings that hold the same objects in
    any order, with one object strictly newer than every other, the helper
    returns the same directory and the same files up to their order, or
    raises the same exception. *)
Theorem selection_ignores_listing_order_without_ties :
  forall (self : t) (w1 w2 : World) (objs1 objs2 : list RemoteObject)
         (o : RemoteObject),
    Fetch.listing self w1 = Some objs1 ->
    Fetch.listing self w2 = Some objs2 ->
    Permutation objs1 objs2 ->
    In o objs1 ->
    (forall x, In x objs1 -> LastModified x < LastModified o \/ x = o) ->
    Fetch.agree (Fetch.selection self w1) (Fetch.selection self w2).
Proof.
  intros self w1 w2 objs1 objs2 o Hl1 Hl2 Hperm Hin Hmax.
  assert (Hin2 : In o objs2) by (eapply Permutation_in; eauto).
  rewrite (selection_of_listing self w1 Hl1) by (intros ->; destruct Hin).
  rewrite (selection_of_listing self w2 Hl2) by (intros ->; destruct Hin2).
  unfold Latest.select. rewrite !PyFacts.last_item_sorted.
  rewrite (@SelectFacts.latest_of_strict_max _ LastModified objs1 o Hin Hmax).
  rewrite (@SelectFacts.latest_of_strict_max _ LastModified objs2 o Hin2).
  - destruct (nth_error _ 1) as [d|]; cbn; [|reflexivity].
    split; [reflexivity|]. apply SelectFacts.permutation_filter, Permutation_map.
    rewrite !PyFacts.sorted_perm. exact Hperm.
  - intros x Hx. apply Hmax. eapply Permutation_in; [symmetry|]; eauto.
Qed.

Lemma selection_ignores_listing_order_without_ties_witness :
  Fetch.agree
    (Fetch.selection (mkLoader "gcs") Scenario.prefix_world)
    (Fetch.selection (mkLoader "gcs")
       (with_gcs Scenario.prefix_world
          [("hf-demo-gcs-checkpointing", rev Scenario.prefix_objects)])).
Proof.
  apply (@selection_ignores_listing_order_without_ties
           (mkLoader "gcs") Scenario.prefix_world _
           Scenario.prefix_objects (rev Scenario.prefix_objects)
           (mkObject "run/checkpoint-1/model.bin" 7 "new")).
  - reflexivity.
  - reflexivity.
  - apply Permutation_rev.
  - left. reflexivity.
  - intros x [<-|[<-|[]]]; [right; reflexivity|left; cbn; lia].
Defined.

(** ** The cell that resumes *)

(** X11: the resume branch hands [None] to [from_pretrained].  When the cell
    runs with [load_from_checkpoint] set and reaches the call of
    [from_pretrained], the S3 loader has downloaded the files that its helper
    selected and created their directory, and the argument that the cell
    passes is [None], not the path of that directory. *)
Theorem resume_branch_passes_None_to_from_pretrained :
  forall (w : World) (v : pyval) (w' : World),
    TrainingCell.from_pretrained_argument true w = (Ok v, w') ->
    v = PyNone /\
    exists d files tr,
      fst (__get_last_checkpoint_from_s3 (mkLoader "s3") w) = Ok (d, files) /\
      downloads (trace w') = (downloads (trace w) ++ files)%list /\
      trace w' = (trace w ++ tr)%list /\
      In (MakeDirs (Py.join "/" [training_name w; d])) tr.
Proof.
  intros w v w'. unfold TrainingCell.from_pretrained_argument, __init__.
  cbn [mem existsb bucket_type String.eqb Ascii.eqb Bool.eqb orb].
  unfold bind at 1. unfold ret at 1. unfold bind. unfold ret.
  destruct (download_checkpoints (mkLoader "s3") w) as [[v0|e] w0] eqn:E;
    [|discriminate].
  intros [= <- <-].
  destruct (@download_s3_completes (mkLoader "s3") w v0 w0 eq_refl E)
    as (Hv & d & files & Hsel & Hd & tr & Ht & Hin).
  split; [exact Hv|]. exists d, files, tr. auto.
Qed.

Lemma resume_branch_passes_None_to_from_pretrained_witness :
  PyNone = PyNone /\
  exists d files tr,
    fst (__get_last_checkpoint_from_s3 (mkLoader "s3") Demo.world) = Ok (d, files) /\
    downloads (trace (snd (TrainingCell.from_pretrained_argument true Demo.world)))
    = (downloads (trace Demo.world) ++ files)%list /\
    trace (snd (TrainingCell.from_pretrained_argument true Demo.world))
    = (trace Demo.world ++ tr)%list /\
    In (MakeDirs (Py.join "/" [training_name Demo.world; d])) tr.
Proof.
  apply (@resume_branch_passes_None_to_from_pretrained
           Demo.world PyNone
           (snd (TrainingCell.from_pretrained_argument true Demo.world))).
  reflexivity.
Defined.

(** ** A checkpoint that holds a subdirectory *)

Lemma lookup_In {A} (k : string) (l : list (string * A)) (v : A) :
  lookup k l = Some v -> In k (map fst l).
Proof.
  induction l as [|[k' v'] l IH]; cbn; [discriminate|].
  destruct (String.eqb_spec k k') as [->|Hne]; [auto|].
  intros H. right. now apply IH.
Qed.

Lemma forallb_false {A} (f : A -> bool) (l : list A) (x : A) :
  In x l -> f x = false -> forallb f l = false.
Proof.
  intros Hin Hx. destruct (forallb f l) eqn:E; [|reflexivity].
  rewrite forallb_forall in E. rewrite (E x Hin) in Hx. discriminate.
Qed.

Lemma attempts_incl {A} (ok : A -> bool) (l : list A) (x : A) :
  In x (attempts ok l) -> In x l.
Proof.
  induction l as [|y l IH]; cbn; [tauto|].
  destruct (ok y); cbn; [|tauto]. intros [->|H]; auto.
Qed.

Lemma append_inv_head (a b c : string) : a ++ b = a ++ c -> b = c.
Proof.
  induction a as [|x a IH]; cbn; [auto|]. intros [= H]. now apply IH.
Qed.

(** The key of an entry whose name holds no slash does not lie below
    another entry of the same folder. *)
Lemma entry_not_below (mc n x : string) :
  Py.contains "/" x = false ->
  ~ below (Py.join "/" [mc; n]) (Py.join "/" [mc; x]).
Proof.
  intros Hx [y Hy]. rewrite !PathsFacts.join2, KeyFacts.append_assoc in Hy.
  apply append_inv_head in Hy. injection Hy as Hy.
  assert (Hc : Py.contains "/" x = true)
    by (apply PyFacts.contains_iff; now exists n, y).
  congruence.
Qed.

(** What the upload calls of a save of the folder [mc] with entries [es]
    look like, up to the first that fails. *)
Lemma sent_entries (mc n : string) (es : list (string * node))
      (ok : string -> bool) (p k : string) :
  Forall (fun e => Py.contains "/" (fst e) = false) es ->
  In (p, k) (sent mc (attempts ok (map fst es))) ->
  (exists x, In x (map fst es) /\ p = Py.join "/" [mc; x] /\ k = p) /\
  ~ below (Py.join "/" [mc; n]) k.
Proof.
  intros Hnames Hin. unfold sent in Hin.
  apply in_map_iff in Hin as (x & [= <- <-] & Hx).
  apply attempts_incl in Hx. split; [now exists x|].
  apply entry_not_below.
  rewrite Forall_forall in Hnames.
  apply in_map_iff in Hx as (e & <- & He). now apply Hnames.
Qed.

(** X10: a checkpoint directory that holds a subdirectory is never saved
    completely, and the files inside the subdirectory are never sent.  When
    an entry [n] of the directory is itself a directory, both callbacks
    raise: the upload call for that entry, if the loop gets to it, is given
    a directory where the SDK opens a file.  Every upload call issued sends
    a direct entry of the checkpoint directory to the key equal to its path,
    and no call names a key below "<checkpoint folder>/<n>". *)
Theorem on_save_raises_on_a_subdirectory :
  forall (state : TrainerState) (w : World) (es sub : list (string * node))
         (n : string),
    let mc := checkpoint_folder (training_name w) (global_step state) in
    let entries_only (new : list (string * string)) :=
      forall p k, In (p, k) new ->
                  (exists x, In x (map fst es) /\ p = Py.join "/" [mc; x] /\ k = p) /\
                  ~ below (Py.join "/" [mc; n]) k in
    resolve mc (cwd w) = Some (Dir es) ->
    lookup n es = Some (Dir sub) ->
    Forall (fun e => Py.contains "/" (fst e) = false) es ->
    (exists e new,
        fst (SaveCheckpointsToS3Callback.on_save state w) = Raise e /\
        uploads (trace (snd (SaveCheckpointsToS3Callback.on_save state w)))
        = (uploads (trace w) ++ new)%list /\
        entries_only new) /\
    (exists e new,
        fst (SaveCheckpointsToGCSCallback.on_save state w) = Raise e /\
        uploads (trace (snd (SaveCheckpointsToGCSCallback.on_save state w)))
        = (uploads (trace w) ++ new)%list /\
        entries_only new).
Proof.
  intros state w es sub n mc entries_only Hr Hn Hnames.
  pose proof (lookup_In n es Hn) as Hin.
  assert (Hs : Py.contains "/" n = false).
  { rewrite Forall_forall in Hnames.
    apply in_map_iff in Hin as (e & <- & He). now apply Hnames. }
  pose proof (@PathsFacts.resolve_child mc n (cwd w) es Hr Hs) as Hres.
  rewrite Hn in Hres. split.
  - pose proof (S3UploadFacts.s3_on_save_eq state w) as E. cbv zeta in E.
    fold mc in E. rewrite Hr in E. rewrite E.
    destruct (S3UploadFacts.s3_upload_loop mc (map fst es) w)
      as (r & w' & El & _ & _ & Ht & Hok & _).
    rewrite El. cbn [fst snd]. destruct r as [[]|e].
    + destruct Hok as [Hok _]. specialize (Hok eq_refl).
      rewrite (forallb_false _ _ n Hin) in Hok; [discriminate|].
      unfold S3Upload.uploadable. now rewrite Hres.
    + exists e. eexists. split; [reflexivity|]. split.
      * rewrite Ht. unfold uploads at 1. rewrite collect_app. fold uploads.
        now rewrite uploads_s3_calls.
      * intros p k Hpk. exact (@sent_entries mc n es _ p k Hnames Hpk).
  - pose proof (GCSUploadFacts.gcs_on_save_eq state w) as E. cbv zeta in E.
    fold mc in E. rewrite Hr in E. rewrite E.
    destruct (lookup (gcs_bucket_name w) (gcs w)).
    2:{ eexists. exists []. split; [reflexivity|]. split.
        - cbn [snd trace with_trace]. unfold uploads. rewrite collect_app. reflexivity.
        - intros p k []. }
    destruct (GCSUploadFacts.gcs_upload_loop (gcs_bucket_name w) mc (map fst es)
                (with_trace w (trace w ++ [GCSGetBucket (gcs_bucket_name w)])))
      as (r & w' & El & _ & _ & Ht & Hok & _).
    rewrite El. cbn [fst snd]. destruct r as [[]|e].
    + destruct Hok as [Hok _]. specialize (Hok eq_refl).
      rewrite (forallb_false _ _ n Hin) in Hok; [discriminate|].
      unfold GCSUpload.uploadable. red_world. now rewrite Hres.
    + exists e. eexists. split; [reflexivity|]. split.
      * rewrite Ht. red_world. unfold uploads at 1. rewrite !collect_app. fold uploads.
        rewrite uploads_gcs_calls. cbn [collect upload_of]. now rewrite app_nil_r.
      * intros p k Hpk. exact (@sent_entries mc n es _ p k Hnames Hpk).
Qed.

Lemma on_save_raises_on_a_subdirectory_witness :
  let mc := checkpoint_folder (training_name Demo.nested_world) 10 in
  let entries_only (new : list (string * string)) :=
    forall p k, In (p, k) new ->
                (exists x,
                    In x (map fst [("global_step10",
                                    Dir [("optim.pt", File "o"); ("model.pt", File "m")])]) /\
                    p = Py.join "/" [mc; x] /\ k = p) /\
                ~ below (Py.join "/" [mc; "global_step10"]) k in
  (exists e new,
      fst (SaveCheckpointsToS3Callback.on_save (mkTrainerState 10) Demo.nested_world)
      = Raise e /\
      uploads (trace (snd (SaveCheckpointsToS3Callback.on_save
                             (mkTrainerState 10) Demo.nested_world)))
      = (uploads (trace Demo.nested_world) ++ new)%list /\
      entries_only new) /\
  (exists e new,
      fst (SaveCheckpointsToGCSCallback.on_save (mkTrainerState 10) Demo.nested_world)
      = Raise e /\
      uploads (trace (snd (SaveCheckpointsToGCSCallback.on_save
                             (mkTrainerState 10) Demo.nested_world)))
      = (uploads (trace Demo.nested_world) ++ new)%list /\
      entries_only new).
Proof.
  apply (@on_save_raises_on_a_subdirectory
           (mkTrainerState 10) Demo.nested_world
           [("global_step10", Dir [("optim.pt", File "o"); ("model.pt", File "m")])]
           [("optim.pt", File "o"); ("model.pt", File "m")] "global_step10").
  - reflexivity.
  - reflexivity.
  - repeat constructor.
Defined.
